(** * monitor_simple.py: a shallow embedding and its verified properties

    The script samples memory and disk usage, enumerates the java
    processes of the host and reports their resident memory, either
    once (snapshot mode, [main]) or in a refreshing table (live mode,
    [watch_java]).

    Conventions of the embedding:
    - Python [int] is [Z]; Python [float] is [pyfloat] below, an exact
      model of the finite binary64 values, the two zeros and the two
      infinities (no computation of the script produces a NaN);
    - Python [str] is [string], read as a sequence of Unicode code
      points in the range U+0000..U+00FF; [bytes] is [list ascii]. The
      one operation of the script that behaves differently on text
      beyond U+00FF, [str.lower] with the scoring loop built on it, is
      modelled on arbitrary text as well, in [Wide];
    - code that may raise returns a [result]; [try]/[except Exception]
      is [try_except];
    - a dict is a [gmap]. *)

From Stdlib Require Import ZArith Lia List Bool Ascii String Sorted Permutation.
From stdpp Require Import base option strings gmap.
Import ListNotations.

Set Default Proof Using "Type".

(** ** Exceptions *)

(** The exception classes the operations of the script can raise; every
    one of them is a subclass of [Exception]. *)
Inductive exn : Type :=
  | OSError
  | ValueError
  | IndexError
  | ZeroDivisionError
  | OverflowError
  | CalledProcessError.

Inductive result (A : Type) : Type :=
  | Ok (a : A)
  | Raise (e : exn).
Arguments Ok {A} a.
Arguments Raise {A} e.

Definition rbind {A B} (r : result A) (k : A -> result B) : result B :=
  match r with
  | Ok a => k a
  | Raise e => Raise e
  end.

Notation "x <-- r ;; k" := (rbind r (fun x => k))
  (at level 100, r at next level, right associativity).

(** [try: body except Exception: handler]. Every member of [exn] is an
    [Exception], so the handler takes over whatever was raised. *)
Definition try_except {A} (body : result A) (handler : result A) : result A :=
  match body with
  | Ok a => Ok a
  | Raise _ => handler
  end.

Definition returns {A} (r : result A) : Prop := exists a, r = Ok a.

(** ** Binary64 arithmetic *)

Module F64.
Local Open Scope Z_scope.

(** A finite binary64 value is an integer multiple of [2^-1074]; [Fin k]
    is the value [k * 2^-1074]. [Fin 0] is [0.0], [NegZero] is [-0.0]. *)
Inductive pyfloat : Type :=
  | NegZero
  | Fin (k : Z)
  | Inf (neg : bool).

Definition unit_exp : Z := 1074.
Definition one_k : Z := 2 ^ unit_exp.
Definition huge_k : Z := 2 ^ 2098.

(** Nearest integer to [n/d], ties to the even one ([0 <= n], [0 < d]). *)
Definition round_half_even (n d : Z) : Z :=
  let q := n / d in
  let r := n mod d in
  match 2 * r ?= d with
  | Lt => q
  | Gt => q + 1
  | Eq => if Z.even q then q else q + 1
  end.

(** Nearest integer to [n/d], ties away from zero ([0 <= n], [0 < d]). *)
Definition round_half_away (n d : Z) : Z :=
  let q := n / d in
  let r := n mod d in
  if 2 * r <? d then q else q + 1.

(** The spacing of the binary64 grid around [n/d] (in units of
    [2^-1074]) is [2 ^ ulp_shift n d]: 53 significant bits, and never
    finer than the unit. *)
Definition ulp_shift (n d : Z) : Z := Z.max (Z.log2 (n / d) - 52) 0.

(** Round-to-nearest-even of the magnitude [n/d] onto the binary64 grid. *)
Definition round_grid (n d : Z) : Z :=
  let s := ulp_shift n d in
  round_half_even n (d * 2 ^ s) * 2 ^ s.

Definition signed (neg : bool) (k : Z) : pyfloat :=
  if k =? 0 then (if neg then NegZero else Fin 0)
  else Fin (if neg then - k else k).

(** [a / b] on Python ints: the correctly rounded quotient. *)
Definition truediv (a b : Z) : result pyfloat :=
  if b =? 0 then Raise ZeroDivisionError
  else
    let neg := xorb (a <? 0) (b <? 0) in
    let k := round_grid (Z.abs a * one_k) (Z.abs b) in
    if huge_k <=? k then Raise OverflowError else Ok (signed neg k).

(** [float(a)] for an int the binary64 format holds exactly. *)
Definition of_int (a : Z) : pyfloat := Fin (a * one_k).

Definition is_neg (x : pyfloat) : bool :=
  match x with
  | NegZero => true
  | Fin k => k <? 0
  | Inf neg => neg
  end.

(** [x * y] on floats; an overflow gives an infinity, not an exception.
    No caller multiplies an infinity by a zero. *)
Definition fmul (x y : pyfloat) : pyfloat :=
  let neg := xorb (is_neg x) (is_neg y) in
  match x, y with
  | Fin kx, Fin ky =>
      let k := round_grid (Z.abs kx * Z.abs ky) one_k in
      if huge_k <=? k then Inf neg else signed neg k
  | Inf _, _ | _, Inf _ => Inf neg
  | _, _ => signed neg 0
  end.

(** The decimal [round(x, 1)] settles on, as a number of tenths: the
    exact binary value of [x] is rounded, ties to even. *)
Definition tenths (k : Z) : Z := round_half_even (10 * Z.abs k) one_k.

(** The binary64 value nearest to [n/10]. *)
Definition grid_of_tenths (n : Z) : Z := round_grid (n * one_k) 10.

(** [round(x, 1)]: the float nearest to the decimal above, with the
    sign of [x]. *)
Definition round1 (x : pyfloat) : result pyfloat :=
  match x with
  | Fin k =>
      let m := grid_of_tenths (tenths k) in
      if huge_k <=? m then Raise OverflowError else Ok (signed (k <? 0) m)
  | _ => Ok x
  end.

(** The value in units of [2^-1074]; comparisons are only taken on
    finite values and zeros. *)
Definition units (x : pyfloat) : Z :=
  match x with
  | NegZero => 0
  | Fin k => k
  | Inf neg => if neg then - huge_k else huge_k
  end.

Definition feqb (x y : pyfloat) : bool := units x =? units y.
Definition fltb (x y : pyfloat) : bool := units x <? units y.
Definition fleb (x y : pyfloat) : bool := units x <=? units y.

End F64.

(** ** Python text and bytes operations *)

Module Py.
Local Open Scope string_scope.

Definition bytes : Type := list ascii.

Definition code (c : ascii) : N := N_of_ascii c.

Definition between (lo hi : N) (c : ascii) : bool :=
  (lo <=? code c)%N && (code c <=? hi)%N.

(** [c.isspace()] on U+0000..U+00FF: TAB..CR, FS..US, SPACE, NEL, NBSP. *)
Definition isspace (c : ascii) : bool :=
  between 9 13 c || between 28 32 c || (code c =? 133)%N || (code c =? 160)%N.

(** The ASCII whitespace [bytes.strip()] removes. *)
Definition isspace_byte (c : ascii) : bool :=
  between 9 13 c || (code c =? 32)%N.

(** A line boundary of [str.splitlines()]. *)
Definition islinebreak (c : ascii) : bool :=
  between 10 13 c || between 28 30 c || (code c =? 133)%N.

(** [c.lower()]: A..Z, and the upper-case letters of U+00C0..U+00DE
    (all but the multiplication sign U+00D7), move up by 32. *)
Definition lower_char (c : ascii) : ascii :=
  if between 65 90 c || (between 192 222 c && negb (code c =? 215)%N)
  then ascii_of_N (code c + 32)
  else c.

(** [s.lower()] on text within U+0000..U+00FF, where it goes character
    by character and keeps the length; [Wide.ulower] is [str.lower] on
    arbitrary text, and the two agree on this range. *)
Fixpoint lower (s : string) : string :=
  match s with
  | "" => ""
  | String c s' => String (lower_char c) (lower s')
  end.

Definition nonempty (s : string) : bool :=
  match s with
  | "" => false
  | _ => true
  end.

Fixpoint lstrip (s : string) : string :=
  match s with
  | "" => ""
  | String c s' => if isspace c then lstrip s' else s
  end.

Fixpoint rstrip (s : string) : string :=
  match s with
  | "" => ""
  | String c s' =>
      match rstrip s' with
      | "" => if isspace c then "" else String c ""
      | r => String c r
      end
  end.

(** [s.strip()] *)
Definition strip (s : string) : string := rstrip (lstrip s).

(** [s.split(sep)] for a one-character separator: never an empty list. *)
Fixpoint split_on (sep : ascii) (s : string) : list string :=
  match s with
  | "" => [""]
  | String c s' =>
      if Ascii.eqb c sep then "" :: split_on sep s'
      else
        match split_on sep s' with
        | w :: ws => String c w :: ws
        | [] => [String c ""]
        end
  end.

(** The word being read at the front of [s], and the words after it. *)
Fixpoint words_from (s : string) : string * list string :=
  match s with
  | "" => ("", [])
  | String c s' =>
      let '(w, ws) := words_from s' in
      if isspace c then ("", if nonempty w then w :: ws else ws)
      else (String c w, ws)
  end.

(** [s.split()]: the maximal runs of non-whitespace. *)
Definition split_ws (s : string) : list string :=
  let '(w, ws) := words_from s in
  if nonempty w then w :: ws else ws.

(** [s.splitlines()] *)
Fixpoint splitlines (s : string) : list string :=
  match s with
  | "" => []
  | String c s' =>
      if islinebreak c then
        match s' with
        | String c' s'' =>
            if (code c =? 13)%N && (code c' =? 10)%N
            then "" :: splitlines s''
            else "" :: splitlines s'
        | "" => [""]
        end
      else
        match splitlines s' with
        | l :: ls => String c l :: ls
        | [] => [String c ""]
        end
  end.

(** [s.startswith(p)] *)
Fixpoint startswith (p s : string) : bool :=
  match p, s with
  | "", _ => true
  | String a p', String b s' => Ascii.eqb a b && startswith p' s'
  | String _ _, "" => false
  end.

(** [needle in hay] *)
Fixpoint contains (needle hay : string) : bool :=
  startswith needle hay ||
  match hay with
  | "" => false
  | String _ hay' => contains needle hay'
  end.

(** [s[:n]] *)
Fixpoint take (n : nat) (s : string) : string :=
  match n, s with
  | S n', String c s' => String c (take n' s')
  | _, _ => ""
  end.

Definition digit_val (c : ascii) : option Z :=
  if between 48 57 c then Some (Z.of_N (code c) - 48)%Z else None.

(** Decimal digits, single underscores allowed between two digits. *)
Fixpoint parse_digits (acc : Z) (after_digit : bool) (s : string) : option Z :=
  match s with
  | "" => if after_digit then Some acc else None
  | String c s' =>
      match digit_val c with
      | Some d => parse_digits (10 * acc + d)%Z true s'
      | None =>
          if Ascii.eqb c "_" && after_digit then parse_digits acc false s'
          else None
      end
  end.

(** The whitespace [int()] skips around a numeral: the ASCII
    whitespace, and NEL and NBSP. The separators U+001C..U+001F, which
    [str.strip] removes, are not skipped. *)
Definition isspace_int (c : ascii) : bool :=
  between 9 13 c || (code c =? 32)%N || (code c =? 133)%N
  || (code c =? 160)%N.

Fixpoint lstrip_int (s : string) : string :=
  match s with
  | "" => ""
  | String c s' => if isspace_int c then lstrip_int s' else s
  end.

Fixpoint rstrip_int (s : string) : string :=
  match s with
  | "" => ""
  | String c s' =>
      match rstrip_int s' with
      | "" => if isspace_int c then "" else String c ""
      | r => String c r
      end
  end.

(** The interpreter's limit on the digits of a decimal numeral
    ([sys.int_max_str_digits], at its default). *)
Definition int_max_str_digits : nat := 4300.

(** The digits of [s]; underscores do not count. *)
Fixpoint count_digits (s : string) : nat :=
  match s with
  | "" => O
  | String c s' =>
      match digit_val c with
      | Some _ => S (count_digits s')
      | None => count_digits s'
      end
  end.

(** A numeral without sign: refused when it has more digits than the
    limit allows. *)
Definition parse_unsigned (ds : string) : option Z :=
  if (int_max_str_digits <? count_digits ds)%nat then None
  else parse_digits 0 false ds.

(** [int(s)]: surrounding whitespace, an optional sign, digits. [None]
    is [ValueError]. *)
Definition parse_int (s : string) : option Z :=
  match rstrip_int (lstrip_int s) with
  | String "-" ds => option_map Z.opp (parse_unsigned ds)
  | String "+" ds => parse_unsigned ds
  | ds => parse_unsigned ds
  end.

Definition int (s : string) : result Z :=
  match parse_int s with
  | Some z => Ok z
  | None => Raise ValueError
  end.

(** [b.replace(b'\x00', b' ')] *)
Definition replace_nul (b : bytes) : bytes :=
  map (fun c => if (code c =? 0)%N then " "%char else c) b.

Fixpoint lstrip_bytes (b : bytes) : bytes :=
  match b with
  | [] => []
  | c :: b' => if isspace_byte c then lstrip_bytes b' else b
  end.

(** [b.strip()] *)
Definition strip_bytes (b : bytes) : bytes :=
  rev (lstrip_bytes (rev (lstrip_bytes b))).

End Py.

(** ** The platform *)

(** What iterating over an open text file yields: lines (each with its
    line end), then the end of the file or a failing read. A stream
    that starts with [ReadError] is a file that cannot be opened. *)
Inductive line_stream : Type :=
  | Eof
  | ReadError
  | Line (l : string) (rest : line_stream).

(** The state of the host one sampling observes, and the codec of the
    runtime. *)
Record platform : Type := {
  (** [open('/proc/meminfo').read()] *)
  meminfo : result string;
  (** [shutil.disk_usage(path)]: total, used, free *)
  disk_usage : string -> result (Z * Z * Z);
  (** [subprocess.check_output(['pgrep', '-f', 'java']).decode()] *)
  pgrep_java : result string;
  (** iterating over [open(f'/proc/{pid}/status')] *)
  proc_status : Z -> line_stream;
  (** [open(f'/proc/{pid}/cmdline', 'rb').read()] *)
  proc_cmdline : Z -> result Py.bytes;
  (** [raw.decode(errors='ignore')] *)
  decode_ignore : Py.bytes -> string;
}.

(** ** monitor_simple.py *)

Module Monitor.
Import F64 Py.
Local Open Scope string_scope.
Local Open Scope Z_scope.

(** What the two percentage readers return: the int [0] of the
    fallback paths, or the float [round] produced. *)
Inductive pynum : Type :=
  | PyInt (z : Z)
  | PyFloat (f : pyfloat).

Definition TH_RAM : Z := 80.
Definition TH_DISK : Z := 90.

Fixpoint mapM {A B} (f : A -> result B) (l : list A) : result (list B) :=
  match l with
  | [] => Ok []
  | a :: l' => b <-- f a;; bs <-- mapM f l';; Ok (b :: bs)
  end.

Fixpoint foldM {A B} (f : B -> A -> result B) (b : B) (l : list A) : result B :=
  match l with
  | [] => Ok b
  | a :: l' => b' <-- f b a;; foldM f b' l'
  end.

(** One turn of the loop over the lines of /proc/meminfo. *)
Definition meminfo_line (mem : gmap string Z) (l : string)
  : result (gmap string Z) :=
  match split_on ":" l with
  | key :: p1 :: _ =>
      match split_ws (strip p1) with
      | val :: _ => v <-- int val;; Ok (<[key := v]> mem)
      | [] => Raise IndexError
      end
  | _ => Ok mem
  end.

Definition parse_meminfo (info : string) : result (gmap string Z) :=
  foldM meminfo_line ∅ (splitlines info).

Definition mem_total (mem : gmap string Z) : Z :=
  default 0 (mem !! "MemTotal").

Definition mem_avail (mem : gmap string Z) : Z :=
  default (default 0 (mem !! "MemFree") + default 0 (mem !! "Buffers")
           + default 0 (mem !! "Cached"))
          (mem !! "MemAvailable").

(** [round(x / y * 100, 1)] on ints [x], [y]. *)
Definition percent (x y : Z) : result pyfloat :=
  q <-- truediv x y;;
  round1 (fmul q (of_int 100)).

Definition get_mem_percent (os : platform) : result pynum :=
  try_except
    (info <-- meminfo os;;
     mem <-- parse_meminfo info;;
     let total := mem_total mem in
     let avail := mem_avail mem in
     if total =? 0 then Ok (PyInt 0)
     else r <-- percent (total - avail) total;; Ok (PyFloat r))
    (Ok (PyInt 0)).

Definition get_disk_percent (os : platform) (path : string) : result pynum :=
  try_except
    (usage <-- disk_usage os path;;
     let '(total, used, free) := usage in
     r <-- percent used total;; Ok (PyFloat r))
    (Ok (PyInt 0)).

(** Both handlers of the source, for [CalledProcessError] and for
    [Exception], return the empty list. *)
Definition find_java_pids (os : platform) : result (list Z) :=
  try_except
    (out0 <-- pgrep_java os;;
     let out := strip out0 in
     if nonempty out
     then mapM int (List.filter (fun x => nonempty (strip x)) (split_ws out))
     else Ok [])
    (Ok []).

(** The loop over the lines of /proc/<pid>/status: [Some] is the
    [return] inside the loop, [None] is falling out of it. *)
Fixpoint scan_status (f : line_stream) : result (option Z) :=
  match f with
  | Eof => Ok None
  | ReadError => Raise OSError
  | Line l rest =>
      if startswith "VmRSS:" l then
        match split_ws l with
        | _ :: v :: _ => z <-- int v;; Ok (Some z)
        | _ => Raise IndexError
        end
      else scan_status rest
  end.

Definition get_rss_kb (os : platform) (pid : Z) : result Z :=
  found <-- try_except (scan_status (proc_status os pid)) (Ok None);;
  match found with
  | Some z => Ok z
  | None => Ok 0
  end.

Definition get_cmdline (os : platform) (pid : Z) : result string :=
  try_except
    (raw0 <-- proc_cmdline os pid;;
     let raw := strip_bytes (replace_nul raw0) in
     Ok (decode_ignore os raw))
    (Ok "").

(** [round(rss_kb / 1024, 1)] *)
Definition to_mb (rss_kb : Z) : result pyfloat :=
  q <-- truediv rss_kb 1024;;
  round1 q.

(** *** Sorting *)

(** [l.sort(key=key, reverse=True)]: the order of the keys is only
    consulted through [<]; elements with equal keys keep their order. *)
Section Sort.
Context {A K : Type} (ltb : K -> K -> bool) (key : A -> K).

Fixpoint insert_desc (x : A) (l : list A) : list A :=
  match l with
  | [] => [x]
  | y :: l' =>
      if ltb (key x) (key y) then y :: insert_desc x l'
      else x :: y :: l'
  end.

Fixpoint sort_desc (l : list A) : list A :=
  match l with
  | [] => []
  | x :: l' => insert_desc x (sort_desc l')
  end.
End Sort.

(** [<] on the tuples [(score, mb)]: the first components that differ
    (for [==]) decide. *)
Definition key2_ltb (a b : Z * pyfloat) : bool :=
  if negb (a.1 =? b.1) then a.1 <? b.1
  else if negb (feqb a.2 b.2) then fltb a.2 b.2
  else false.

(** *** Live mode *)

Definition default_keywords : list string :=
  ["forge"; "minecraft"; "kubejs"; "server"; "paper"; "spigot"].

(** [if filter_keywords is None: filter_keywords = [...]] *)
Definition effective_keywords (filter_keywords : option (list string))
  : list string :=
  match filter_keywords with
  | None => default_keywords
  | Some kws => kws
  end.

(** The scoring loop of [watch_java]. *)
Definition score (cmd : string) (kws : list string) : Z :=
  fold_left
    (fun sc kw => if contains (lower kw) (lower cmd) then sc + 1 else sc)
    kws 0.

(** A row [(score, pid, mb, cmd)]. *)
Definition row : Type := Z * Z * pyfloat * string.

Definition row_score (r : row) : Z := r.1.1.1.
Definition row_pid (r : row) : Z := r.1.1.2.
Definition row_mb (r : row) : pyfloat := r.1.2.
Definition row_cmd (r : row) : string := r.2.

Definition watch_row (os : platform) (kws : list string) (pid : Z)
  : result row :=
  rss_kb <-- get_rss_kb os pid;;
  mb <-- to_mb rss_kb;;
  cmd <-- get_cmdline os pid;;
  Ok (score cmd kws, pid, mb, cmd).

Definition row_key (r : row) : Z * pyfloat := (row_score r, row_mb r).

(** [rows.sort(key=lambda x: (x[0], x[2]), reverse=True)] *)
Definition rank (rows : list row) : list row :=
  sort_desc key2_ltb row_key rows.

Definition watch_rows (os : platform) (kws : list string)
  : result (list row) :=
  pids <-- find_java_pids os;;
  rows <-- mapM (watch_row os kws) pids;;
  Ok (rank rows).

Definition mark (sc : Z) : string := if 0 <? sc then "*" else " ".

Definition shorten (cmd : string) : string :=
  if (Z.of_nat (String.length cmd) <? 120) then cmd
  else take 117 cmd ++ "...".

(** What one refresh prints after the clear-screen code and the time. *)
Inductive screen_line : Type :=
  | NoneFound
  | TableHeader
  | TableRow (mark : string) (pid : Z) (mb : pyfloat) (short : string)
  | Footer.

Definition render_row (r : row) : screen_line :=
  TableRow (mark (row_score r)) (row_pid r) (row_mb r) (shorten (row_cmd r)).

Definition render (rows : list row) : list screen_line :=
  match rows with
  | [] => [NoneFound; Footer]
  | _ => TableHeader :: (map render_row rows ++ [Footer])%list
  end.

(** One turn of the [while True] loop. *)
Definition watch_cycle (os : platform) (kws : list string)
  : result (list screen_line) :=
  rows <-- watch_rows os kws;;
  Ok (render rows).

(** [watch_java]: the loop runs once per observed state of the host,
    until the interrupt. *)
Definition watch_java (filter_keywords : option (list string))
    (states : list platform) : result (list (list screen_line)) :=
  let kws := effective_keywords filter_keywords in
  mapM (fun os => watch_cycle os kws) states.

(** *** Snapshot mode *)

Inductive log_msg : Type :=
  | Summary (mem disk : pynum)
  | AlertRam (mem : pynum)
  | AlertDisk (disk : pynum)
  | NoJava
  | ProcHeader
  | ProcLine (pid : Z) (mb : pyfloat) (cmd : string).

(** [x >= t] for an int threshold. *)
Definition ge_int (x : pynum) (t : Z) : bool :=
  match x with
  | PyInt z => t <=? z
  | PyFloat f => t * one_k <=? units f
  end.

Definition detail : Type := Z * pyfloat * string.

Definition main_detail (os : platform) (pid : Z) : result detail :=
  rss <-- get_rss_kb os pid;;
  mb <-- to_mb rss;;
  cmd <-- try_except
            (raw0 <-- proc_cmdline os pid;;
             let raw := strip_bytes (replace_nul raw0) in
             Ok (decode_ignore os raw))
            (Ok "");;
  Ok (pid, mb, cmd).

(** [details.sort(key=lambda x: x[1], reverse=True)] *)
Definition sort_details (details : list detail) : list detail :=
  sort_desc fltb (fun d : detail => d.1.2) details.

(** The [else] branch of [main]: gather, then sort. *)
Definition main_details (os : platform) (pids : list Z)
  : result (list detail) :=
  details <-- mapM (main_detail os) pids;;
  Ok (sort_details details).

Definition proc_line (d : detail) : log_msg := ProcLine d.1.1 d.1.2 d.2.

(** [main]: the messages handed to [log], in order; [log] itself (the
    append to the log file and the print) is taken to succeed. *)
Definition main (os : platform) : result (list log_msg) :=
  mem <-- get_mem_percent os;;
  disk <-- get_disk_percent os "/";;
  let head :=
    ([Summary mem disk]
     ++ (if ge_int mem TH_RAM then [AlertRam mem] else [])
     ++ (if ge_int disk TH_DISK then [AlertDisk disk] else []))%list in
  pids <-- find_java_pids os;;
  match pids with
  | [] => Ok (head ++ [NoJava])%list
  | _ =>
      details <-- main_details os pids;;
      Ok (head ++ ProcHeader :: map proc_line details)%list
  end.

(** *** Command line *)

(** The keyword list the entry point hands to [watch_java] for the
    value of [--filter] ([None] when the option is not given). *)
Definition cli_keywords (filter_arg : option string) : option (list string) :=
  match filter_arg with
  | Some f =>
      if nonempty f
      then Some (List.filter nonempty (map strip (split_on "," f)))
      else None
  | None => None
  end.

End Monitor.

(** ** Text beyond U+00FF *)

(** [Monitor] reads Python text as code points up to U+00FF. The one
    operation of the script that behaves differently beyond them is
    [str.lower], on which the scoring loop of [watch_java] rests: this
    module has that loop on arbitrary text, a list of code points. The
    tables are those of CPython 3.11 (Unicode 14). *)
Module Wide.
Import Py.
Local Open Scope N_scope.

Definition ustring : Type := list N.

(** A text of [Monitor], as it is among all texts. *)
Definition wide (s : string) : ustring := map code (list_ascii_of_string s).

(** The characters whose lower-case form is one other character:
    [(first, last, step, target)] sends [first + i * step], up to
    [last], to [target + i * step]. *)
Definition lower_table : list (N * N * N * N) :=
  [(65, 90, 1, 97); (192, 214, 1, 224); (216, 222, 1, 248);
   (256, 302, 2, 257); (306, 310, 2, 307); (313, 327, 2, 314);
   (330, 374, 2, 331); (376, 376, 1, 255); (377, 381, 2, 378);
   (385, 385, 1, 595); (386, 388, 2, 387); (390, 390, 1, 596);
   (391, 391, 1, 392); (393, 394, 1, 598); (395, 395, 1, 396);
   (398, 398, 1, 477); (399, 399, 1, 601); (400, 400, 1, 603);
   (401, 401, 1, 402); (403, 403, 1, 608); (404, 404, 1, 611);
   (406, 406, 1, 617); (407, 407, 1, 616); (408, 408, 1, 409);
   (412, 412, 1, 623); (413, 413, 1, 626); (415, 415, 1, 629);
   (416, 420, 2, 417); (422, 422, 1, 640); (423, 423, 1, 424);
   (425, 425, 1, 643); (428, 428, 1, 429); (430, 430, 1, 648);
   (431, 431, 1, 432); (433, 434, 1, 650); (435, 437, 2, 436);
   (439, 439, 1, 658); (440, 440, 1, 441); (444, 444, 1, 445);
   (452, 452, 1, 454); (453, 453, 1, 454); (455, 455, 1, 457);
   (456, 456, 1, 457); (458, 458, 1, 460); (459, 475, 2, 460);
   (478, 494, 2, 479); (497, 497, 1, 499); (498, 500, 2, 499);
   (502, 502, 1, 405); (503, 503, 1, 447); (504, 542, 2, 505);
   (544, 544, 1, 414); (546, 562, 2, 547); (570, 570, 1, 11365);
   (571, 571, 1, 572); (573, 573, 1, 410); (574, 574, 1, 11366);
   (577, 577, 1, 578); (579, 579, 1, 384); (580, 580, 1, 649);
   (581, 581, 1, 652); (582, 590, 2, 583); (880, 882, 2, 881);
   (886, 886, 1, 887); (895, 895, 1, 1011); (902, 902, 1, 940);
   (904, 906, 1, 941); (908, 908, 1, 972); (910, 911, 1, 973);
   (913, 929, 1, 945); (932, 939, 1, 964); (975, 975, 1, 983);
   (984, 1006, 2, 985); (1012, 1012, 1, 952); (1015, 1015, 1, 1016);
   (1017, 1017, 1, 1010); (1018, 1018, 1, 1019); (1021, 1023, 1, 891);
   (1024, 1039, 1, 1104); (1040, 1071, 1, 1072); (1120, 1152, 2, 1121);
   (1162, 1214, 2, 1163); (1216, 1216, 1, 1231); (1217, 1229, 2, 1218);
   (1232, 1326, 2, 1233); (1329, 1366, 1, 1377); (4256, 4293, 1, 11520);
   (4295, 4295, 1, 11559); (4301, 4301, 1, 11565); (5024, 5103, 1, 43888);
   (5104, 5109, 1, 5112); (7312, 7354, 1, 4304); (7357, 7359, 1, 4349);
   (7680, 7828, 2, 7681); (7838, 7838, 1, 223); (7840, 7934, 2, 7841);
   (7944, 7951, 1, 7936); (7960, 7965, 1, 7952); (7976, 7983, 1, 7968);
   (7992, 7999, 1, 7984); (8008, 8013, 1, 8000); (8025, 8031, 2, 8017);
   (8040, 8047, 1, 8032); (8072, 8079, 1, 8064); (8088, 8095, 1, 8080);
   (8104, 8111, 1, 8096); (8120, 8121, 1, 8112); (8122, 8123, 1, 8048);
   (8124, 8124, 1, 8115); (8136, 8139, 1, 8050); (8140, 8140, 1, 8131);
   (8152, 8153, 1, 8144); (8154, 8155, 1, 8054); (8168, 8169, 1, 8160);
   (8170, 8171, 1, 8058); (8172, 8172, 1, 8165); (8184, 8185, 1, 8056);
   (8186, 8187, 1, 8060); (8188, 8188, 1, 8179); (8486, 8486, 1, 969);
   (8490, 8490, 1, 107); (8491, 8491, 1, 229); (8498, 8498, 1, 8526);
   (8544, 8559, 1, 8560); (8579, 8579, 1, 8580); (9398, 9423, 1, 9424);
   (11264, 11311, 1, 11312); (11360, 11360, 1, 11361);
   (11362, 11362, 1, 619); (11363, 11363, 1, 7549); (11364, 11364, 1, 637);
   (11367, 11371, 2, 11368); (11373, 11373, 1, 593); (11374, 11374, 1, 625);
   (11375, 11375, 1, 592); (11376, 11376, 1, 594); (11378, 11378, 1, 11379);
   (11381, 11381, 1, 11382); (11390, 11391, 1, 575);
   (11392, 11490, 2, 11393); (11499, 11501, 2, 11500);
   (11506, 11506, 1, 11507); (42560, 42604, 2, 42561);
   (42624, 42650, 2, 42625); (42786, 42798, 2, 42787);
   (42802, 42862, 2, 42803); (42873, 42875, 2, 42874);
   (42877, 42877, 1, 7545); (42878, 42886, 2, 42879);
   (42891, 42891, 1, 42892); (42893, 42893, 1, 613);
   (42896, 42898, 2, 42897); (42902, 42920, 2, 42903);
   (42922, 42922, 1, 614); (42923, 42923, 1, 604); (42924, 42924, 1, 609);
   (42925, 42925, 1, 620); (42926, 42926, 1, 618); (42928, 42928, 1, 670);
   (42929, 42929, 1, 647); (42930, 42930, 1, 669); (42931, 42931, 1, 43859);
   (42932, 42946, 2, 42933); (42948, 42948, 1, 42900);
   (42949, 42949, 1, 642); (42950, 42950, 1, 7566); (42951, 42953, 2, 42952);
   (42960, 42960, 1, 42961); (42966, 42968, 2, 42967);
   (42997, 42997, 1, 42998); (65313, 65338, 1, 65345);
   (66560, 66599, 1, 66600); (66736, 66771, 1, 66776);
   (66928, 66938, 1, 66967); (66940, 66954, 1, 66979);
   (66956, 66962, 1, 66995); (66964, 66965, 1, 67003);
   (68736, 68786, 1, 68800); (71840, 71871, 1, 71872);
   (93760, 93791, 1, 93792); (125184, 125217, 1, 125218)].

(** The cased characters that are not case-ignorable. *)
Definition cased_table : list (N * N) :=
  [(65, 90); (97, 122); (170, 170); (181, 181); (186, 186); (192, 214);
   (216, 246); (248, 442); (444, 447); (452, 659); (661, 687); (880, 883);
   (886, 887); (891, 893); (895, 895); (902, 902); (904, 906); (908, 908);
   (910, 929); (931, 1013); (1015, 1153); (1162, 1327); (1329, 1366);
   (1376, 1416); (4256, 4293); (4295, 4295); (4301, 4301); (4304, 4346);
   (4349, 4351); (5024, 5109); (5112, 5117); (7296, 7304); (7312, 7354);
   (7357, 7359); (7424, 7467); (7531, 7543); (7545, 7578); (7680, 7957);
   (7960, 7965); (7968, 8005); (8008, 8013); (8016, 8023); (8025, 8025);
   (8027, 8027); (8029, 8029); (8031, 8061); (8064, 8116); (8118, 8124);
   (8126, 8126); (8130, 8132); (8134, 8140); (8144, 8147); (8150, 8155);
   (8160, 8172); (8178, 8180); (8182, 8188); (8450, 8450); (8455, 8455);
   (8458, 8467); (8469, 8469); (8473, 8477); (8484, 8484); (8486, 8486);
   (8488, 8488); (8490, 8493); (8495, 8500); (8505, 8505); (8508, 8511);
   (8517, 8521); (8526, 8526); (8544, 8575); (8579, 8580); (9398, 9449);
   (11264, 11387); (11390, 11492); (11499, 11502); (11506, 11507);
   (11520, 11557); (11559, 11559); (11565, 11565); (42560, 42605);
   (42624, 42651); (42786, 42863); (42865, 42887); (42891, 42894);
   (42896, 42954); (42960, 42961); (42963, 42963); (42965, 42969);
   (42997, 42998); (43002, 43002); (43824, 43866); (43872, 43880);
   (43888, 43967); (64256, 64262); (64275, 64279); (65313, 65338);
   (65345, 65370); (66560, 66639); (66736, 66771); (66776, 66811);
   (66928, 66938); (66940, 66954); (66956, 66962); (66964, 66965);
   (66967, 66977); (66979, 66993); (66995, 67001); (67003, 67004);
   (68736, 68786); (68800, 68850); (71840, 71903); (93760, 93823);
   (119808, 119892); (119894, 119964); (119966, 119967); (119970, 119970);
   (119973, 119974); (119977, 119980); (119982, 119993); (119995, 119995);
   (119997, 120003); (120005, 120069); (120071, 120074); (120077, 120084);
   (120086, 120092); (120094, 120121); (120123, 120126); (120128, 120132);
   (120134, 120134); (120138, 120144); (120146, 120485); (120488, 120512);
   (120514, 120538); (120540, 120570); (120572, 120596); (120598, 120628);
   (120630, 120654); (120656, 120686); (120688, 120712); (120714, 120744);
   (120746, 120770); (120772, 120779); (122624, 122633); (122635, 122654);
   (125184, 125251); (127280, 127305); (127312, 127337); (127344, 127369)].

(** The case-ignorable characters. *)
Definition case_ignorable_table : list (N * N) :=
  [(39, 39); (46, 46); (58, 58); (94, 94); (96, 96); (168, 168); (173, 173);
   (175, 175); (180, 180); (183, 184); (688, 879); (884, 885); (890, 890);
   (900, 901); (903, 903); (1155, 1161); (1369, 1369); (1375, 1375);
   (1425, 1469); (1471, 1471); (1473, 1474); (1476, 1477); (1479, 1479);
   (1524, 1524); (1536, 1541); (1552, 1562); (1564, 1564); (1600, 1600);
   (1611, 1631); (1648, 1648); (1750, 1757); (1759, 1768); (1770, 1773);
   (1807, 1807); (1809, 1809); (1840, 1866); (1958, 1968); (2027, 2037);
   (2042, 2042); (2045, 2045); (2070, 2093); (2137, 2139); (2184, 2184);
   (2192, 2193); (2200, 2207); (2249, 2306); (2362, 2362); (2364, 2364);
   (2369, 2376); (2381, 2381); (2385, 2391); (2402, 2403); (2417, 2417);
   (2433, 2433); (2492, 2492); (2497, 2500); (2509, 2509); (2530, 2531);
   (2558, 2558); (2561, 2562); (2620, 2620); (2625, 2626); (2631, 2632);
   (2635, 2637); (2641, 2641); (2672, 2673); (2677, 2677); (2689, 2690);
   (2748, 2748); (2753, 2757); (2759, 2760); (2765, 2765); (2786, 2787);
   (2810, 2815); (2817, 2817); (2876, 2876); (2879, 2879); (2881, 2884);
   (2893, 2893); (2901, 2902); (2914, 2915); (2946, 2946); (3008, 3008);
   (3021, 3021); (3072, 3072); (3076, 3076); (3132, 3132); (3134, 3136);
   (3142, 3144); (3146, 3149); (3157, 3158); (3170, 3171); (3201, 3201);
   (3260, 3260); (3263, 3263); (3270, 3270); (3276, 3277); (3298, 3299);
   (3328, 3329); (3387, 3388); (3393, 3396); (3405, 3405); (3426, 3427);
   (3457, 3457); (3530, 3530); (3538, 3540); (3542, 3542); (3633, 3633);
   (3636, 3642); (3654, 3662); (3761, 3761); (3764, 3772); (3782, 3782);
   (3784, 3789); (3864, 3865); (3893, 3893); (3895, 3895); (3897, 3897);
   (3953, 3966); (3968, 3972); (3974, 3975); (3981, 3991); (3993, 4028);
   (4038, 4038); (4141, 4144); (4146, 4151); (4153, 4154); (4157, 4158);
   (4184, 4185); (4190, 4192); (4209, 4212); (4226, 4226); (4229, 4230);
   (4237, 4237); (4253, 4253); (4348, 4348); (4957, 4959); (5906, 5908);
   (5938, 5939); (5970, 5971); (6002, 6003); (6068, 6069); (6071, 6077);
   (6086, 6086); (6089, 6099); (6103, 6103); (6109, 6109); (6155, 6159);
   (6211, 6211); (6277, 6278); (6313, 6313); (6432, 6434); (6439, 6440);
   (6450, 6450); (6457, 6459); (6679, 6680); (6683, 6683); (6742, 6742);
   (6744, 6750); (6752, 6752); (6754, 6754); (6757, 6764); (6771, 6780);
   (6783, 6783); (6823, 6823); (6832, 6862); (6912, 6915); (6964, 6964);
   (6966, 6970); (6972, 6972); (6978, 6978); (7019, 7027); (7040, 7041);
   (7074, 7077); (7080, 7081); (7083, 7085); (7142, 7142); (7144, 7145);
   (7149, 7149); (7151, 7153); (7212, 7219); (7222, 7223); (7288, 7293);
   (7376, 7378); (7380, 7392); (7394, 7400); (7405, 7405); (7412, 7412);
   (7416, 7417); (7468, 7530); (7544, 7544); (7579, 7679); (8125, 8125);
   (8127, 8129); (8141, 8143); (8157, 8159); (8173, 8175); (8189, 8190);
   (8203, 8207); (8216, 8217); (8228, 8228); (8231, 8231); (8234, 8238);
   (8288, 8292); (8294, 8303); (8305, 8305); (8319, 8319); (8336, 8348);
   (8400, 8432); (11388, 11389); (11503, 11505); (11631, 11631);
   (11647, 11647); (11744, 11775); (11823, 11823); (12293, 12293);
   (12330, 12333); (12337, 12341); (12347, 12347); (12441, 12446);
   (12540, 12542); (40981, 40981); (42232, 42237); (42508, 42508);
   (42607, 42610); (42612, 42621); (42623, 42623); (42652, 42655);
   (42736, 42737); (42752, 42785); (42864, 42864); (42888, 42890);
   (42994, 42996); (43000, 43001); (43010, 43010); (43014, 43014);
   (43019, 43019); (43045, 43046); (43052, 43052); (43204, 43205);
   (43232, 43249); (43263, 43263); (43302, 43309); (43335, 43345);
   (43392, 43394); (43443, 43443); (43446, 43449); (43452, 43453);
   (43471, 43471); (43493, 43494); (43561, 43566); (43569, 43570);
   (43573, 43574); (43587, 43587); (43596, 43596); (43632, 43632);
   (43644, 43644); (43696, 43696); (43698, 43700); (43703, 43704);
   (43710, 43711); (43713, 43713); (43741, 43741); (43756, 43757);
   (43763, 43764); (43766, 43766); (43867, 43871); (43881, 43883);
   (44005, 44005); (44008, 44008); (44013, 44013); (64286, 64286);
   (64434, 64450); (65024, 65039); (65043, 65043); (65056, 65071);
   (65106, 65106); (65109, 65109); (65279, 65279); (65287, 65287);
   (65294, 65294); (65306, 65306); (65342, 65342); (65344, 65344);
   (65392, 65392); (65438, 65439); (65507, 65507); (65529, 65531);
   (66045, 66045); (66272, 66272); (66422, 66426); (67456, 67461);
   (67463, 67504); (67506, 67514); (68097, 68099); (68101, 68102);
   (68108, 68111); (68152, 68154); (68159, 68159); (68325, 68326);
   (68900, 68903); (69291, 69292); (69446, 69456); (69506, 69509);
   (69633, 69633); (69688, 69702); (69744, 69744); (69747, 69748);
   (69759, 69761); (69811, 69814); (69817, 69818); (69821, 69821);
   (69826, 69826); (69837, 69837); (69888, 69890); (69927, 69931);
   (69933, 69940); (70003, 70003); (70016, 70017); (70070, 70078);
   (70089, 70092); (70095, 70095); (70191, 70193); (70196, 70196);
   (70198, 70199); (70206, 70206); (70367, 70367); (70371, 70378);
   (70400, 70401); (70459, 70460); (70464, 70464); (70502, 70508);
   (70512, 70516); (70712, 70719); (70722, 70724); (70726, 70726);
   (70750, 70750); (70835, 70840); (70842, 70842); (70847, 70848);
   (70850, 70851); (71090, 71093); (71100, 71101); (71103, 71104);
   (71132, 71133); (71219, 71226); (71229, 71229); (71231, 71232);
   (71339, 71339); (71341, 71341); (71344, 71349); (71351, 71351);
   (71453, 71455); (71458, 71461); (71463, 71467); (71727, 71735);
   (71737, 71738); (71995, 71996); (71998, 71998); (72003, 72003);
   (72148, 72151); (72154, 72155); (72160, 72160); (72193, 72202);
   (72243, 72248); (72251, 72254); (72263, 72263); (72273, 72278);
   (72281, 72283); (72330, 72342); (72344, 72345); (72752, 72758);
   (72760, 72765); (72767, 72767); (72850, 72871); (72874, 72880);
   (72882, 72883); (72885, 72886); (73009, 73014); (73018, 73018);
   (73020, 73021); (73023, 73029); (73031, 73031); (73104, 73105);
   (73109, 73109); (73111, 73111); (73459, 73460); (78896, 78904);
   (92912, 92916); (92976, 92982); (92992, 92995); (94031, 94031);
   (94095, 94111); (94176, 94177); (94179, 94180); (110576, 110579);
   (110581, 110587); (110589, 110590); (113821, 113822); (113824, 113827);
   (118528, 118573); (118576, 118598); (119143, 119145); (119155, 119170);
   (119173, 119179); (119210, 119213); (119362, 119364); (121344, 121398);
   (121403, 121452); (121461, 121461); (121476, 121476); (121499, 121503);
   (121505, 121519); (122880, 122886); (122888, 122904); (122907, 122913);
   (122915, 122916); (122918, 122922); (123184, 123197); (123566, 123566);
   (123628, 123631); (125136, 125142); (125252, 125259); (127995, 127999);
   (917505, 917505); (917536, 917631); (917760, 917999)].

Definition in_range (c : N) (r : N * N) : bool := (r.1 <=? c) && (c <=? r.2).

Definition is_cased (c : N) : bool := existsb (in_range c) cased_table.

Definition is_case_ignorable (c : N) : bool :=
  existsb (in_range c) case_ignorable_table.

Fixpoint lower_in (t : list (N * N * N * N)) (c : N) : option N :=
  match t with
  | [] => None
  | (lo, hi, step, target) :: t' =>
      if (lo <=? c) && (c <=? hi) && ((c - lo) mod step =? 0)
      then Some (target + (c - lo))
      else lower_in t' c
  end.

Definition capital_sigma : N := 931.
Definition small_sigma : N := 963.
Definition final_sigma : N := 962.

(** [c.lower()] for a character other than the capital sigma: U+0130
    becomes two characters. *)
Definition ulower_char (c : N) : ustring :=
  if c =? 304 then [105; 775]
  else match lower_in lower_table c with
       | Some l => [l]
       | None => [c]
       end.

(** A cased letter follows, case-ignorable characters skipped. *)
Fixpoint cased_follows (s : ustring) : bool :=
  match s with
  | [] => false
  | c :: s' => if is_case_ignorable c then cased_follows s' else is_cased c
  end.

(** [s.lower()], [before] telling whether a cased letter precedes,
    case-ignorable characters skipped: a capital sigma becomes the
    final sigma after a cased letter when none follows, and the small
    sigma otherwise. *)
Fixpoint ulower_from (before : bool) (s : ustring) : ustring :=
  match s with
  | [] => []
  | c :: s' =>
      (if c =? capital_sigma
       then [if before && negb (cased_follows s') then final_sigma
             else small_sigma]
       else ulower_char c)
      ++ ulower_from (if is_case_ignorable c then before else is_cased c) s'
  end.

(** [s.lower()] *)
Definition ulower (s : ustring) : ustring := ulower_from false s.

Fixpoint ustartswith (p s : ustring) : bool :=
  match p, s with
  | [], _ => true
  | a :: p', b :: s' => (a =? b) && ustartswith p' s'
  | _ :: _, [] => false
  end.

(** [needle in hay] *)
Fixpoint ucontains (needle hay : ustring) : bool :=
  ustartswith needle hay ||
  match hay with
  | [] => false
  | _ :: hay' => ucontains needle hay'
  end.

(** The scoring loop of [watch_java], on arbitrary text. *)
Definition uscore (cmd : ustring) (kws : list ustring) : Z :=
  fold_left
    (fun sc kw =>
       if ucontains (ulower kw) (ulower cmd) then (sc + 1)%Z else sc)
    kws 0%Z.

End Wide.

(** ** Logging *)

Module Logging.
Import F64 Py Monitor.
Local Open Scope string_scope.
Local Open Scope Z_scope.

(** What [log] acts on: the content of monitor.log, what has been
    printed, and how often the clock has been read. *)
Record world : Type := {
  log_file : string;
  printed : string;
  clock_reads : nat;
}.

(** The surroundings of a run: whether monitor.log can be opened for
    appending (a write to the opened file is taken to succeed), what
    [datetime.now().strftime(...)] gives at each reading of the clock,
    and how the f-strings format a number. *)
Record runtime : Type := {
  can_append : bool;
  now : nat -> string;
  str_num : pynum -> string;
}.

(** Code that acts on the world and may raise. *)
Definition io (A : Type) : Type := world -> result A * world.

Definition io_bind {A B} (m : io A) (k : A -> io B) : io B :=
  fun w =>
    match m w with
    | (Ok a, w') => k a w'
    | (Raise e, w') => (Raise e, w')
    end.

Definition io_ret {A} (a : A) : io A := fun w => (Ok a, w).

(** Code without effect on the world. *)
Definition io_lift {A} (r : result A) : io A := fun w => (r, w).

Notation "x <<- m ;; k" := (io_bind m (fun x => k))
  (at level 100, m at next level, right associativity).

(** [log(msg)]: the time is read, the line is appended to the file,
    then printed. When the file cannot be opened, [open] raises and
    nothing is printed. *)
Definition log (rt : runtime) (msg : string) : io unit :=
  fun w =>
    let ts := now rt (clock_reads w) in
    let line := ts ++ " - " ++ msg ++ String (ascii_of_N 10) "" in
    if can_append rt
    then (Ok tt, {| log_file := log_file w ++ line;
                    printed := printed w ++ line;
                    clock_reads := S (clock_reads w) |})
    else (Raise OSError, {| log_file := log_file w;
                            printed := printed w;
                            clock_reads := S (clock_reads w) |}).

(** The texts of the f-strings of [main]. *)
Definition message (rt : runtime) (m : log_msg) : string :=
  match m with
  | Summary mem disk =>
      "RAM usada: " ++ str_num rt mem ++ "% | Disco (/) usado: "
      ++ str_num rt disk ++ "%"
  | AlertRam mem =>
      "ALERTA: RAM usada >= " ++ str_num rt (PyInt TH_RAM) ++ "% -> "
      ++ str_num rt mem ++ "%"
  | AlertDisk disk =>
      "ALERTA: Disco usado >= " ++ str_num rt (PyInt TH_DISK) ++ "% -> "
      ++ str_num rt disk ++ "%"
  | NoJava => "No se han encontrado procesos java activos."
  | ProcHeader => "Procesos java (PID, RSS_MB, cmdline):"
  | ProcLine pid mb cmd =>
      "  " ++ str_num rt (PyInt pid) ++ " - " ++ str_num rt (PyFloat mb)
      ++ " MB - " ++ cmd
  end.

Fixpoint io_iter {A} (f : A -> io unit) (l : list A) : io unit :=
  match l with
  | [] => io_ret tt
  | a :: l' => _ <<- f a;; io_iter f l'
  end.

(** [main] with its calls of [log] where the source has them. *)
Definition main_io (os : platform) (rt : runtime) : io unit :=
  mem <<- io_lift (get_mem_percent os);;
  disk <<- io_lift (get_disk_percent os "/");;
  _ <<- log rt (message rt (Summary mem disk));;
  _ <<- (if ge_int mem TH_RAM then log rt (message rt (AlertRam mem))
         else io_ret tt);;
  _ <<- (if ge_int disk TH_DISK then log rt (message rt (AlertDisk disk))
         else io_ret tt);;
  pids <<- io_lift (find_java_pids os);;
  match pids with
  | [] => log rt (message rt NoJava)
  | _ =>
      details <<- io_lift (main_details os pids);;
      _ <<- log rt (message rt ProcHeader);;
      io_iter (fun d => log rt (message rt (proc_line d))) details
  end.

End Logging.

(** ** Notions the properties are stated with *)

Module Spec.
Import F64 Py Monitor.
Local Open Scope string_scope.
Local Open Scope Z_scope.

(** [B] is a magnitude (in units of [2^-1074]) the binary64 format
    holds: at most 53 significant bits, below the overflow threshold. *)
Definition on_grid (B : Z) : Prop :=
  exists m s, B = m * 2 ^ s /\ 0 <= m <= 2 ^ 53 /\ 0 <= s /\ B < huge_k.

(** A finite value of magnitude at most [B]. *)
Definition finite_le (B : Z) (x : pyfloat) : Prop :=
  match x with
  | Inf _ => False
  | _ => Z.abs (units x) <= B
  end.

(** The float written [n/10] in decimal, as in [6.2] for [tenth 62]. *)
Definition tenth (n : Z) : pyfloat :=
  signed (n <? 0) (grid_of_tenths (Z.abs n)).

(** [v] lies in the interval [0, 100]. *)
Definition in_0_100 (v : pynum) : Prop :=
  match v with
  | PyInt z => 0 <= z <= 100
  | PyFloat f => 0 <= units f <= 100 * one_k
  end.

(** Rounding to one decimal with ties away from zero, the rule the
    specification names. *)
Definition tenths_half_away (k : Z) : Z :=
  round_half_away (10 * Z.abs k) one_k.

Definition round1_half_away (x : pyfloat) : result pyfloat :=
  match x with
  | Fin k =>
      let m := grid_of_tenths (tenths_half_away k) in
      if huge_k <=? m then Raise OverflowError else Ok (signed (k <? 0) m)
  | _ => Ok x
  end.

(** [t] is a nearest integer to ten times the value [k * 2^-1074], and
    the even one of the two when that value is half-way. *)
Definition nearest_even_tenths (k t : Z) : Prop :=
  2 * Z.abs (t * one_k - 10 * Z.abs k) <= one_k /\
  (2 * Z.abs (t * one_k - 10 * Z.abs k) = one_k -> Z.even t = true).

(** [r] is [u] rounded to one decimal, ties to even: the float nearest
    to [t/10] for the nearest-even number of tenths [t]. *)
Definition rounded_half_even (u r : pyfloat) : Prop :=
  match u with
  | Fin k =>
      exists t, nearest_even_tenths k t /\
                r = signed (k <? 0) (grid_of_tenths t)
  | _ => r = u
  end.

(** Two characters that differ at most in case. *)
Definition ci_eqb (a b : ascii) : bool :=
  Ascii.eqb (lower_char a) (lower_char b).

(** [kw] matches the front of [s], case ignored. *)
Fixpoint ci_startswith (kw s : string) : bool :=
  match kw, s with
  | "", _ => true
  | String a kw', String b s' => ci_eqb a b && ci_startswith kw' s'
  | String _ _, "" => false
  end.

(** [kw] occurs in [s] at some position, case ignored. *)
Fixpoint ci_contains (kw s : string) : bool :=
  ci_startswith kw s ||
  match s with
  | "" => false
  | String _ s' => ci_contains kw s'
  end.

(** The same text up to case, character by character. *)
Inductive ci_same : string -> string -> Prop :=
  | ci_same_nil : ci_same "" ""
  | ci_same_cons a b s t :
      lower_char a = lower_char b -> ci_same s t ->
      ci_same (String a s) (String b t).

(** [kw] is, up to case, a substring of [s]. *)
Definition ci_substring (kw s : string) : Prop :=
  exists pre w post, s = pre ++ w ++ post /\ ci_same kw w.

(** The order of the live table: higher score first, and among equal
    scores the larger rounded MB first. *)
Definition ranks_before (a b : row) : Prop :=
  row_score b < row_score a \/
  (row_score a = row_score b /\ units (row_mb b) <= units (row_mb a)).

(** Equal score and equal rounded MB. *)
Definition same_rank (a b : row) : bool :=
  (row_score a =? row_score b) && feqb (row_mb a) (row_mb b).

(** The order of the snapshot listing: larger rounded MB first. *)
Definition mb_before (a b : detail) : Prop := units b.1.2 <= units a.1.2.

Definition same_mb (a b : detail) : bool := feqb a.1.2 b.1.2.

(** A process that has gone by the time its /proc entries are read. *)
Definition vanished (os : platform) (pid : Z) : Prop :=
  proc_status os pid = ReadError /\ exists e, proc_cmdline os pid = Raise e.

(** The resident size read for [pid] is one a kernel can report. *)
Definition rss_sane (os : platform) (pid : Z) : Prop :=
  exists z, get_rss_kb os pid = Ok z /\ Z.abs z <= 2 ^ 1000.

(** Only whitespace. *)
Fixpoint all_space (s : string) : bool :=
  match s with
  | "" => true
  | String c s' => isspace c && all_space s'
  end.

(** Only commas and whitespace. *)
Fixpoint only_commas_spaces (s : string) : bool :=
  match s with
  | "" => true
  | String c s' => (Ascii.eqb c "," || isspace c) && only_commas_spaces s'
  end.

(** The largest finite binary64 value, in units of [2^-1074]. *)
Definition max_k : Z := (2 ^ 53 - 1) * 2 ^ 2045.

(** A float the format holds: a zero, an infinity, or a finite value
    of magnitude at most [max_k]. *)
Definition in_format (x : pyfloat) : Prop :=
  match x with
  | Fin k => Z.abs k <= max_k
  | _ => True
  end.

(** [mb] is the resident size [rss_kb], in kB, divided by 1024 and
    rounded to one decimal, ties to even. *)
Definition mb_of_kb (rss_kb : Z) (mb : pyfloat) : Prop :=
  exists q, truediv rss_kb 1024 = Ok q /\ rounded_half_even q mb.

(** The number of entries of [kws] for which the test of the scoring
    loop, [kw.lower() in cmd.lower()], holds. *)
Definition keyword_hits (cmd : string) (kws : list string) : Z :=
  Z.of_nat
    (length (List.filter (fun kw => contains (lower kw) (lower cmd)) kws)).

(** [r] is the row of the live table for the process [pid]: its score
    counts the keywords found in the command line read for it, its MB
    is the rounded resident size read for it. *)
Definition live_row (os : platform) (kws : list string) (pid : Z) (r : row)
  : Prop :=
  exists rss_kb cmd,
    get_rss_kb os pid = Ok rss_kb /\ get_cmdline os pid = Ok cmd /\
    row_pid r = pid /\ row_cmd r = cmd /\
    row_score r = keyword_hits cmd kws /\ mb_of_kb rss_kb (row_mb r).

(** [d] is the entry of the snapshot listing for the process [pid]. *)
Definition snapshot_detail (os : platform) (pid : Z) (d : detail) : Prop :=
  exists rss_kb,
    get_rss_kb os pid = Ok rss_kb /\ get_cmdline os pid = Ok d.2 /\
    d.1.1 = pid /\ mb_of_kb rss_kb d.1.2.

(** The process rows of a printed screen, top to bottom: PID, MB and
    marker. *)
Definition shown (screen : list screen_line) : list (Z * pyfloat * string) :=
  omap (fun l => match l with
                 | TableRow m pid mb _ => Some (pid, mb, m)
                 | _ => None
                 end) screen.

(** The marker a row of score [sc] is due: a star for a positive
    score. *)
Definition marker (sc : Z) : string := if 0 <? sc then "*" else " ".

(** A message of the snapshot that reports one process. *)
Definition is_proc_line (m : log_msg) : bool :=
  match m with
  | ProcLine _ _ _ => true
  | _ => false
  end.

End Spec.

(** ** Sample hosts *)

Module Examples.
Import F64 Py Monitor.
Local Open Scope string_scope.
Local Open Scope Z_scope.

Definition nl : string := String (ascii_of_N 10) "".

(** A text file made of the given lines. *)
Definition text (ls : list string) : string :=
  fold_right (fun l acc => l ++ nl ++ acc) "" ls.

Definition status_file (ls : list string) : line_stream :=
  fold_right (fun l rest => Line (l ++ nl) rest) Eof ls.

(** [raw.decode(errors='ignore')], as UTF-8, of bytes that hold no
    character above U+00FF: an ASCII byte is itself, [C2] or [C3] with
    a continuation byte after it is the character of U+0080..U+00FF
    the two encode, and a byte that starts no character is dropped. (A
    well-formed sequence of a character above U+00FF has no place in
    the text of this file; no sample host holds one.) *)
Fixpoint decode_utf8 (b : bytes) : string :=
  match b with
  | [] => ""
  | c :: b' =>
      if (code c <? 128)%N then String c (decode_utf8 b')
      else
        match b' with
        | c2 :: b'' =>
            if ((code c =? 194) || (code c =? 195))%N && between 128 191 c2
            then String (ascii_of_N ((code c - 192) * 64 + (code c2 - 128)))
                        (decode_utf8 b'')
            else decode_utf8 b'
        | [] => ""
        end
  end.

Definition nul : string := String (ascii_of_N 0) "".

(** Three java processes are listed: 10 and 20 are alive, with 2048 kB
    and 2049 kB resident, 30 has gone. *)
Definition host (mi : string) (du : Z * Z * Z) : platform := {|
  meminfo := Ok mi;
  disk_usage := fun _ => Ok du;
  pgrep_java := Ok (text ["10"; "20"; "30"]);
  proc_status := fun pid =>
    if pid =? 10 then
      status_file ["Name:   java"; "VmPeak:  9000 kB"; "VmRSS:      2048 kB"]
    else if pid =? 20 then status_file ["VmRSS:      2049 kB"]
    else ReadError;
  proc_cmdline := fun pid =>
    if pid =? 10 then
      Ok (list_ascii_of_string
            ("java" ++ nul ++ "-jar" ++ nul ++ "MyForgeServer.jar" ++ nul))
    else if pid =? 20 then
      Ok (list_ascii_of_string ("java" ++ nul ++ "-version" ++ nul))
    else Raise OSError;
  decode_ignore := decode_utf8;
|}.

(** 16 kB in all, 15 kB available: 6.25 % used. *)
Definition host_6_25 : platform :=
  host (text ["MemTotal:       16 kB"; "MemFree:         3 kB";
              "MemAvailable:   15 kB"])
       (16, 1, 15).

(** More memory available than there is in all. *)
Definition host_over : platform :=
  host (text ["MemTotal:      100 kB"; "MemAvailable:  200 kB"])
       (1000, 800, 200).

(** No [MemAvailable] line: the sum of the three other counters counts. *)
Definition host_old_kernel : platform :=
  host (text ["MemTotal:     1000 kB"; "MemFree:       100 kB";
              "Buffers:        60 kB"; "Cached:         40 kB"])
       (1000, 800, 200).

(** The host of [host_6_25] with the processes discovered in another
    order: 30, 10, 20. *)
Definition host_shuffled : platform := {|
  meminfo := meminfo host_6_25;
  disk_usage := disk_usage host_6_25;
  pgrep_java := Ok (text ["30"; "10"; "20"]);
  proc_status := proc_status host_6_25;
  proc_cmdline := proc_cmdline host_6_25;
  decode_ignore := decode_ignore host_6_25;
|}.

(** A host whose counters cannot be read and whose [pgrep] fails. *)
Definition host_down : platform := {|
  meminfo := Raise OSError;
  disk_usage := fun _ => Raise OSError;
  pgrep_java := Raise CalledProcessError;
  proc_status := fun _ => ReadError;
  proc_cmdline := fun _ => Raise OSError;
  decode_ignore := decode_utf8;
|}.

Definition a120 : string := string_of_list_ascii (repeat "a"%char 120).

End Examples.

(** ** Shapes of input the further properties speak of *)

Module Shapes.
Import F64 Py Monitor.
Local Open Scope string_scope.
Local Open Scope Z_scope.

(** The magnitude of [round(x / y * 100, 1)] for [0 <= x], [0 < y], in
    units of [2^-1074]: the three roundings one after the other. *)
Definition percent_units (x y : Z) : Z :=
  grid_of_tenths
    (tenths (round_grid (round_grid (x * one_k) y * (100 * one_k)) one_k)).

(** A message of [main] that belongs to the listing of the processes. *)
Definition is_listing_line (l : log_msg) : Prop :=
  match l with
  | NoJava | ProcHeader | ProcLine _ _ _ => True
  | _ => False
  end.

(** The magnitude of [round(z / 1024, 1)] for [0 <= z], in units of
    [2^-1074]: the two roundings one after the other. *)
Definition mb_units (z : Z) : Z :=
  grid_of_tenths (tenths (round_grid (z * one_k) 1024)).

(** Every character of [s] satisfies [p]. *)
Fixpoint all_chars (p : ascii -> bool) (s : string) : bool :=
  match s with
  | "" => true
  | String c s' => p c && all_chars p s'
  end.

(** No whitespace in [s]. *)
Definition no_space (s : string) : bool :=
  all_chars (fun c => negb (isspace c)) s.

(** A word: not empty, and no whitespace in it. *)
Definition is_word (s : string) : bool := nonempty s && no_space s.

(** The character of the decimal digit [d]. *)
Definition digit_char (d : nat) : ascii := ascii_of_nat (48 + d).

(** The numeral written with the decimal digits [ds], first digit
    first, and the number it denotes. *)
Definition numeral (ds : list nat) : string :=
  string_of_list_ascii (map digit_char ds).

Definition numeral_value (ds : list nat) : Z :=
  fold_left (fun acc d => 10 * acc + Z.of_nat d) ds 0.

(** The digits of a numeral [int()] accepts: at least one and at most
    4300, each below ten. *)
Definition is_digits (ds : list nat) : bool :=
  match ds with
  | [] => false
  | _ => forallb (fun d => (d <? 10)%nat) ds && (length ds <=? 4300)%nat
  end.

(** A status file that starts with the lines [pre] and goes on as
    [rest]. *)
Definition lines_then (pre : list string) (rest : line_stream) : line_stream :=
  fold_right Line rest pre.

(** Spaces and tabs only. *)
Definition blanks (s : string) : bool :=
  all_chars (fun c => (code c =? 32)%N || (code c =? 9)%N) s.

(** No line boundary in [s]. *)
Definition no_break (s : string) : bool :=
  all_chars (fun c => negb (islinebreak c)) s.

(** The character [x] does not occur in [s]. *)
Definition no_char (x : ascii) (s : string) : bool :=
  all_chars (fun c => negb (Ascii.eqb c x)) s.

(** A key of /proc/meminfo: no colon and no line boundary in it. *)
Definition plain_key (s : string) : bool := no_char ":" s && no_break s.

(** A line of /proc/meminfo: the key, a colon, padding, the value in
    decimal, and for most counters the unit. *)
Record meminfo_entry : Type := {
  e_key : string;
  e_pad : string;
  e_digits : list nat;
  e_unit : bool;
}.

Definition entry_line (e : meminfo_entry) : string :=
  e_key e ++ ":" ++ e_pad e ++ numeral (e_digits e)
  ++ (if e_unit e then " kB" else "").

Definition entry_ok (e : meminfo_entry) : bool :=
  plain_key (e_key e) && blanks (e_pad e) && is_digits (e_digits e).

(** The counters a list of entries defines: a later entry of a key
    replaces an earlier one. *)
Definition entries_map (es : list meminfo_entry) : gmap string Z :=
  fold_left (fun m e => <[e_key e := numeral_value (e_digits e)]> m) es ∅.

(** [','.join(kws)] *)
Definition join_comma (kws : list string) : string :=
  match kws with
  | [] => ""
  | k :: rest => k ++ fold_right (fun x acc => "," ++ x ++ acc) "" rest
  end.

(** The last character of [String c s]. *)
Fixpoint last_char (c : ascii) (s : string) : ascii :=
  match s with
  | "" => c
  | String c' s' => last_char c' s'
  end.

(** Not empty, and no whitespace at either end. *)
Definition trimmed (s : string) : bool :=
  match s with
  | "" => false
  | String c s' => negb (isspace c) && negb (isspace (last_char c s'))
  end.

(** A keyword as [--filter] can carry it. *)
Definition clean_keyword (k : string) : bool := trimmed k && no_char "," k.

Definition nul_byte : ascii := ascii_of_N 0.

(** The content of /proc/<pid>/cmdline for the argument vector [args]:
    each argument followed by a NUL byte. *)
Definition cmdline_file (args : list bytes) : bytes :=
  concat (map (fun a => a ++ [nul_byte])%list args).

(** [b' '.join(args)] *)
Definition join_space (args : list bytes) : bytes :=
  match args with
  | [] => []
  | a :: rest => (a ++ concat (map (fun b => " "%char :: b) rest))%list
  end.

Definition no_nul (a : bytes) : bool :=
  forallb (fun c => negb (code c =? 0)%N) a.

(** What a row of the live table and a line of the snapshot share. *)
Definition row_detail (r : row) : detail := (row_pid r, row_mb r, row_cmd r).

(** The marker of a line of the live table, if it is a row. *)
Definition row_mark (l : screen_line) : option string :=
  match l with
  | TableRow m _ _ _ => Some m
  | _ => None
  end.

(** If [a] is an unmarked row, [b] is not a starred one. *)
Definition star_order (a b : screen_line) : Prop :=
  row_mark a = Some " " -> row_mark b <> Some "*".

Import Logging.

(** The lines [log] writes for the messages [msgs], one after the
    other, the clock having been read [n] times before. *)
Fixpoint stamped (rt : runtime) (n : nat) (msgs : list log_msg) : string :=
  match msgs with
  | [] => ""
  | m :: rest =>
      now rt n ++ " - " ++ message rt m ++ String (ascii_of_N 10) ""
      ++ stamped rt (S n) rest
  end.

(** The world after [lines] have been logged in [k] calls. *)
Definition logged (w : world) (lines : string) (k : nat) : world :=
  {| log_file := log_file w ++ lines;
     printed := printed w ++ lines;
     clock_reads := clock_reads w + k |}.

(** The messages [main] logs before it looks for processes. *)
Definition main_head (mem disk : pynum) : list log_msg :=
  ([Summary mem disk]
   ++ (if ge_int mem TH_RAM then [AlertRam mem] else [])
   ++ (if ge_int disk TH_DISK then [AlertDisk disk] else []))%list.

End Shapes.

(** ** Further sample hosts *)

Module Fixtures.
Import F64 Py Monitor Examples Shapes.
Local Open Scope string_scope.
Local Open Scope Z_scope.

(** A host of which only the process table can be read: [pgrep] prints
    [out], every status file reads as [st], every cmdline file as [cl]. *)
Definition host_procs (out : string) (st : line_stream)
    (cl : result Py.bytes) : platform := {|
  meminfo := Raise OSError;
  disk_usage := fun _ => Raise OSError;
  pgrep_java := Ok out;
  proc_status := fun _ => st;
  proc_cmdline := fun _ => cl;
  decode_ignore := decode_utf8;
|}.

(** A status file that reports a resident size of [10^320] kB. *)
Definition host_huge : platform :=
  host_procs "7"
    (status_file ["VmRSS:  1" ++ string_of_list_ascii (repeat "0"%char 320)
                  ++ " kB"])
    (Ok []).

(** A status file that reports a resident size in 4301 digits. *)
Definition host_long : platform :=
  host_procs "7"
    (status_file ["VmRSS:  1" ++ string_of_list_ascii (repeat "0"%char 4300)
                  ++ " kB"])
    (Ok []).

(** The entries of the meminfo file of [host_old_kernel]. *)
Definition old_kernel_entries : list meminfo_entry :=
  [ {| e_key := "MemTotal"; e_pad := "     "; e_digits := [1; 0; 0; 0]%nat;
       e_unit := true |};
    {| e_key := "MemFree"; e_pad := "       "; e_digits := [1; 0; 0]%nat;
       e_unit := true |};
    {| e_key := "Buffers"; e_pad := "        "; e_digits := [6; 0]%nat;
       e_unit := true |};
    {| e_key := "Cached"; e_pad := "         "; e_digits := [4; 0]%nat;
       e_unit := true |} ].

Import Logging.

(** A run at one moment of a day, with every number shown as [#]. *)
Definition frozen_clock (writable : bool) : runtime := {|
  can_append := writable;
  now := fun _ => "2024-01-01 00:00:00";
  str_num := fun _ => "#";
|}.

Definition blank_world : world :=
  {| log_file := ""; printed := ""; clock_reads := 0 |}.

End Fixtures.

(** * Properties *)

(** ** Rounding *)

Module F64Facts.
Import F64 Spec.
Local Open Scope Z_scope.

Lemma round_half_even_cases n d :
  0 < d ->
  let m := round_half_even n d in
  (m = n / d \/ m = n / d + 1) /\ 2 * Z.abs (m * d - n) <= d /\
  (2 * Z.abs (m * d - n) = d -> Z.even m = true).
Proof.
  intros Hd m. subst m. unfold round_half_even.
  pose proof (Z.div_mod n d ltac:(lia)) as Hdm.
  pose proof (Z.mod_pos_bound n d Hd) as Hr.
  set (q := n / d) in *. set (r := n mod d) in *.
  destruct (Z.compare_spec (2 * r) d) as [He|Hl|Hg].
  - destruct (Z.even q) eqn:Hev.
    + split; [auto|]. split; [nia|auto].
    + split; [auto|]. split; [nia|]. intros _.
      rewrite Z.even_add, Hev. reflexivity.
  - split; [auto|]. split; nia.
  - split; [auto|]. split; nia.
Qed.

Lemma round_half_even_le n d c :
  0 < d -> n <= c * d -> round_half_even n d <= c.
Proof.
  intros Hd Hn.
  destruct (round_half_even_cases n d Hd) as (_ & Hnear & _).
  nia.
Qed.

Lemma round_half_even_ge n d c :
  0 < d -> c * d <= n -> c <= round_half_even n d.
Proof.
  intros Hd Hn.
  destruct (round_half_even_cases n d Hd) as (_ & Hnear & _).
  nia.
Qed.

Lemma round_half_even_exact c d : 0 < d -> round_half_even (c * d) d = c.
Proof.
  intros Hd. apply Z.le_antisymm.
  - apply round_half_even_le; lia.
  - apply round_half_even_ge; lia.
Qed.

Lemma ulp_shift_nonneg n d : 0 <= ulp_shift n d.
Proof. unfold ulp_shift. lia. Qed.

Lemma round_grid_nonneg n d : 0 <= n -> 0 < d -> 0 <= round_grid n d.
Proof.
  intros Hn Hd. unfold round_grid.
  pose proof (ulp_shift_nonneg n d) as Hs.
  assert (0 < 2 ^ ulp_shift n d) by (apply Z.pow_pos_nonneg; lia).
  apply Z.mul_nonneg_nonneg; [|lia].
  apply round_half_even_ge; nia.
Qed.

(** A value [m * 2^s] with at most 53 significant bits bounds the
    rounding of everything below it. *)
Lemma round_grid_le n d m s :
  0 <= n -> 0 < d -> 0 <= s -> 0 <= m <= 2 ^ 53 ->
  n <= m * 2 ^ s * d -> round_grid n d <= m * 2 ^ s.
Proof.
  intros Hn Hd Hs Hm Hle. unfold round_grid.
  pose proof (ulp_shift_nonneg n d) as Ht.
  set (t := ulp_shift n d) in *.
  assert (Hpt : 0 < 2 ^ t) by (apply Z.pow_pos_nonneg; lia).
  destruct (Z.le_gt_cases t s) as [Hts|Hts].
  - replace s with ((s - t) + t) by lia.
    rewrite Z.pow_add_r by lia.
    assert (0 < 2 ^ (s - t)) by (apply Z.pow_pos_nonneg; lia).
    rewrite Z.mul_assoc. apply Z.mul_le_mono_nonneg_r; [lia|].
    apply round_half_even_le; [nia|].
    replace s with ((s - t) + t) in Hle by lia.
    rewrite Z.pow_add_r in Hle by lia. nia.
  - assert (Ht' : t = Z.log2 (n / d) - 52) by (unfold t, ulp_shift in *; lia).
    assert (Hq : 0 < n / d).
    { destruct (Z.le_gt_cases (n / d) 0) as [H0|H0]; [|lia].
      rewrite (Z.log2_nonpos _ H0) in Ht'. lia. }
    pose proof (Z.log2_spec _ Hq) as [Hlo _].
    replace (Z.log2 (n / d)) with (52 + t) in Hlo by lia.
    rewrite Z.pow_add_r in Hlo by lia.
    assert (Hnd : 2 ^ 52 * 2 ^ t * d <= n).
    { pose proof (Z.mul_div_le n d Hd). nia. }
    assert (Hst : 2 ^ s * 2 <= 2 ^ t).
    { replace t with (s + 1 + (t - s - 1)) by lia.
      rewrite !Z.pow_add_r by lia.
      assert (0 < 2 ^ (t - s - 1)) by (apply Z.pow_pos_nonneg; lia).
      assert (0 < 2 ^ s) by (apply Z.pow_pos_nonneg; lia).
      change (2 ^ 1) with 2. nia. }
    assert (H53 : 2 ^ 53 = 2 ^ 52 * 2) by reflexivity.
    assert (0 < 2 ^ s) by (apply Z.pow_pos_nonneg; lia).
    assert (Hms : m * 2 ^ s <= 2 ^ 52 * 2 ^ t) by nia.
    assert (Heq : n = 2 ^ 52 * (d * 2 ^ t)) by nia.
    rewrite Heq, round_half_even_exact by nia.
    nia.
Qed.

Lemma one_k_pos : 0 < one_k.
Proof. reflexivity. Qed.

Lemma signed_units neg k : 0 <= k -> Z.abs (units (signed neg k)) = k.
Proof.
  intros Hk. unfold signed.
  destruct (Z.eqb_spec k 0); destruct neg; simpl; lia.
Qed.

Lemma signed_finite neg k B : 0 <= k <= B -> finite_le B (signed neg k).
Proof.
  intros Hk. pose proof (signed_units neg k ltac:(lia)) as Hu.
  unfold signed in *.
  destruct (k =? 0); destruct neg; simpl in *; lia.
Qed.

Lemma signed_is_neg_false k : 0 <= k -> signed false k = Fin k.
Proof.
  intros Hk. unfold signed. destruct (Z.eqb_spec k 0); congruence.
Qed.

Lemma round_grid_bound n d B :
  on_grid B -> 0 <= n -> 0 < d -> n <= B * d ->
  0 <= round_grid n d <= B /\ (huge_k <=? round_grid n d) = false.
Proof.
  intros (m & s & -> & Hm & Hs & Hh) Hn Hd Hle.
  pose proof (round_grid_nonneg n d Hn Hd).
  pose proof (round_grid_le n d m s Hn Hd Hs Hm Hle).
  split; [lia|]. apply Z.leb_gt. lia.
Qed.

Lemma truediv_le x y B :
  y <> 0 -> on_grid B -> Z.abs x * one_k <= B * Z.abs y ->
  exists q, truediv x y = Ok q /\ finite_le B q.
Proof.
  intros Hy HB Hle. unfold truediv.
  destruct (Z.eqb_spec y 0); [contradiction|].
  destruct (round_grid_bound (Z.abs x * one_k) (Z.abs y) B HB) as [Hr ->];
    [pose proof one_k_pos; nia | lia | lia |].
  eexists; split; [reflexivity|]. apply signed_finite; lia.
Qed.

Lemma truediv_nonneg x y B :
  0 <= x -> 0 < y -> on_grid B -> x * one_k <= B * y ->
  exists k, truediv x y = Ok (Fin k) /\ 0 <= k <= B.
Proof.
  intros Hx Hy HB Hle. unfold truediv.
  destruct (Z.eqb_spec y 0); [lia|].
  rewrite (Z.abs_eq x), (Z.abs_eq y) by lia.
  destruct (round_grid_bound (x * one_k) y B HB) as [Hr ->];
    [pose proof one_k_pos; nia | lia | lia |].
  replace (x <? 0) with false by (symmetry; apply Z.ltb_ge; lia).
  replace (y <? 0) with false by (symmetry; apply Z.ltb_ge; lia).
  simpl. rewrite signed_is_neg_false by lia. eauto.
Qed.

Lemma fmul_le x y Bx By B :
  finite_le Bx x -> finite_le By y -> on_grid B ->
  Bx * By <= B * one_k -> finite_le B (fmul x y).
Proof.
  intros Hx Hy HB Hle.
  assert (H0 : 0 <= B) by (destruct HB as (m & s & -> & ? & ? & _);
    assert (0 < 2 ^ s) by (apply Z.pow_pos_nonneg; lia); nia).
  destruct x as [|kx|], y as [|ky|]; simpl in Hx, Hy; try contradiction;
    unfold fmul; try (apply signed_finite; lia).
  destruct (round_grid_bound (Z.abs kx * Z.abs ky) one_k B HB) as [Hr ->];
    [lia | apply one_k_pos | nia |].
  apply signed_finite; lia.
Qed.

Lemma fmul_nonneg kx ky B :
  0 <= kx -> 0 <= ky -> on_grid B -> kx * ky <= B * one_k ->
  exists k, fmul (Fin kx) (Fin ky) = Fin k /\ 0 <= k <= B.
Proof.
  intros Hx Hy HB Hle. unfold fmul.
  rewrite (Z.abs_eq kx), (Z.abs_eq ky) by lia.
  destruct (round_grid_bound (kx * ky) one_k B HB) as [Hr ->];
    [nia | apply one_k_pos | lia |].
  simpl. replace (kx <? 0) with false by (symmetry; apply Z.ltb_ge; lia).
  replace (ky <? 0) with false by (symmetry; apply Z.ltb_ge; lia).
  simpl. rewrite signed_is_neg_false by lia. eauto.
Qed.

Lemma tenths_le k T : Z.abs k * 10 <= T * one_k -> 0 <= tenths k <= T.
Proof.
  intros Hle. unfold tenths. split.
  - apply round_half_even_ge; [apply one_k_pos|lia].
  - apply round_half_even_le; [apply one_k_pos|lia].
Qed.

Lemma round1_le x Bx T B :
  finite_le Bx x -> on_grid B -> Bx * 10 <= T * one_k -> T * one_k <= B * 10 ->
  exists r, round1 x = Ok r /\ finite_le B r.
Proof.
  intros Hx HB H1 H2.
  assert (H0 : 0 <= B) by (destruct HB as (m & s & -> & ? & ? & _);
    assert (0 < 2 ^ s) by (apply Z.pow_pos_nonneg; lia); nia).
  pose proof one_k_pos as Hone.
  destruct x as [|k|]; simpl in Hx; try contradiction.
  - eexists; split; [reflexivity|]. simpl. lia.
  - unfold round1, grid_of_tenths.
    destruct (tenths_le k T ltac:(lia)) as [Ht0 HtT].
    destruct (round_grid_bound (tenths k * one_k) 10 B HB) as [Hr ->];
      [nia | lia | nia |].
    eexists; split; [reflexivity|]. apply signed_finite; lia.
Qed.

Lemma round1_nonneg k T B :
  0 <= k -> on_grid B -> k * 10 <= T * one_k -> T * one_k <= B * 10 ->
  exists r, round1 (Fin k) = Ok (Fin r) /\ 0 <= r <= B.
Proof.
  intros Hk HB H1 H2. pose proof one_k_pos as Hone.
  unfold round1, grid_of_tenths.
  destruct (tenths_le k T ltac:(lia)) as [Ht0 HtT].
  destruct (round_grid_bound (tenths k * one_k) 10 B HB) as [Hr ->];
    [nia | lia | nia |].
  replace (k <? 0) with false by (symmetry; apply Z.ltb_ge; lia).
  rewrite signed_is_neg_false by lia. eauto.
Qed.

Lemma on_grid_intro m s :
  0 <= m <= 2 ^ 53 -> 0 <= s -> m * 2 ^ s < huge_k -> on_grid (m * 2 ^ s).
Proof. intros. exists m, s. auto. Qed.


(** *** The model on known binary64 values

    Each right-hand side is the [float.as_integer_ratio()] of the Python
    expression named: [n * 2 ^ (1074 - e)] is the value [n / 2^e]. *)

(** [1 / 3] *)
Example truediv_third :
  truediv 1 3 = Ok (Fin (6004799503160661 * 2 ^ (1074 - 54))).
Proof. vm_compute. reflexivity. Qed.

(** [1 / 10] *)
Example truediv_tenth :
  truediv 1 10 = Ok (Fin (3602879701896397 * 2 ^ (1074 - 55))).
Proof. vm_compute. reflexivity. Qed.

(** [10**400 / (3 * 10**399)]: ints beyond the float range divide
    exactly before the one rounding. *)
Example truediv_big :
  truediv (10 ^ 400) (3 * 10 ^ 399)
  = Ok (Fin (7505999378950827 * 2 ^ (1074 - 51))).
Proof. vm_compute. reflexivity. Qed.

(** [(2**53 + 1) / 1]: a tie goes to the even significand. *)
Example truediv_tie :
  truediv (2 ^ 53 + 1) 1 = Ok (Fin (2 ^ 53 * 2 ^ 1074)).
Proof. vm_compute. reflexivity. Qed.

(** [1 / (3 * 2**1073)] is the smallest subnormal, [5e-324]. *)
Example truediv_subnormal : truediv 1 (3 * 2 ^ 1073) = Ok (Fin 1).
Proof. vm_compute. reflexivity. Qed.

(** [0 / -5] is [-0.0]; [(1 - 10**400) / 1] raises [OverflowError]. *)
Example truediv_signs :
  truediv 0 (-5) = Ok NegZero /\
  truediv (1 - 10 ^ 400) 1 = Raise OverflowError /\
  truediv 1 0 = Raise ZeroDivisionError.
Proof. vm_compute. auto. Qed.

(** [9 / 2000 * 100] is [0.44999999999999996], and [round] of it [0.4]. *)
Example percent_below_tie :
  (q <-- truediv 9 2000;; Ok (fmul q (of_int 100)))
  = Ok (Fin (2026619832316723 * 2 ^ (1074 - 52))) /\
  (q <-- truediv 9 2000;; round1 (fmul q (of_int 100)))
  = Ok (Fin (3602879701896397 * 2 ^ (1074 - 53))).
Proof. vm_compute. auto. Qed.

(** [round(6.25, 1)] is [6.2]; [round(2049 / 1024, 1)] is [2.0];
    [round(-0.04, 1)] is [-0.0]. *)
Example round1_values :
  round1 (Fin (25 * 2 ^ 1072)) = Ok (Fin (6980579422424269 * 2 ^ (1074 - 50))) /\
  (q <-- truediv 2049 1024;; round1 q) = Ok (Fin (2 * 2 ^ 1074)) /\
  (q <-- truediv (-4) 100;; round1 q) = Ok NegZero.
Proof. vm_compute. auto. Qed.

End F64Facts.

(** ** Percentages and megabytes *)

Module NumFacts.
Import F64 Py Monitor Spec F64Facts.
Local Open Scope Z_scope.

Lemma closed_le (a b : Z) : (a <=? b) = true -> a <= b.
Proof. apply Z.leb_le. Qed.

Lemma closed_lt (a b : Z) : (a <? b) = true -> a < b.
Proof. apply Z.ltb_lt. Qed.

Ltac closed := first [apply closed_le | apply closed_lt]; vm_compute; reflexivity.

Lemma on_grid_one : on_grid one_k.
Proof. exists 1, 1074. repeat split; try closed. Qed.

Lemma on_grid_hundred : on_grid (100 * one_k).
Proof. exists 100, 1074. repeat split; try closed. Qed.

Lemma tenths_nearest_even k : nearest_even_tenths k (tenths k).
Proof.
  unfold nearest_even_tenths, tenths.
  destruct (round_half_even_cases (10 * Z.abs k) one_k one_k_pos)
    as (_ & Hnear & Htie).
  split; [exact Hnear | exact Htie].
Qed.

(** A part of a whole, as a percentage, lies between 0 and 100. *)
Lemma percent_in_range x y :
  0 <= x <= y -> 0 < y ->
  exists k, percent x y = Ok (Fin k) /\ 0 <= k <= 100 * one_k.
Proof.
  intros Hx Hy. unfold percent. pose proof one_k_pos as Hone.
  destruct (truediv_nonneg x y one_k) as (kq & -> & Hkq);
    [lia | lia | apply on_grid_one | nia |].
  cbn [rbind]. unfold of_int.
  destruct (fmul_nonneg kq (100 * one_k) (100 * one_k)) as (ku & -> & Hku);
    [lia | lia | apply on_grid_hundred | nia |].
  destruct (round1_nonneg ku 1000 (100 * one_k)) as (r & -> & Hr);
    [lia | apply on_grid_hundred | lia | lia |].
  eauto.
Qed.

(** The percentage is defined as long as the quotient stays far from
    the overflow threshold. *)
Lemma percent_returns x y :
  y <> 0 -> Z.abs x <= 2 ^ 900 * Z.abs y -> returns (percent x y).
Proof.
  intros Hy Hx. unfold percent.
  destruct (truediv_le x y (2 ^ 900 * one_k)) as (q & -> & Hq).
  - exact Hy.
  - exists 1, 1974. repeat split; try closed.
  - pose proof one_k_pos. nia.
  - cbn [rbind].
    assert (Hu : finite_le (100 * (2 ^ 900 * one_k)) (fmul q (of_int 100))).
    { apply (fmul_le q (of_int 100) (2 ^ 900 * one_k) (100 * one_k)).
      - exact Hq.
      - simpl. apply closed_le. vm_compute. reflexivity.
      - exists 25, 1976. repeat split; try closed.
      - closed. }
    destruct (round1_le (fmul q (of_int 100)) _ (1000 * 2 ^ 900)
                (100 * (2 ^ 900 * one_k)) Hu) as (r & Hr & _).
    + exists 25, 1976. repeat split; try closed.
    + closed.
    + closed.
    + exists r. exact Hr.
Qed.

(** [to_mb] is defined on every resident size a kernel can report. *)
Lemma to_mb_returns z : Z.abs z <= 2 ^ 1000 -> returns (to_mb z).
Proof.
  intros Hz. unfold to_mb.
  destruct (truediv_le z 1024 (2 ^ 1000 * one_k)) as (q & -> & Hq).
  - lia.
  - exists 1, 2074. repeat split; try closed.
  - pose proof one_k_pos. change (Z.abs 1024) with 1024. nia.
  - cbn [rbind].
    destruct (round1_le q _ (10 * 2 ^ 1000) (2 ^ 1000 * one_k) Hq)
      as (r & Hr & _).
    + exists 1, 2074. repeat split; try closed.
    + closed.
    + closed.
    + exists r. exact Hr.
Qed.

Lemma to_mb_zero : to_mb 0 = Ok (Fin 0).
Proof. vm_compute. reflexivity. Qed.

(** The nearest-even number of tenths is unique. *)
Lemma nearest_even_unique k t t' :
  nearest_even_tenths k t -> nearest_even_tenths k t' -> t = t'.
Proof.
  unfold nearest_even_tenths. intros [H1 E1] [H2 E2].
  pose proof one_k_pos as Hone.
  set (X := 10 * Z.abs k) in *. set (D := one_k) in *.
  assert (Hd : t' = t \/ t' = t + 1 \/ t = t' + 1) by nia.
  destruct Hd as [->|[->| ->]]; [reflexivity| |].
  - assert (Ha : 2 * Z.abs (t * D - X) = D) by nia.
    assert (Hb : 2 * Z.abs ((t + 1) * D - X) = D) by nia.
    specialize (E1 Ha). specialize (E2 Hb).
    rewrite Z.even_add, E1 in E2. discriminate E2.
  - assert (Ha : 2 * Z.abs (t' * D - X) = D) by nia.
    assert (Hb : 2 * Z.abs ((t' + 1) * D - X) = D) by nia.
    specialize (E2 Ha). specialize (E1 Hb).
    rewrite Z.even_add, E2 in E1. discriminate E1.
Qed.

(** What [round(x / y * 100, 1)] returns is the half-even rounding of
    the float [x / y * 100]. *)
Lemma percent_rounded x y r :
  percent x y = Ok r ->
  exists q, truediv x y = Ok q /\ rounded_half_even (fmul q (of_int 100)) r.
Proof.
  unfold percent. destruct (truediv x y) as [q|e]; [|discriminate].
  cbn [rbind]. intros Hr. exists q. split; [reflexivity|].
  destruct (fmul q (of_int 100)) as [|k|neg]; cbn [round1] in Hr.
  - injection Hr as <-. reflexivity.
  - destruct (huge_k <=? grid_of_tenths (tenths k)); [discriminate|].
    injection Hr as <-. exists (tenths k).
    split; [apply tenths_nearest_even|reflexivity].
  - injection Hr as <-. reflexivity.
Qed.

End NumFacts.

(** ** Rounding keeps the order *)

Module RoundMono.
Import F64 Py Monitor Spec Shapes F64Facts NumFacts.
Local Open Scope Z_scope.

Lemma floor_div_mono n d n' d' :
  0 < d -> 0 < d' -> n * d' <= n' * d -> n / d <= n' / d'.
Proof.
  intros Hd Hd' H. apply Z.div_le_lower_bound; [exact Hd'|].
  pose proof (Z.mul_div_le n d Hd). nia.
Qed.

Lemma round_half_even_mono n d n' d' :
  0 < d -> 0 < d' -> n * d' <= n' * d ->
  round_half_even n d <= round_half_even n' d'.
Proof.
  intros Hd Hd' H.
  destruct (round_half_even_cases n d Hd) as (_ & Hn & En).
  destruct (round_half_even_cases n' d' Hd') as (_ & Hn' & En').
  set (m := round_half_even n d) in *. set (m' := round_half_even n' d') in *.
  destruct (Z.le_gt_cases m m') as [Hle|Hgt]; [exact Hle|exfalso].
  assert (H1 : (2 * m' + 1) * d <= 2 * n) by nia.
  assert (H2 : 2 * n' <= (2 * m' + 1) * d') by nia.
  assert (H3 : (2 * m' + 1) * d * d' <= 2 * n * d') by nia.
  assert (H4 : 2 * n' * d <= (2 * m' + 1) * d' * d) by nia.
  assert (E1 : 2 * n = (2 * m' + 1) * d) by nia.
  assert (E2 : 2 * n' = (2 * m' + 1) * d') by nia.
  assert (Em : m = m' + 1) by nia.
  assert (T : 2 * Z.abs (m * d - n) = d) by nia.
  assert (T' : 2 * Z.abs (m' * d' - n') = d') by nia.
  specialize (En T). specialize (En' T').
  rewrite Em, Z.even_add, En' in En. discriminate En.
Qed.

Lemma round_grid_top n d :
  0 <= n -> 0 < d ->
  round_half_even n (d * 2 ^ ulp_shift n d) <= 2 ^ 53.
Proof.
  intros Hn Hd. pose proof (ulp_shift_nonneg n d) as Hs.
  set (s := ulp_shift n d) in *.
  assert (Hps : 0 < 2 ^ s) by (apply Z.pow_pos_nonneg; lia).
  apply round_half_even_le; [nia|].
  assert (Hq : n / d < 2 ^ 53 * 2 ^ s).
  { destruct (Z.le_gt_cases (n / d) 0) as [H0|H0]; [nia|].
    pose proof (Z.log2_spec _ H0) as [_ Hhi].
    assert (Hl : Z.succ (Z.log2 (n / d)) <= 53 + s)
      by (unfold s, ulp_shift; lia).
    rewrite <- Z.pow_add_r by lia.
    eapply Z.lt_le_trans; [exact Hhi|].
    apply Z.pow_le_mono_r; lia. }
  pose proof (Z.div_mod n d ltac:(lia)) as Hdm.
  pose proof (Z.mod_pos_bound n d Hd) as Hr. nia.
Qed.

Lemma round_grid_bottom n d :
  0 <= n -> 0 < d -> 0 < ulp_shift n d ->
  2 ^ 52 <= round_half_even n (d * 2 ^ ulp_shift n d).
Proof.
  intros Hn Hd Hs. set (s := ulp_shift n d) in *.
  assert (Hps : 0 < 2 ^ s) by (apply Z.pow_pos_nonneg; lia).
  apply round_half_even_ge; [nia|].
  assert (Hs' : s = Z.log2 (n / d) - 52) by (unfold s, ulp_shift in *; lia).
  assert (Hq : 0 < n / d).
  { destruct (Z.le_gt_cases (n / d) 0) as [H0|H0]; [|lia].
    rewrite (Z.log2_nonpos _ H0) in Hs'. lia. }
  pose proof (Z.log2_spec _ Hq) as [Hlo _].
  replace (Z.log2 (n / d)) with (52 + s) in Hlo by lia.
  rewrite Z.pow_add_r in Hlo by lia.
  pose proof (Z.mul_div_le n d Hd). nia.
Qed.

(** Rounding onto the binary64 grid never reverses an order. *)
Lemma round_grid_mono n d n' d' :
  0 <= n -> 0 < d -> 0 <= n' -> 0 < d' -> n * d' <= n' * d ->
  round_grid n d <= round_grid n' d'.
Proof.
  intros Hn Hd Hn' Hd' H. unfold round_grid.
  pose proof (ulp_shift_nonneg n d) as Hs.
  pose proof (ulp_shift_nonneg n' d') as Hs'.
  assert (Hss : ulp_shift n d <= ulp_shift n' d').
  { unfold ulp_shift.
    pose proof (floor_div_mono n d n' d' Hd Hd' H) as Hq.
    pose proof (Z.log2_le_mono _ _ Hq). lia. }
  pose proof (round_grid_top n d Hn Hd) as Htop.
  set (s := ulp_shift n d) in *. set (s' := ulp_shift n' d') in *.
  assert (Hps : 0 < 2 ^ s) by (apply Z.pow_pos_nonneg; lia).
  assert (Hps' : 0 < 2 ^ s') by (apply Z.pow_pos_nonneg; lia).
  destruct (Z.eq_dec s s') as [<-|Hne].
  - apply Z.mul_le_mono_nonneg_r; [lia|].
    apply round_half_even_mono; nia.
  - pose proof (round_grid_bottom n' d' Hn' Hd' ltac:(fold s'; lia)) as Hbot.
    fold s' in Hbot.
    assert (Hpow : 2 ^ s * 2 <= 2 ^ s').
    { replace s' with (s + 1 + (s' - s - 1)) by lia.
      rewrite !Z.pow_add_r by lia.
      assert (0 < 2 ^ (s' - s - 1)) by (apply Z.pow_pos_nonneg; lia).
      change (2 ^ 1) with 2. nia. }
    assert (H53 : 2 ^ 53 = 2 ^ 52 * 2) by reflexivity.
    nia.
Qed.

Lemma tenths_mono k k' : 0 <= k <= k' -> tenths k <= tenths k'.
Proof.
  intros Hk. unfold tenths. pose proof one_k_pos.
  apply round_half_even_mono; [lia | lia |].
  rewrite !Z.abs_eq by lia. nia.
Qed.

Lemma tenths_nonneg k : 0 <= tenths k.
Proof.
  unfold tenths. apply round_half_even_ge; [apply one_k_pos|lia].
Qed.

Lemma grid_of_tenths_mono t t' :
  0 <= t <= t' -> grid_of_tenths t <= grid_of_tenths t'.
Proof.
  intros Ht. unfold grid_of_tenths. pose proof one_k_pos.
  apply round_grid_mono; nia.
Qed.

(** The percentage of a part of a whole, through its three roundings. *)
Lemma percent_units_eq x y :
  0 <= x <= y -> 0 < y -> percent x y = Ok (Fin (percent_units x y)).
Proof.
  intros Hx Hy. unfold percent, percent_units. pose proof one_k_pos as Hone.
  unfold truediv. destruct (Z.eqb_spec y 0); [lia|].
  rewrite (Z.abs_eq x), (Z.abs_eq y) by lia.
  destruct (round_grid_bound (x * one_k) y one_k on_grid_one)
    as [Hq ->]; [nia | lia | nia |].
  replace (x <? 0) with false by (symmetry; apply Z.ltb_ge; lia).
  replace (y <? 0) with false by (symmetry; apply Z.ltb_ge; lia).
  cbn [xorb]. rewrite signed_is_neg_false by lia. cbn [rbind].
  set (kq := round_grid (x * one_k) y) in *.
  unfold fmul, of_int. rewrite (Z.abs_eq kq), (Z.abs_eq (100 * one_k)) by lia.
  destruct (round_grid_bound (kq * (100 * one_k)) one_k (100 * one_k)
              on_grid_hundred) as [Hu ->]; [nia | lia | nia |].
  cbn [is_neg].
  replace (kq <? 0) with false by (symmetry; apply Z.ltb_ge; lia).
  replace (100 * one_k <? 0) with false by (symmetry; apply Z.ltb_ge; lia).
  cbn [xorb]. rewrite signed_is_neg_false by lia.
  set (ku := round_grid (kq * (100 * one_k)) one_k) in *.
  cbn [round1].
  destruct (tenths_le ku 1000 ltac:(lia)) as [Ht0 Ht].
  unfold grid_of_tenths at 1.
  destruct (round_grid_bound (tenths ku * one_k) 10 (100 * one_k)
              on_grid_hundred) as [Hr ->]; [nia | lia | nia |].
  replace (ku <? 0) with false by (symmetry; apply Z.ltb_ge; lia).
  rewrite signed_is_neg_false by (unfold grid_of_tenths; lia).
  reflexivity.
Qed.

(** A larger share gives a percentage at least as large. *)
Lemma percent_units_mono x y x' y' :
  0 <= x -> 0 < y -> 0 <= x' -> 0 < y' -> x * y' <= x' * y ->
  percent_units x y <= percent_units x' y'.
Proof.
  intros Hx Hy Hx' Hy' H. unfold percent_units. pose proof one_k_pos as Hone.
  assert (Hq0 : 0 <= round_grid (x * one_k) y)
    by (apply round_grid_nonneg; nia).
  assert (Hq : round_grid (x * one_k) y <= round_grid (x' * one_k) y')
    by (apply round_grid_mono; nia).
  set (q := round_grid (x * one_k) y) in *.
  set (q' := round_grid (x' * one_k) y') in *.
  assert (Hu0 : 0 <= round_grid (q * (100 * one_k)) one_k)
    by (apply round_grid_nonneg; nia).
  assert (Hu : round_grid (q * (100 * one_k)) one_k
               <= round_grid (q' * (100 * one_k)) one_k)
    by (apply round_grid_mono; nia).
  apply grid_of_tenths_mono. split; [apply tenths_nonneg|].
  apply tenths_mono. lia.
Qed.

End RoundMono.

(** ** The range of the float format *)

Module FloatRange.
Import F64 Py Monitor Spec Shapes F64Facts NumFacts RoundMono.
Local Open Scope Z_scope.

(** A rounded quotient below the overflow threshold is at most the
    largest finite value. *)
Lemma round_grid_finite n d :
  0 <= n -> 0 < d -> round_grid n d < huge_k -> round_grid n d <= max_k.
Proof.
  intros Hn Hd. unfold round_grid.
  pose proof (ulp_shift_nonneg n d) as Hs.
  pose proof (round_grid_top n d Hn Hd) as Htop.
  set (s := ulp_shift n d) in *.
  set (m := round_half_even n (d * 2 ^ s)) in *.
  assert (Hm0 : 0 <= m).
  { subst m. assert (Hp : 0 < 2 ^ s) by (apply Z.pow_pos_nonneg; lia).
    assert (Hds : 0 < d * 2 ^ s) by nia.
    pose proof (Z.div_pos n (d * 2 ^ s) Hn Hds) as Hdiv.
    destruct (round_half_even_cases n (d * 2 ^ s) Hds) as ([Hc|Hc] & _);
      lia. }
  intros Hlt. unfold max_k, huge_k in *.
  destruct (Z.eq_dec s 0) as [Hs0|Hs0].
  - rewrite Hs0 in *. change (2 ^ 0) with 1 in *. rewrite Z.mul_1_r in *.
    transitivity (2 ^ 53); [exact Htop|].
    apply closed_le. vm_compute. reflexivity.
  - pose proof (round_grid_bottom n d Hn Hd ltac:(fold s; lia)) as Hbot.
    fold s in Hbot. fold m in Hbot.
    assert (Hs45 : s <= 2045).
    { destruct (Z.le_gt_cases s 2045) as [H|H]; [exact H|]. exfalso.
      assert (2 ^ 2046 <= 2 ^ s) by (apply Z.pow_le_mono_r; lia).
      assert (2 ^ 52 * 2 ^ 2046 <= m * 2 ^ s).
      { apply Z.mul_le_mono_nonneg; try lia. }
      change (2 ^ 52 * 2 ^ 2046) with (2 ^ 2098) in *. lia. }
    destruct (Z.eq_dec m (2 ^ 53)) as [Hm|Hm].
    + rewrite Hm in *.
      assert (Hs44 : s <= 2044).
      { destruct (Z.le_gt_cases s 2044) as [H|H]; [exact H|]. exfalso.
        assert (s = 2045) by lia. subst s.
        replace (ulp_shift n d) with 2045 in Hlt by lia.
        change (2 ^ 53 * 2 ^ 2045) with (2 ^ 2098) in Hlt. lia. }
      assert (2 ^ s <= 2 ^ 2044) by (apply Z.pow_le_mono_r; lia).
      transitivity (2 ^ 53 * 2 ^ 2044); [apply Z.mul_le_mono_nonneg_l; lia|].
      apply closed_le. vm_compute. reflexivity.
    + assert (2 ^ s <= 2 ^ 2045) by (apply Z.pow_le_mono_r; lia).
      assert (0 < 2 ^ s) by (apply Z.pow_pos_nonneg; lia).
      apply Z.mul_le_mono_nonneg; lia.
Qed.

Lemma signed_in_format neg k : 0 <= k <= max_k -> in_format (signed neg k).
Proof.
  intros Hk. unfold signed. destruct (k =? 0), neg; cbn [in_format]; lia.
Qed.

(** What a division returns is a float of the format. *)
Lemma truediv_in_format a b q : truediv a b = Ok q -> in_format q.
Proof.
  unfold truediv. destruct (Z.eqb_spec b 0); [discriminate|].
  pose proof one_k_pos.
  destruct (Z.leb_spec huge_k (round_grid (Z.abs a * one_k) (Z.abs b)));
    [discriminate|].
  intros Hq. injection Hq as <-. apply signed_in_format. split.
  - apply round_grid_nonneg; lia.
  - apply round_grid_finite; lia.
Qed.

Lemma fmul_in_format x y : in_format (fmul x y).
Proof.
  unfold fmul. pose proof one_k_pos.
  destruct x as [|kx|nx], y as [|ky|ny]; try exact I;
    try (apply signed_in_format; unfold max_k; lia).
  destruct (Z.leb_spec huge_k (round_grid (Z.abs kx * Z.abs ky) one_k));
    [exact I|].
  apply signed_in_format. split.
  - apply round_grid_nonneg; lia.
  - apply round_grid_finite; lia.
Qed.

Lemma max_k_tenths : grid_of_tenths (tenths max_k) = max_k.
Proof. vm_compute. reflexivity. Qed.

(** [round(x, 1)] does not raise on a float of the format. *)
Lemma round1_returns x : in_format x -> returns (round1 x).
Proof.
  destruct x as [|k|neg]; intros Hx; try (eexists; reflexivity).
  cbn [in_format] in Hx. cbn [round1].
  assert (Hle : grid_of_tenths (tenths k) <= max_k).
  { rewrite <- max_k_tenths.
    apply grid_of_tenths_mono. split; [apply tenths_nonneg|].
    unfold tenths at 1. rewrite <- (Z.abs_eq (Z.abs k)) by lia.
    fold (tenths (Z.abs k)). apply tenths_mono. lia. }
  destruct (Z.leb_spec huge_k (grid_of_tenths (tenths k))) as [H|H].
  - exfalso.
    assert (max_k < huge_k) by (apply closed_lt; vm_compute; reflexivity).
    lia.
  - eexists. reflexivity.
Qed.

(** What [round(x, 1)] returns is the half-even rounding of [x]. *)
Lemma round1_rounded x r : round1 x = Ok r -> rounded_half_even x r.
Proof.
  destruct x as [|k|neg]; cbn [round1 rounded_half_even]; intros Hr.
  - injection Hr as <-. reflexivity.
  - destruct (huge_k <=? grid_of_tenths (tenths k)); [discriminate|].
    injection Hr as <-. exists (tenths k).
    split; [apply tenths_nearest_even|reflexivity].
  - injection Hr as <-. reflexivity.
Qed.

(** The half-even rounding to one decimal is unique. *)
Lemma rounded_half_even_unique u r r' :
  rounded_half_even u r -> rounded_half_even u r' -> r = r'.
Proof.
  destruct u as [|k|neg]; cbn [rounded_half_even].
  - intros -> ->. reflexivity.
  - intros (t & Ht & ->) (t' & Ht' & ->).
    rewrite (nearest_even_unique k t t' Ht Ht'). reflexivity.
  - intros -> ->. reflexivity.
Qed.

(** The percentage is defined as soon as the quotient is, and it is
    the half-even rounding of the product. *)
Lemma percent_of_quotient x y q :
  truediv x y = Ok q ->
  exists r, percent x y = Ok r /\
            rounded_half_even (fmul q (of_int 100)) r.
Proof.
  intros Hq.
  destruct (round1_returns _ (fmul_in_format q (of_int 100))) as [r Hr].
  exists r. split; [unfold percent; rewrite Hq; exact Hr|].
  apply round1_rounded, Hr.
Qed.

Lemma percent_raises x y e :
  truediv x y = Raise e -> percent x y = Raise e.
Proof. intros H. unfold percent. rewrite H. reflexivity. Qed.

(** The quotient is defined as long as it stays far from the overflow
    threshold. *)
Lemma truediv_returns x y :
  y <> 0 -> Z.abs x <= 2 ^ 900 * Z.abs y -> returns (truediv x y).
Proof.
  intros Hy Hx.
  destruct (truediv_le x y (2 ^ 900 * one_k)) as (q & Hq & _).
  - exact Hy.
  - exists 1, 1974. repeat split; try closed.
  - pose proof one_k_pos. nia.
  - exists q. exact Hq.
Qed.

(** The MB value is defined as soon as the quotient is, and it is the
    half-even rounding of the quotient. *)
Lemma to_mb_of_quotient z q :
  truediv z 1024 = Ok q ->
  exists mb, to_mb z = Ok mb /\ rounded_half_even q mb.
Proof.
  intros Hq.
  destruct (round1_returns _ (truediv_in_format _ _ _ Hq)) as [r Hr].
  exists r. split; [unfold to_mb; rewrite Hq; exact Hr|].
  apply round1_rounded, Hr.
Qed.

Lemma to_mb_rounded z mb : to_mb z = Ok mb -> mb_of_kb z mb.
Proof.
  unfold to_mb, mb_of_kb. destruct (truediv z 1024) as [q|e]; [|discriminate].
  cbn [rbind]. intros Hr. exists q. split; [reflexivity|].
  apply round1_rounded, Hr.
Qed.

End FloatRange.

(** ** MetricsReader: [get_mem_percent], [get_disk_percent] *)

Module MetricsReader.
Import F64 Py Monitor Spec Examples F64Facts NumFacts FloatRange.
Local Open Scope string_scope.
Local Open Scope Z_scope.

Lemma get_mem_percent_unfold os info mem :
  meminfo os = Ok info -> parse_meminfo info = Ok mem ->
  get_mem_percent os =
    if mem_total mem =? 0 then Ok (PyInt 0)
    else match percent (mem_total mem - mem_avail mem) (mem_total mem) with
         | Ok r => Ok (PyFloat r)
         | Raise _ => Ok (PyInt 0)
         end.
Proof.
  intros Hi Hm. unfold get_mem_percent. rewrite Hi. cbn [rbind].
  rewrite Hm. cbn [rbind].
  destruct (mem_total mem =? 0); [reflexivity|].
  destruct (percent _ _); reflexivity.
Qed.

(** The fallback chain for the available memory. *)
Lemma mem_avail_chain (mem : gmap string Z) :
  (forall a, mem !! "MemAvailable" = Some a -> mem_avail mem = a) /\
  (mem !! "MemAvailable" = None ->
   mem_avail mem = default 0 (mem !! "MemFree")
                   + default 0 (mem !! "Buffers")
                   + default 0 (mem !! "Cached")) /\
  (mem !! "MemAvailable" = None -> mem !! "MemFree" = None ->
   mem !! "Buffers" = None -> mem !! "Cached" = None -> mem_avail mem = 0).
Proof.
  unfold mem_avail. repeat split.
  - intros a ->. reflexivity.
  - intros ->. reflexivity.
  - intros -> -> -> ->. reflexivity.
Qed.

(** C1. [get_mem_percent] returns [round((total - avail) / total * 100, 1)]
    when the total is not zero and [0] when it is zero: the float
    returned is the quotient [(total - avail) / total], times 100,
    rounded to one decimal (ties to even). The available memory is the
    [MemAvailable] counter when the file has one, otherwise
    [MemFree + Buffers + Cached] with every missing counter counted as
    zero; a file that cannot be read or parsed gives [0], and so does a
    quotient too large for a float, which needs more than [2^900]. *)
Theorem get_mem_percent_spec (os : platform) :
  (forall e, meminfo os = Raise e -> get_mem_percent os = Ok (PyInt 0)) /\
  (forall info e, meminfo os = Ok info -> parse_meminfo info = Raise e ->
     get_mem_percent os = Ok (PyInt 0)) /\
  (forall info mem, meminfo os = Ok info -> parse_meminfo info = Ok mem ->
     let total := default 0 (mem !! "MemTotal") in
     let avail :=
       match mem !! "MemAvailable" with
       | Some a => a
       | None => default 0 (mem !! "MemFree") + default 0 (mem !! "Buffers")
                 + default 0 (mem !! "Cached")
       end in
     (total = 0 -> get_mem_percent os = Ok (PyInt 0)) /\
     (total <> 0 -> forall q, truediv (total - avail) total = Ok q ->
        exists r, get_mem_percent os = Ok (PyFloat r) /\
                  round1 (fmul q (of_int 100)) = Ok r /\
                  rounded_half_even (fmul q (of_int 100)) r) /\
     (total <> 0 -> forall e, truediv (total - avail) total = Raise e ->
        get_mem_percent os = Ok (PyInt 0)) /\
     (total <> 0 -> Z.abs (total - avail) <= 2 ^ 900 * Z.abs total ->
        returns (truediv (total - avail) total))).
Proof.
  split; [|split].
  - intros e He. unfold get_mem_percent. rewrite He. reflexivity.
  - intros info e Hi He. unfold get_mem_percent.
    rewrite Hi. cbn [rbind]. rewrite He. reflexivity.
  - intros info mem Hi Hm total avail.
    pose proof (get_mem_percent_unfold os info mem Hi Hm) as Hu.
    assert (Ht : mem_total mem = total) by reflexivity.
    assert (Ha : mem_avail mem = avail).
    { unfold mem_avail, avail. destruct (mem !! "MemAvailable"); reflexivity. }
    rewrite Ht, Ha in Hu. clearbody total avail.
    repeat split.
    + intros H0. rewrite Hu, H0. reflexivity.
    + intros H0 q Hq.
      destruct (percent_of_quotient _ _ _ Hq) as (r & Hr & Hround).
      exists r. split; [|split; [|exact Hround]].
      * rewrite Hu, Hr.
        destruct (Z.eqb_spec total 0); [contradiction|reflexivity].
      * unfold percent in Hr. rewrite Hq in Hr. exact Hr.
    + intros H0 e He. rewrite Hu, (percent_raises _ _ _ He).
      destruct (Z.eqb_spec total 0); [contradiction|reflexivity].
    + intros H0 Hb. apply truediv_returns; assumption.
Qed.

Lemma get_mem_percent_spec_witness :
  (exists q, truediv (16 - 15) 16 = Ok q /\
             get_mem_percent host_6_25 = Ok (PyFloat (tenth 62)) /\
             rounded_half_even (fmul q (of_int 100)) (tenth 62)) /\
  (exists q, truediv (1000 - (100 + 60 + 40)) 1000 = Ok q /\
             get_mem_percent host_old_kernel = Ok (PyFloat (of_int 80)) /\
             rounded_half_even (fmul q (of_int 100)) (of_int 80)) /\
  get_mem_percent host_down = Ok (PyInt 0).
Proof.
  split; [|split].
  - destruct (get_mem_percent_spec host_6_25) as (_ & _ & H).
    pose (info := text ["MemTotal:       16 kB"; "MemFree:         3 kB";
                        "MemAvailable:   15 kB"]).
    pose (mem := match parse_meminfo info with Ok m => m | Raise _ => ∅ end).
    destruct (H info mem eq_refl ltac:(vm_compute; reflexivity))
      as (_ & Hr & _).
    clear H. remember (tenth 62) as v eqn:Ev.
    assert (Hv : get_mem_percent host_6_25 = Ok (PyFloat v))
      by (rewrite Ev; vm_compute; reflexivity).
    remember (Fin (one_k / 16)) as q eqn:Eq.
    destruct (Hr ltac:(vm_compute; discriminate) q
                 ltac:(rewrite Eq; vm_compute; reflexivity))
      as (r & Hg & _ & Hround).
    rewrite Hv in Hg.
    assert (Er : v = r) by congruence. rewrite <- Er in Hround.
    exists q. split; [rewrite Eq; vm_compute; reflexivity|].
    split; [exact Hv|exact Hround].
  - destruct (get_mem_percent_spec host_old_kernel) as (_ & _ & H).
    pose (info := text ["MemTotal:     1000 kB"; "MemFree:       100 kB";
                        "Buffers:        60 kB"; "Cached:         40 kB"]).
    pose (mem := match parse_meminfo info with Ok m => m | Raise _ => ∅ end).
    destruct (H info mem eq_refl ltac:(vm_compute; reflexivity))
      as (_ & Hr & _).
    clear H. remember (of_int 80) as v eqn:Ev.
    assert (Hv : get_mem_percent host_old_kernel = Ok (PyFloat v))
      by (rewrite Ev; vm_compute; reflexivity).
    destruct (truediv (1000 - (100 + 60 + 40)) 1000) as [q|e] eqn:Hq;
      [|vm_compute in Hq; discriminate Hq].
    destruct (Hr ltac:(vm_compute; discriminate) q
                 ltac:(rewrite <- Hq; vm_compute; reflexivity))
      as (r & Hg & _ & Hround).
    rewrite Hv in Hg.
    assert (Er : v = r) by congruence. rewrite <- Er in Hround.
    exists q. split; [reflexivity|].
    split; [exact Hv|exact Hround].
  - destruct (get_mem_percent_spec host_down) as (Hdown & _).
    exact (Hdown OSError eq_refl).
Defined.

(** C2, as stated, fails: with more memory available than the total
    (100 kB in all, 200 kB available) the percentage is -100.0. *)
Lemma mem_percent_negative_counterexample :
  let info := text ["MemTotal:      100 kB"; "MemAvailable:  200 kB"] in
  let mem : gmap string Z := <["MemAvailable" := 200]> (<["MemTotal" := 100]> ∅) in
  meminfo host_over = Ok info /\ parse_meminfo info = Ok mem /\
  mem_total mem = 100 /\ mem_avail mem = 200 /\
  percent (100 - 200) 100 = Ok (of_int (-100)) /\
  get_mem_percent host_over = Ok (PyFloat (of_int (-100))) /\
  ~ in_0_100 (PyFloat (of_int (-100))).
Proof.
  intros info mem.
  split; [reflexivity|].
  split; [vm_compute; reflexivity|].
  split; [vm_compute; reflexivity|].
  split; [vm_compute; reflexivity|].
  split; [vm_compute; reflexivity|].
  split; [vm_compute; reflexivity|].
  intros [H _]. vm_compute in H. apply H. reflexivity.
Qed.

(** C2, amended. When the available memory does not exceed the total
    ([0 <= avail <= total], [0 < total]), [get_mem_percent] returns the
    float [round((total - avail) / total * 100, 1)], that is the
    quotient [(total - avail) / total], times 100, rounded to one
    decimal (ties to even), and it lies in [0, 100]. *)
Theorem mem_percent_in_range (os : platform) info mem :
  meminfo os = Ok info -> parse_meminfo info = Ok mem ->
  0 < mem_total mem -> 0 <= mem_avail mem <= mem_total mem ->
  exists q r,
    truediv (mem_total mem - mem_avail mem) (mem_total mem) = Ok q /\
    get_mem_percent os = Ok (PyFloat r) /\
    round1 (fmul q (of_int 100)) = Ok r /\
    rounded_half_even (fmul q (of_int 100)) r /\
    in_0_100 (PyFloat r).
Proof.
  intros Hi Hm Ht Ha.
  destruct (percent_in_range (mem_total mem - mem_avail mem) (mem_total mem))
    as (k & Hk & Hr); [lia | lia |].
  destruct (percent_rounded _ _ _ Hk) as (q & Hq & Hround).
  exists q, (Fin k). split; [exact Hq|]. split; [|split; [|split]].
  - rewrite (get_mem_percent_unfold os info mem Hi Hm), Hk.
    destruct (Z.eqb_spec (mem_total mem) 0); [lia|reflexivity].
  - unfold percent in Hk. rewrite Hq in Hk. exact Hk.
  - exact Hround.
  - exact Hr.
Qed.

Lemma mem_percent_in_range_witness :
  exists q r,
    truediv (16 - 15) 16 = Ok q /\
    get_mem_percent host_6_25 = Ok (PyFloat r) /\
    round1 (fmul q (of_int 100)) = Ok r /\
    rounded_half_even (fmul q (of_int 100)) r /\
    in_0_100 (PyFloat r).
Proof.
  pose (info := text ["MemTotal:       16 kB"; "MemFree:         3 kB";
                      "MemAvailable:   15 kB"]).
  pose (mem := match parse_meminfo info with Ok m => m | Raise _ => ∅ end).
  exact (mem_percent_in_range host_6_25 info mem eq_refl
           ltac:(vm_compute; reflexivity)
           ltac:(vm_compute; reflexivity)
           ltac:(vm_compute; split; discriminate)).
Defined.


Lemma get_disk_percent_unfold os path total used free :
  disk_usage os path = Ok (total, used, free) ->
  get_disk_percent os path =
    match percent used total with
    | Ok r => Ok (PyFloat r)
    | Raise _ => Ok (PyInt 0)
    end.
Proof.
  intros Hd. unfold get_disk_percent. rewrite Hd. cbn [rbind].
  destruct (percent used total); reflexivity.
Qed.

(** C7, as stated, fails: 1 part in 16 is exactly 6.25 %, which both
    readers round to 6.2, where rounding half away from zero gives 6.3. *)
Lemma percent_tie_counterexample :
  get_mem_percent host_6_25 = Ok (PyFloat (tenth 62)) /\
  get_disk_percent host_6_25 "/" = Ok (PyFloat (tenth 62)) /\
  (q <-- truediv 1 16;; Ok (fmul q (of_int 100))) = Ok (Fin (625 * one_k / 100)) /\
  (625 * one_k) mod 100 = 0 /\
  round1_half_away (Fin (625 * one_k / 100)) = Ok (tenth 63) /\
  tenth 62 <> tenth 63.
Proof.
  split; [vm_compute; reflexivity|].
  split; [vm_compute; reflexivity|].
  split; [vm_compute; reflexivity|].
  split; [vm_compute; reflexivity|].
  split; [vm_compute; reflexivity|].
  vm_compute. discriminate.
Qed.

(** C7, amended. Every float percentage [get_mem_percent] and
    [get_disk_percent] return is the unrounded float, [x / y * 100],
    rounded to one decimal to the nearest, an exact tie going to the
    even last digit (6.25 gives 6.2): it is the float nearest to [t/10],
    where [t] is the one integer nearest to ten times the binary value,
    the even one of the two when that value is half-way. *)
Theorem percentages_round_half_even (os : platform) :
  (forall r, get_mem_percent os = Ok (PyFloat r) ->
     exists info mem q,
       meminfo os = Ok info /\ parse_meminfo info = Ok mem /\
       truediv (mem_total mem - mem_avail mem) (mem_total mem) = Ok q /\
       rounded_half_even (fmul q (of_int 100)) r) /\
  (forall path r, get_disk_percent os path = Ok (PyFloat r) ->
     exists total used free q,
       disk_usage os path = Ok (total, used, free) /\
       truediv used total = Ok q /\
       rounded_half_even (fmul q (of_int 100)) r) /\
  (forall k t t',
     nearest_even_tenths k t -> nearest_even_tenths k t' -> t = t').
Proof.
  split; [|split].
  - intros r Hr.
    destruct (meminfo os) as [info|e] eqn:Hi;
      [|unfold get_mem_percent in Hr; rewrite Hi in Hr; discriminate Hr].
    destruct (parse_meminfo info) as [mem|e] eqn:Hm;
      [|unfold get_mem_percent in Hr; rewrite Hi in Hr; cbn [rbind] in Hr;
        rewrite Hm in Hr; discriminate Hr].
    rewrite (get_mem_percent_unfold os info mem Hi Hm) in Hr.
    destruct (mem_total mem =? 0); [discriminate Hr|].
    destruct (percent _ _) as [r'|e] eqn:Hp; [|discriminate Hr].
    injection Hr as <-.
    destruct (percent_rounded _ _ _ Hp) as (q & Hq & Hround).
    exists info, mem, q. auto.
  - intros path r Hr.
    destruct (disk_usage os path) as [[[total used] free]|e] eqn:Hd;
      [|unfold get_disk_percent in Hr; rewrite Hd in Hr; discriminate Hr].
    rewrite (get_disk_percent_unfold os path total used free Hd) in Hr.
    destruct (percent used total) as [r'|e] eqn:Hp; [|discriminate Hr].
    injection Hr as <-.
    destruct (percent_rounded _ _ _ Hp) as (q & Hq & Hround).
    exists total, used, free, q. auto.
  - intros k t t'. apply nearest_even_unique.
Qed.

Lemma percentages_round_half_even_witness :
  exists q, truediv 1 16 = Ok q /\
            rounded_half_even (fmul q (of_int 100)) (tenth 62).
Proof.
  destruct (percentages_round_half_even host_6_25) as (_ & Hdisk & _).
  destruct (Hdisk "/" (tenth 62) ltac:(vm_compute; reflexivity))
    as (total & used & free & q & Hd & Hq & Hr).
  injection Hd as <- <- <-.
  exists q. split; assumption.
Defined.

End MetricsReader.

(** ** Sorting *)

Module SortFacts.
Import F64 Py Monitor Spec.
Local Open Scope Z_scope.

Section Generic.
Context {A K : Type} (ltb : K -> K -> bool) (key : A -> K).

(** [a] may stand before [b]: [a] is not smaller. *)
Let may_precede (a b : A) : Prop := ltb (key a) (key b) = false.

Hypothesis ltb_asym : forall x y, ltb x y = true -> ltb y x = false.
Hypothesis ltb_negtrans :
  forall x y z, ltb x y = false -> ltb y z = false -> ltb x z = false.

Lemma insert_desc_perm x (l : list A) :
  Permutation (x :: l) (insert_desc ltb key x l).
Proof.
  induction l as [|y l IH]; cbn [insert_desc]; [reflexivity|].
  destruct (ltb (key x) (key y)); [|reflexivity].
  rewrite perm_swap. apply perm_skip. exact IH.
Qed.

Lemma sort_desc_perm (l : list A) : Permutation l (sort_desc ltb key l).
Proof.
  induction l as [|x l IH]; cbn [sort_desc]; [reflexivity|].
  rewrite <- insert_desc_perm. apply perm_skip. exact IH.
Qed.

Lemma insert_desc_sorted x (l : list A) :
  StronglySorted may_precede l ->
  StronglySorted may_precede (insert_desc ltb key x l).
Proof using ltb_asym ltb_negtrans.
  induction 1 as [|y l Hl IH Hy]; cbn [insert_desc].
  - repeat constructor.
  - destruct (ltb (key x) (key y)) eqn:Hxy.
    + constructor; [exact IH|].
      apply (Permutation_Forall (insert_desc_perm x l)).
      constructor; [apply ltb_asym; exact Hxy | exact Hy].
    + constructor; [constructor; assumption|].
      constructor; [exact Hxy|].
      eapply List.Forall_impl; [|exact Hy].
      intros z Hz. unfold may_precede in *. eauto.
Qed.

Lemma sort_desc_sorted (l : list A) :
  StronglySorted may_precede (sort_desc ltb key l).
Proof using ltb_asym ltb_negtrans.
  induction l as [|x l IH]; cbn [sort_desc]; [constructor|].
  apply insert_desc_sorted. exact IH.
Qed.

(** Elements that are never smaller than one another keep their order. *)
Lemma insert_desc_stable (p : A -> bool) x (l : list A) :
  (forall a b, p a = true -> p b = true -> ltb (key a) (key b) = false) ->
  List.filter p (insert_desc ltb key x l) = List.filter p (x :: l).
Proof.
  intros Hp. induction l as [|y l IH]; cbn [insert_desc]; [reflexivity|].
  destruct (ltb (key x) (key y)) eqn:Hxy; [|reflexivity].
  cbn [List.filter] in *. rewrite IH.
  destruct (p x) eqn:Hx, (p y) eqn:Hy; try reflexivity.
  rewrite (Hp x y Hx Hy) in Hxy. discriminate Hxy.
Qed.

Lemma sort_desc_stable (p : A -> bool) (l : list A) :
  (forall a b, p a = true -> p b = true -> ltb (key a) (key b) = false) ->
  List.filter p (sort_desc ltb key l) = List.filter p l.
Proof.
  intros Hp. induction l as [|x l IH]; cbn [sort_desc]; [reflexivity|].
  rewrite insert_desc_stable by exact Hp.
  cbn [List.filter]. rewrite IH. reflexivity.
Qed.

End Generic.

Lemma StronglySorted_weaken {A} (R S : A -> A -> Prop) (l : list A) :
  (forall a b, R a b -> S a b) -> StronglySorted R l -> StronglySorted S l.
Proof.
  intros HRS. induction 1 as [|x l Hl IH Hx]; constructor; [exact IH|].
  eapply List.Forall_impl; [|exact Hx]. intros b. apply HRS.
Qed.

Ltac order_bools :=
  repeat match goal with
  | H : (_ =? _) = true |- _ => apply Z.eqb_eq in H
  | H : (_ =? _) = false |- _ => apply Z.eqb_neq in H
  | H : (_ <? _) = true |- _ => apply Z.ltb_lt in H
  | H : (_ <? _) = false |- _ => apply Z.ltb_ge in H
  | |- (_ =? _) = true => apply Z.eqb_eq
  | |- (_ =? _) = false => apply Z.eqb_neq
  | |- (_ <? _) = true => apply Z.ltb_lt
  | |- (_ <? _) = false => apply Z.ltb_ge
  end.

Lemma key2_ltb_false (a b : Z * pyfloat) :
  key2_ltb a b = false <->
  b.1 < a.1 \/ (a.1 = b.1 /\ units b.2 <= units a.2).
Proof.
  unfold key2_ltb, feqb, fltb.
  destruct (a.1 =? b.1) eqn:H1; cbn [negb].
  - destruct (units a.2 =? units b.2) eqn:H2; cbn [negb];
      [|destruct (units a.2 <? units b.2) eqn:H3];
      order_bools; split; intros; try discriminate; lia.
  - destruct (a.1 <? b.1) eqn:H3; order_bools;
      split; intros; try discriminate; lia.
Qed.

Lemma key2_ltb_asym x y : key2_ltb x y = true -> key2_ltb y x = false.
Proof.
  intros H. apply key2_ltb_false.
  destruct (key2_ltb y x) eqn:Hyx; [|apply key2_ltb_false in Hyx; lia].
  exfalso.
  assert (Hn : key2_ltb x y <> false) by (rewrite H; discriminate).
  rewrite key2_ltb_false in Hn.
  assert (Hm : key2_ltb y x <> false) by (rewrite Hyx; discriminate).
  rewrite key2_ltb_false in Hm. lia.
Qed.

Lemma key2_ltb_negtrans x y z :
  key2_ltb x y = false -> key2_ltb y z = false -> key2_ltb x z = false.
Proof. rewrite !key2_ltb_false. lia. Qed.

Lemma fltb_asym x y : fltb x y = true -> fltb y x = false.
Proof. unfold fltb. intros; order_bools; lia. Qed.

Lemma fltb_negtrans x y z :
  fltb x y = false -> fltb y z = false -> fltb x z = false.
Proof. unfold fltb. intros; order_bools; lia. Qed.

End SortFacts.

(** ** Loops that may raise *)

Module MonadFacts.
Import Monitor.

Lemma mapM_Forall2 {A B} (f : A -> result B) l r :
  mapM f l = Ok r -> Forall2 (fun a b => f a = Ok b) l r.
Proof.
  revert r. induction l as [|a l IH]; cbn [mapM]; intros r Hr.
  - injection Hr as <-. constructor.
  - destruct (f a) as [b|e] eqn:Hfa; [|discriminate Hr]. cbn [rbind] in Hr.
    destruct (mapM f l) as [bs|e]; [|discriminate Hr]. cbn [rbind] in Hr.
    injection Hr as <-. constructor; [exact Hfa | apply IH; reflexivity].
Qed.

Lemma mapM_length {A B} (f : A -> result B) l r :
  mapM f l = Ok r -> length r = length l.
Proof.
  intros Hr. symmetry. eapply Forall2_length, mapM_Forall2, Hr.
Qed.

Lemma mapM_returns {A B} (f : A -> result B) l :
  List.Forall (fun a => returns (f a)) l -> returns (mapM f l).
Proof.
  induction 1 as [|a l [b Hb] _ [bs Hbs]]; cbn [mapM].
  - exists []. reflexivity.
  - rewrite Hb. cbn [rbind]. rewrite Hbs. cbn [rbind].
    exists (b :: bs). reflexivity.
Qed.

Lemma mapM_In {A B} (f : A -> result B) l r a :
  mapM f l = Ok r -> In a l -> exists b, f a = Ok b /\ In b r.
Proof.
  intros Hr. pose proof (mapM_Forall2 f l r Hr) as HF. clear Hr.
  induction HF as [|x y l' r' Hxy _ IH].
  - intros [].
  - intros [->|Hin].
    + exists y. split; [exact Hxy | left; reflexivity].
    + destruct (IH Hin) as (b & Hb & Hbr). exists b.
      split; [exact Hb | right; exact Hbr].
Qed.

(** A loop over a list is the loop over its front, the step for the
    element in the middle, and the loop over the rest. *)
Lemma mapM_app {A B} (f : A -> result B) l1 a l2 :
  mapM f (l1 ++ a :: l2) =
    (r1 <-- mapM f l1;; b <-- f a;; r2 <-- mapM f l2;; Ok (r1 ++ b :: r2)).
Proof.
  induction l1 as [|x l1 IH]; cbn [mapM app rbind].
  - destruct (f a); cbn [rbind]; [|reflexivity].
    destruct (mapM f l2); reflexivity.
  - destruct (f x); cbn [rbind]; [|reflexivity].
    rewrite IH. destruct (mapM f l1); cbn [rbind]; [|reflexivity].
    destruct (f a); cbn [rbind]; [|reflexivity].
    destruct (mapM f l2); reflexivity.
Qed.

End MonadFacts.


(** ** Text beyond U+00FF: the two scoring loops agree *)

Module WideFacts.
Import Py Monitor Wide.
Local Open Scope string_scope.

Lemma code_lt c : (code c < 256)%N.
Proof. apply N_ascii_bounded. Qed.

Lemma code_inj a b : code a = code b -> a = b.
Proof.
  unfold code. intros H.
  rewrite <- (ascii_N_embedding a), <- (ascii_N_embedding b), H. reflexivity.
Qed.

Lemma code_eqb a b : (code a =? code b)%N = Ascii.eqb a b.
Proof.
  destruct (Ascii.eqb_spec a b) as [->|Hne].
  - apply N.eqb_refl.
  - apply N.eqb_neq. intros H. apply Hne, code_inj, H.
Qed.

(** On U+0000..U+00FF the two lower-case maps agree. *)
Lemma ulower_char_code c : ulower_char (code c) = [code (lower_char c)].
Proof.
  destruct c as [[] [] [] [] [] [] [] []]; vm_compute; reflexivity.
Qed.

Lemma code_not_sigma c : (code c =? capital_sigma)%N = false.
Proof.
  apply N.eqb_neq. pose proof (code_lt c). unfold capital_sigma. lia.
Qed.

Lemma ulower_from_wide before s :
  ulower_from before (wide s) = wide (lower s).
Proof.
  revert before. induction s as [|c s IH]; intros before; [reflexivity|].
  change (wide (String c s)) with (code c :: wide s).
  change (wide (lower (String c s)))
    with (code (lower_char c) :: wide (lower s)).
  cbn [ulower_from]. rewrite code_not_sigma, ulower_char_code, IH.
  reflexivity.
Qed.

(** [lower] is [str.lower] on the text of [Monitor]. *)
Lemma ulower_wide s : ulower (wide s) = wide (lower s).
Proof. apply ulower_from_wide. Qed.

Lemma ustartswith_wide p s :
  ustartswith (wide p) (wide s) = startswith p s.
Proof.
  revert s. induction p as [|a p IH]; intros [|b s]; try reflexivity.
  change (wide (String a p)) with (code a :: wide p).
  change (wide (String b s)) with (code b :: wide s).
  cbn [ustartswith startswith]. rewrite code_eqb, IH. reflexivity.
Qed.

Lemma ucontains_wide needle hay :
  ucontains (wide needle) (wide hay) = contains needle hay.
Proof.
  induction hay as [|b hay IH].
  - change (wide "") with (@nil N). cbn [ucontains contains].
    rewrite <- (ustartswith_wide needle ""). reflexivity.
  - change (wide (String b hay)) with (code b :: wide hay).
    cbn [ucontains contains].
    rewrite IH, <- (ustartswith_wide needle (String b hay)). reflexivity.
Qed.

Lemma uscore_from lc kws acc :
  fold_left
    (fun sc kw => if ucontains (ulower kw) (wide lc) then (sc + 1)%Z else sc)
    (map wide kws) acc
  = fold_left
      (fun sc kw => if contains (lower kw) lc then (sc + 1)%Z else sc)
      kws acc.
Proof.
  revert acc. induction kws as [|kw kws IH]; intros acc; [reflexivity|].
  cbn [map fold_left]. rewrite (ulower_wide kw), ucontains_wide. apply IH.
Qed.

(** On the text of [Monitor] the scoring loop is the one that runs on
    arbitrary text. *)
Lemma uscore_wide cmd kws : uscore (wide cmd) (map wide kws) = score cmd kws.
Proof. unfold uscore, score. rewrite ulower_wide. apply uscore_from. Qed.

End WideFacts.

(** ** The rows of the two modes *)

Module Rows.
Import F64 Py Monitor Spec Examples MonadFacts NumFacts FloatRange.
Local Open Scope string_scope.
Local Open Scope Z_scope.

Lemma score_from cmd kws acc :
  fold_left
    (fun sc kw => if contains (lower kw) (lower cmd) then sc + 1 else sc)
    kws acc
  = acc + keyword_hits cmd kws.
Proof.
  unfold keyword_hits. revert acc.
  induction kws as [|kw kws IH]; intros acc;
    cbn [fold_left List.filter]; [cbn; lia|].
  rewrite IH.
  destruct (contains (lower kw) (lower cmd)); cbn [length]; lia.
Qed.

(** The scoring loop counts the keywords its test accepts. *)
Lemma score_hits cmd kws : score cmd kws = keyword_hits cmd kws.
Proof. unfold score. rewrite score_from. lia. Qed.

Lemma watch_row_live os kws pid r :
  watch_row os kws pid = Ok r -> live_row os kws pid r.
Proof.
  unfold watch_row. intros Hr.
  destruct (get_rss_kb os pid) as [rss|e] eqn:Hrss; [|discriminate Hr].
  cbn [rbind] in Hr.
  destruct (to_mb rss) as [mb|e] eqn:Hmb; [|discriminate Hr].
  cbn [rbind] in Hr.
  destruct (get_cmdline os pid) as [cmd|e] eqn:Hcmd; [|discriminate Hr].
  cbn [rbind] in Hr. injection Hr as <-. exists rss, cmd.
  split; [exact Hrss|]. split; [exact Hcmd|].
  split; [reflexivity|]. split; [reflexivity|].
  split; [apply score_hits|]. apply to_mb_rounded, Hmb.
Qed.

(** What one refresh ranks: a row for each discovered process, in
    discovery order. *)
Lemma watch_rows_gathered os kws out :
  watch_rows os kws = Ok out ->
  exists pids rows,
    find_java_pids os = Ok pids /\
    Forall2 (live_row os kws) pids rows /\ out = rank rows.
Proof.
  unfold watch_rows. intros Hout.
  destruct (find_java_pids os) as [pids|e]; [|discriminate Hout].
  cbn [rbind] in Hout.
  destruct (mapM (watch_row os kws) pids) as [rows|e] eqn:Hrows;
    [|discriminate Hout].
  cbn [rbind] in Hout. injection Hout as <-.
  exists pids, rows. split; [reflexivity|]. split; [|reflexivity].
  eapply Forall2_impl; [apply mapM_Forall2, Hrows|].
  intros pid r. apply watch_row_live.
Qed.

Lemma shown_app (a b : list screen_line) :
  shown (a ++ b) = (shown a ++ shown b)%list.
Proof. unfold shown. apply omap_app. Qed.

Lemma shown_rows rows :
  shown (map render_row rows)
  = map (fun r => (row_pid r, row_mb r, marker (row_score r))) rows.
Proof.
  induction rows as [|r rows IH]; [reflexivity|].
  cbn [map]. rewrite <- IH. reflexivity.
Qed.

(** The process rows of a screen are those of the table, in its order,
    each with the marker its score is due. *)
Lemma shown_render rows :
  shown (render rows)
  = map (fun r => (row_pid r, row_mb r, marker (row_score r))) rows.
Proof.
  unfold render. destruct rows as [|r rows]; [reflexivity|].
  change (shown (TableHeader :: (map render_row (r :: rows) ++ [Footer])%list))
    with (shown (map render_row (r :: rows) ++ [Footer])%list).
  rewrite shown_app, shown_rows. apply app_nil_r.
Qed.

(** Every screen [watch_java] prints is the table of one refresh, made
    with the keywords in force. *)
Lemma watch_java_screens fk states screens :
  watch_java fk states = Ok screens ->
  Forall2 (fun os screen =>
             exists out, watch_rows os (effective_keywords fk) = Ok out /\
                         screen = render out) states screens.
Proof.
  unfold watch_java. intros H.
  eapply Forall2_impl; [apply mapM_Forall2, H|].
  intros os screen Hc. cbv beta in Hc. unfold watch_cycle in Hc.
  destruct (watch_rows os (effective_keywords fk)) as [out|e];
    [|discriminate Hc].
  cbn [rbind] in Hc. injection Hc as <-. exists out. auto.
Qed.

Lemma main_detail_snapshot os pid d :
  main_detail os pid = Ok d -> snapshot_detail os pid d.
Proof.
  unfold main_detail. intros Hd.
  destruct (get_rss_kb os pid) as [rss|e] eqn:Hrss; [|discriminate Hd].
  cbn [rbind] in Hd.
  destruct (to_mb rss) as [mb|e] eqn:Hmb; [|discriminate Hd].
  cbn [rbind] in Hd.
  change (try_except
            (raw0 <-- proc_cmdline os pid;;
             Ok (decode_ignore os (strip_bytes (replace_nul raw0))))
            (Ok "")) with (get_cmdline os pid) in Hd.
  destruct (get_cmdline os pid) as [cmd|e] eqn:Hcmd; [|discriminate Hd].
  cbn [rbind] in Hd. injection Hd as <-. exists rss.
  split; [exact Hrss|]. split; [exact Hcmd|].
  split; [reflexivity|]. apply to_mb_rounded, Hmb.
Qed.

Lemma live_row_score os kws pid r :
  live_row os kws pid r -> row_score r = keyword_hits (row_cmd r) kws.
Proof. intros (rss & cmd & _ & _ & _ & -> & Hs & _). exact Hs. Qed.

(** Every row of a refresh has the score of its command line. *)
Lemma watch_rows_hits os kws out :
  watch_rows os kws = Ok out ->
  Forall (fun r => row_score r = keyword_hits (row_cmd r) kws) out.
Proof.
  intros Hout.
  destruct (watch_rows_gathered os kws out Hout) as (pids & rows & _ & HF & ->).
  apply (Permutation_Forall (SortFacts.sort_desc_perm key2_ltb row_key rows)).
  clear Hout. induction HF as [|pid r l l' Hrow _ IH]; constructor; [|exact IH].
  eapply live_row_score, Hrow.
Qed.

(** The screens of [watch_java], each with its rows: the scores count
    the keywords in force, and the markers follow the scores. *)
Lemma watch_java_rows fk states screens :
  watch_java fk states = Ok screens ->
  Forall2
    (fun os screen =>
       exists out,
         watch_rows os (effective_keywords fk) = Ok out /\
         Forall (fun r => row_score r
                          = keyword_hits (row_cmd r) (effective_keywords fk))
                out /\
         shown screen
         = map (fun r => (row_pid r, row_mb r, marker (row_score r))) out)
    states screens.
Proof.
  intros H. eapply Forall2_impl; [apply watch_java_screens, H|].
  intros os screen (out & Hout & ->). exists out.
  split; [exact Hout|]. split; [eapply watch_rows_hits, Hout|].
  apply shown_render.
Qed.

End Rows.

(** ** Classifier: the keyword score *)

Module Classifier.
Import F64 Py Monitor Wide Spec Examples MonadFacts WideFacts Rows.
Local Open Scope string_scope.
Local Open Scope Z_scope.

Lemma startswith_lower kw s :
  startswith (lower kw) (lower s) = ci_startswith kw s.
Proof.
  revert s. induction kw as [|a kw IH]; intros [|b s];
    cbn [lower startswith ci_startswith]; try reflexivity.
  rewrite IH. reflexivity.
Qed.

Lemma contains_lower kw s : contains (lower kw) (lower s) = ci_contains kw s.
Proof.
  induction s as [|b s IH]; cbn [lower contains ci_contains].
  - rewrite <- (startswith_lower kw ""). reflexivity.
  - rewrite IH, <- (startswith_lower kw (String b s)). reflexivity.
Qed.

Lemma score_step cmd kws acc :
  fold_left
    (fun sc kw => if contains (lower kw) (lower cmd) then sc + 1 else sc)
    kws acc
  = acc + Z.of_nat (length (List.filter (fun kw => ci_contains kw cmd) kws)).
Proof.
  revert acc. induction kws as [|kw kws IH]; intros acc;
    cbn [fold_left List.filter]; [cbn; lia|].
  rewrite IH, contains_lower.
  destruct (ci_contains kw cmd); cbn [length]; lia.
Qed.

Lemma ci_startswith_spec kw s :
  ci_startswith kw s = true <-> exists w post, s = w ++ post /\ ci_same kw w.
Proof.
  revert s. induction kw as [|a kw IH]; intros s; cbn [ci_startswith].
  - split; [|reflexivity]. intros _. exists "", s. split; [reflexivity|].
    constructor.
  - destruct s as [|b s].
    + split; [discriminate|].
      intros (w & post & Hs & Hw). inversion Hw; subst. discriminate Hs.
    + rewrite andb_true_iff, IH. unfold ci_eqb. split.
      * intros [Hab (w & post & -> & Hw)].
        exists (String b w), post. split; [reflexivity|].
        constructor; [|exact Hw].
        destruct (Ascii.eqb_spec (lower_char a) (lower_char b));
          [assumption|discriminate].
      * intros (w & post & Hs & Hw). inversion Hw as [|a' b' kw' w' Hab Hw' E1 E2].
        subst. cbn [append] in Hs. injection Hs as -> ->.
        split; [rewrite Hab; apply Ascii.eqb_refl|].
        exists w', post. split; [reflexivity|exact Hw'].
Qed.

Lemma ci_contains_spec kw s : ci_contains kw s = true <-> ci_substring kw s.
Proof.
  unfold ci_substring. induction s as [|b s IH]; cbn [ci_contains].
  - rewrite orb_false_r, ci_startswith_spec. split.
    + intros (w & post & Hs & Hw). exists "", w, post. auto.
    + intros (pre & w & post & Hs & Hw).
      destruct pre; [|discriminate Hs]. exists w, post. auto.
  - rewrite orb_true_iff, IH, ci_startswith_spec. split.
    + intros [(w & post & Hs & Hw)|(pre & w & post & -> & Hw)].
      * exists "", w, post. auto.
      * exists (String b pre), w, post. auto.
    + intros (pre & w & post & Hs & Hw). destruct pre as [|c pre].
      * left. exists w, post. auto.
      * right. cbn [append] in Hs. injection Hs as -> ->.
        exists pre, w, post. auto.
Qed.

Lemma lstrip_all_space s : all_space s = true -> lstrip s = "".
Proof.
  induction s as [|c s IH]; cbn [all_space lstrip]; [reflexivity|].
  intros H. apply andb_prop in H as [-> Hs]. auto.
Qed.

Lemma strip_all_space s : all_space s = true -> strip s = "".
Proof. intros H. unfold strip. rewrite lstrip_all_space by exact H. reflexivity. Qed.

Lemma split_on_comma_spaces f :
  only_commas_spaces f = true ->
  Forall (fun w => all_space w = true) (split_on "," f).
Proof.
  induction f as [|c f IH]; cbn [only_commas_spaces split_on].
  - repeat constructor.
  - intros H. apply andb_prop in H as [Hc Hf]. specialize (IH Hf).
    destruct (Ascii.eqb c ",") eqn:Hcomma.
    + constructor; [reflexivity|exact IH].
    + cbn [orb] in Hc.
      destruct (split_on "," f) as [|w ws].
      * repeat constructor. cbn [all_space]. rewrite Hc. reflexivity.
      * inversion IH as [|? ? Hw Hws]; subst. constructor; [|exact Hws].
        cbn [all_space]. rewrite Hc, Hw. reflexivity.
Qed.

Lemma cli_keywords_blank f :
  nonempty f = true -> only_commas_spaces f = true ->
  cli_keywords (Some f) = Some [].
Proof.
  intros Hne Hf. unfold cli_keywords. rewrite Hne. f_equal.
  induction (split_on_comma_spaces f Hf) as [|w ws Hw _ IH];
    cbn [map List.filter]; [reflexivity|].
  rewrite (strip_all_space w Hw). exact IH.
Qed.

(** C5. On text within U+0000..U+00FF the score of a command line is
    the number of entries of the keyword list that occur in it as a
    substring, case ignored (an entry counts once however often it
    occurs), and a keyword list given to [watch_java] is used as it is,
    in place of the default six. On other text the count fails: the
    test [kw.lower() in cmd.lower()] turns the capital sigma that ends
    the keyword U+039F U+03A3 into the final sigma U+03C2, and the same
    sigma inside U+039F U+03A3 U+0391 into U+03C3, so the keyword
    scores 0 on a command line in which it stands as it is. *)
Theorem score_misses_final_sigma :
  (let kw : ustring := [927; 931]%N in
   let cmd : ustring :=
     (wide "java -jar " ++ [927; 931; 913]%N ++ wide ".jar")%list in
   ucontains kw cmd = true /\
   ulower kw = [959; 962]%N /\
   ulower cmd = (wide "java -jar " ++ [959; 963; 945]%N ++ wide ".jar")%list /\
   uscore cmd [kw] = 0) /\
  (forall cmd kws, uscore (wide cmd) (map wide kws) = score cmd kws) /\
  (forall cmd kws,
     score cmd kws
     = Z.of_nat (length (List.filter (fun kw => ci_contains kw cmd) kws))) /\
  (forall kw cmd, ci_contains kw cmd = true <-> ci_substring kw cmd) /\
  (forall kws states screens,
     watch_java (Some kws) states = Ok screens ->
     Forall2
       (fun os screen =>
          exists out,
            watch_rows os kws = Ok out /\
            Forall (fun r => row_score r = keyword_hits (row_cmd r) kws)
                   out /\
            shown screen
            = map (fun r => (row_pid r, row_mb r, marker (row_score r))) out)
       states screens) /\
  (forall states screens,
     watch_java None states = Ok screens ->
     let six := ["forge"; "minecraft"; "kubejs"; "server"; "paper";
                 "spigot"] in
     Forall2
       (fun os screen =>
          exists out,
            watch_rows os six = Ok out /\
            Forall (fun r => row_score r = keyword_hits (row_cmd r) six)
                   out /\
            shown screen
            = map (fun r => (row_pid r, row_mb r, marker (row_score r))) out)
       states screens) /\
  score "MyForgeServer" ["forge"] = 1 /\
  score "MyForgeServer" ["minecraft"] = 0.
Proof.
  split; [|split; [|split; [|split; [|split; [|split; [|split]]]]]].
  - repeat split; vm_compute; reflexivity.
  - exact uscore_wide.
  - intros cmd kws. unfold score. rewrite score_step. lia.
  - apply ci_contains_spec.
  - intros kws states screens H. exact (watch_java_rows (Some kws) _ _ H).
  - intros states screens H. exact (watch_java_rows None _ _ H).
  - reflexivity.
  - reflexivity.
Qed.

Lemma score_misses_final_sigma_witness :
  ci_contains "forge" "MyForgeServer" = true /\
  Forall2
    (fun os screen =>
       exists out,
         watch_rows os ["forge"] = Ok out /\
         Forall (fun r => row_score r = keyword_hits (row_cmd r) ["forge"])
                out /\
         shown screen
         = map (fun r => (row_pid r, row_mb r, marker (row_score r))) out)
    [host_shuffled]
    [[TableHeader;
      TableRow "*" 10 (of_int 2) "java -jar MyForgeServer.jar";
      TableRow " " 20 (of_int 2) "java -version";
      TableRow " " 30 (of_int 0) "";
      Footer]].
Proof.
  destruct score_misses_final_sigma as (_ & _ & _ & Hci & Hsome & _).
  split.
  - apply Hci. exists "My", "Forge", "Server". split; [reflexivity|].
    repeat constructor.
  - apply (Hsome ["forge"] [host_shuffled]). vm_compute. reflexivity.
Defined.

(** C10. The default keywords stand in only for the absent value:
    [watch_java] run with the empty list uses it as it is, so on every
    screen every row has score 0 and carries the space marker, where
    [watch_java] run without a list scores with the default six. A
    [--filter] value that is not empty and holds only commas and
    whitespace gives the empty list. *)
Theorem empty_filter_marks_nothing :
  (forall f, nonempty f = true -> only_commas_spaces f = true ->
     cli_keywords (Some f) = Some []) /\
  (forall states screens,
     watch_java (Some []) states = Ok screens ->
     Forall2
       (fun os screen =>
          exists out,
            watch_rows os [] = Ok out /\
            Forall (fun r => row_score r = 0) out /\
            shown screen = map (fun r => (row_pid r, row_mb r, " ")) out)
       states screens) /\
  (forall states screens,
     watch_java None states = Ok screens ->
     let six := ["forge"; "minecraft"; "kubejs"; "server"; "paper";
                 "spigot"] in
     Forall2
       (fun os screen =>
          exists out,
            watch_rows os six = Ok out /\
            Forall (fun r => row_score r = keyword_hits (row_cmd r) six)
                   out /\
            shown screen
            = map (fun r => (row_pid r, row_mb r, marker (row_score r))) out)
       states screens) /\
  watch_java None [host_6_25]
    = Ok [[TableHeader;
           TableRow "*" 10 (of_int 2) "java -jar MyForgeServer.jar";
           TableRow " " 20 (of_int 2) "java -version";
           TableRow " " 30 (of_int 0) "";
           Footer]] /\
  watch_java (Some []) [host_6_25]
    = Ok [[TableHeader;
           TableRow " " 10 (of_int 2) "java -jar MyForgeServer.jar";
           TableRow " " 20 (of_int 2) "java -version";
           TableRow " " 30 (of_int 0) "";
           Footer]].
Proof.
  split; [exact cli_keywords_blank|].
  split; [|split; [|split; vm_compute; reflexivity]].
  - intros states screens H.
    eapply Forall2_impl; [apply (watch_java_rows (Some [])), H|].
    intros os screen (out & Hout & Hsc & Hshown). exists out.
    cbn [effective_keywords] in *.
    split; [exact Hout|]. split; [exact Hsc|].
    rewrite Hshown. apply map_ext_in. intros r Hr.
    rewrite List.Forall_forall in Hsc. rewrite (Hsc r Hr). reflexivity.
  - intros states screens H. exact (watch_java_rows None _ _ H).
Qed.

Lemma empty_filter_marks_nothing_witness :
  cli_keywords (Some " , ,, ") = Some [] /\
  Forall2
    (fun os screen =>
       exists out,
         watch_rows os [] = Ok out /\
         Forall (fun r => row_score r = 0) out /\
         shown screen = map (fun r => (row_pid r, row_mb r, " ")) out)
    [host_6_25]
    [[TableHeader;
      TableRow " " 10 (of_int 2) "java -jar MyForgeServer.jar";
      TableRow " " 20 (of_int 2) "java -version";
      TableRow " " 30 (of_int 0) "";
      Footer]].
Proof.
  destruct empty_filter_marks_nothing as (Hcli & Hrows & _).
  split.
  - apply Hcli; reflexivity.
  - apply (Hrows [host_6_25]). vm_compute. reflexivity.
Defined.

End Classifier.

(** ** Classifier/Ranker: the order of the rows *)

Module Ranker.
Import F64 Py Monitor Spec Examples SortFacts MonadFacts NumFacts Rows.
Local Open Scope string_scope.
Local Open Scope Z_scope.

Lemma same_rank_no_less r a b :
  same_rank r a = true -> same_rank r b = true ->
  key2_ltb (row_key a) (row_key b) = false.
Proof.
  unfold same_rank, feqb. intros Ha Hb.
  apply andb_prop in Ha as [Ha1 Ha2]. apply andb_prop in Hb as [Hb1 Hb2].
  apply key2_ltb_false. unfold row_key. cbn [fst snd].
  order_bools. lia.
Qed.

Lemma same_mb_no_less d a b :
  same_mb d a = true -> same_mb d b = true -> fltb a.1.2 b.1.2 = false.
Proof.
  unfold same_mb, feqb, fltb. intros Ha Hb. order_bools. lia.
Qed.

(** C3. The live table is the stable sort of the rows by score
    descending, then rounded MB descending. The rows gathered are one
    for each discovered process, in discovery order, each with the
    score of its command line and with the MB that is its resident
    size in kB divided by 1024 and rounded to one decimal; the table is
    a rearrangement of them in which every row stands before all rows
    of lower rank, and rows of equal score and equal rounded MB keep
    their discovery order. Every screen [watch_java] prints shows the
    rows of that table, in its order. *)
Theorem rank_stable_sort :
  (forall os kws out, watch_rows os kws = Ok out ->
     exists pids rows,
       find_java_pids os = Ok pids /\
       Forall2 (live_row os kws) pids rows /\
       Permutation rows out /\
       StronglySorted ranks_before out /\
       (forall r, List.filter (same_rank r) out
                  = List.filter (same_rank r) rows)) /\
  (forall fk states screens, watch_java fk states = Ok screens ->
     Forall2
       (fun os screen =>
          exists out,
            watch_rows os (effective_keywords fk) = Ok out /\
            shown screen
            = map (fun r => (row_pid r, row_mb r, marker (row_score r))) out)
       states screens).
Proof.
  split.
  - intros os kws out Hout.
    destruct (watch_rows_gathered os kws out Hout)
      as (pids & rows & Hpids & HF & ->).
    exists pids, rows. split; [exact Hpids|]. split; [exact HF|].
    unfold rank. split; [|split].
    + apply sort_desc_perm.
    + eapply StronglySorted_weaken;
        [|apply (sort_desc_sorted key2_ltb row_key
                   key2_ltb_asym key2_ltb_negtrans)].
      intros a b Hab. cbv beta in Hab. apply key2_ltb_false in Hab.
      exact Hab.
    + intros r. apply sort_desc_stable. apply same_rank_no_less.
  - intros fk states screens H.
    eapply Forall2_impl; [apply watch_java_rows, H|].
    intros os screen (out & Hout & _ & Hshown). exists out. auto.
Qed.

Lemma rank_stable_sort_witness :
  (exists pids rows,
     find_java_pids host_shuffled = Ok pids /\
     Forall2 (live_row host_shuffled ["forge"]) pids rows /\
     Permutation rows
       [(1, 10, of_int 2, "java -jar MyForgeServer.jar");
        (0, 20, of_int 2, "java -version");
        (0, 30, of_int 0, "")] /\
     StronglySorted ranks_before
       [(1, 10, of_int 2, "java -jar MyForgeServer.jar");
        (0, 20, of_int 2, "java -version");
        (0, 30, of_int 0, "")] /\
     (forall r,
        List.filter (same_rank r)
          [(1, 10, of_int 2, "java -jar MyForgeServer.jar");
           (0, 20, of_int 2, "java -version");
           (0, 30, of_int 0, "")]
        = List.filter (same_rank r) rows)) /\
  Forall2
    (fun os screen =>
       exists out,
         watch_rows os ["java"] = Ok out /\
         shown screen
         = map (fun r => (row_pid r, row_mb r, marker (row_score r))) out)
    [host_shuffled]
    [[TableHeader;
      TableRow "*" 10 (of_int 2) "java -jar MyForgeServer.jar";
      TableRow "*" 20 (of_int 2) "java -version";
      TableRow " " 30 (of_int 0) "";
      Footer]].
Proof.
  destruct rank_stable_sort as (Hrows & Hscreens).
  split.
  - exact (Hrows host_shuffled ["forge"] _ ltac:(vm_compute; reflexivity)).
  - exact (Hscreens (Some ["java"]) [host_shuffled] _
             ltac:(vm_compute; reflexivity)).
Defined.

(** C4, as stated, fails: the processes are discovered in the order
    30, 10, 20; process 20 has the strictly greater resident size (2049
    kB against 2048 kB), both round to 2.0 MB, and process 10,
    discovered before it, is emitted before it. *)
Lemma snapshot_rss_order_counterexample :
  find_java_pids host_shuffled = Ok [30; 10; 20] /\
  get_rss_kb host_shuffled 10 = Ok 2048 /\
  get_rss_kb host_shuffled 20 = Ok 2049 /\
  main host_shuffled
    = Ok [Summary (PyFloat (tenth 62)) (PyFloat (tenth 62));
          ProcHeader;
          ProcLine 10 (of_int 2) "java -jar MyForgeServer.jar";
          ProcLine 20 (of_int 2) "java -version";
          ProcLine 30 (of_int 0) ""].
Proof.
  split; [vm_compute; reflexivity|].
  split; [vm_compute; reflexivity|].
  split; vm_compute; reflexivity.
Qed.

(** C4, amended. In snapshot mode, when processes are found, the lines
    [main] emits for them, after the summary, the alerts and the
    heading, are sorted by the rounded MB value ([round(rss / 1024,
    1)]) descending, the keyword score playing no role: there is one
    line for each discovered process, with the MB that is its resident
    size in kB divided by 1024 and rounded to one decimal; of two
    processes the one with the strictly greater rounded MB is emitted
    first, and processes with the same rounded MB keep their discovery
    order. *)
Theorem snapshot_sorted_by_mb (os : platform) (pids : list Z) lines :
  find_java_pids os = Ok pids -> pids <> [] -> main os = Ok lines ->
  exists head gathered details,
    lines = (head ++ ProcHeader
             :: map (fun d : detail => ProcLine d.1.1 d.1.2 d.2)
                    details)%list /\
    Forall (fun m => is_proc_line m = false) head /\
    Forall2 (snapshot_detail os) pids gathered /\
    Permutation gathered details /\
    StronglySorted mb_before details /\
    (forall d, List.filter (same_mb d) details
               = List.filter (same_mb d) gathered).
Proof.
  intros Hp Hne Hm. unfold main in Hm.
  destruct (get_mem_percent os) as [mem|e]; [|discriminate Hm].
  cbn [rbind] in Hm.
  destruct (get_disk_percent os "/") as [disk|e]; [|discriminate Hm].
  cbn [rbind] in Hm. rewrite Hp in Hm. cbn [rbind] in Hm.
  destruct pids as [|p pids]; [congruence|].
  unfold main_details in Hm.
  destruct (mapM (main_detail os) (p :: pids)) as [gathered|e] eqn:Hg;
    [|discriminate Hm].
  cbn [rbind] in Hm. injection Hm as <-.
  exists ([Summary mem disk]
          ++ (if ge_int mem TH_RAM then [AlertRam mem] else [])
          ++ (if ge_int disk TH_DISK then [AlertDisk disk] else []))%list,
    gathered, (sort_details gathered).
  split; [reflexivity|]. split; [|split; [|split; [|split]]].
  - constructor; [reflexivity|].
    apply Forall_app. split.
    + destruct (ge_int mem TH_RAM); repeat constructor.
    + destruct (ge_int disk TH_DISK); repeat constructor.
  - eapply Forall2_impl; [apply mapM_Forall2, Hg|].
    intros pid d. apply main_detail_snapshot.
  - apply sort_desc_perm.
  - eapply StronglySorted_weaken;
      [|apply (sort_desc_sorted fltb (fun d : detail => d.1.2)
                 fltb_asym fltb_negtrans)].
    intros a b Hab. cbv beta in Hab. unfold mb_before, fltb in *.
    order_bools. lia.
  - intros d. apply sort_desc_stable. apply same_mb_no_less.
Qed.

Lemma snapshot_sorted_by_mb_witness :
  exists head gathered details,
    [Summary (PyFloat (tenth 62)) (PyFloat (tenth 62));
     ProcHeader;
     ProcLine 10 (of_int 2) "java -jar MyForgeServer.jar";
     ProcLine 20 (of_int 2) "java -version";
     ProcLine 30 (of_int 0) ""]
    = (head ++ ProcHeader
       :: map (fun d : detail => ProcLine d.1.1 d.1.2 d.2) details)%list /\
    Forall (fun m => is_proc_line m = false) head /\
    Forall2 (snapshot_detail host_shuffled) [30; 10; 20] gathered /\
    Permutation gathered details /\
    StronglySorted mb_before details /\
    (forall d, List.filter (same_mb d) details
               = List.filter (same_mb d) gathered).
Proof.
  apply (snapshot_sorted_by_mb host_shuffled [30; 10; 20]).
  - vm_compute. reflexivity.
  - discriminate.
  - vm_compute. reflexivity.
Defined.

End Ranker.

(** ** Reporter: the rendered command line *)

Module Reporter.
Import F64 Py Monitor Spec Examples.
Local Open Scope string_scope.

Lemma length_take n s : String.length (take n s) = Nat.min n (String.length s).
Proof.
  revert s. induction n as [|n IH]; intros [|c s]; cbn [take String.length];
    try reflexivity.
  rewrite IH. reflexivity.
Qed.

Lemma length_app s t :
  String.length (s ++ t) = (String.length s + String.length t)%nat.
Proof.
  induction s as [|c s IH]; [reflexivity|].
  change (S (String.length (s ++ t))
          = S (String.length s + String.length t)).
  rewrite IH. reflexivity.
Qed.

(** C6. A command line shorter than 120 characters is rendered as it
    is, and one of 120 characters or more as its first 117 characters
    followed by ["..."], 120 characters in all. A command line of
    exactly 120 characters is therefore cut although it fits: 120
    times ["a"] is rendered as 117 times ["a"] and ["..."]. *)
Theorem shorten_cases :
  (forall cmd, (String.length cmd < 120)%nat -> shorten cmd = cmd) /\
  (forall cmd, (120 <= String.length cmd)%nat ->
     shorten cmd = take 117 cmd ++ "..." /\
     String.length (shorten cmd) = 120%nat) /\
  String.length a120 = 120%nat /\
  shorten a120 = string_of_list_ascii (repeat "a"%char 117) ++ "..." /\
  shorten a120 <> a120.
Proof.
  split; [|split; [|split; [|split]]].
  - intros cmd Hlen. unfold shorten.
    destruct (Z.ltb_spec (Z.of_nat (String.length cmd)) 120); [reflexivity|lia].
  - intros cmd Hlen. unfold shorten.
    destruct (Z.ltb_spec (Z.of_nat (String.length cmd)) 120); [lia|].
    split; [reflexivity|].
    rewrite length_app, length_take. cbn [String.length]. lia.
  - reflexivity.
  - vm_compute. reflexivity.
  - vm_compute. discriminate.
Qed.

Lemma shorten_cases_witness :
  shorten "java -jar server.jar" = "java -jar server.jar" /\
  String.length (shorten (a120 ++ a120)) = 120%nat.
Proof.
  destruct shorten_cases as (Hshort & Hlong & _).
  split.
  - apply Hshort. vm_compute. lia.
  - apply Hlong. vm_compute. lia.
Defined.

End Reporter.

(** ** ProcessScanner: failures are absorbed *)

Module ProcessScanner.
Import F64 Py Monitor Spec Examples MonadFacts NumFacts SortFacts.
Local Open Scope string_scope.
Local Open Scope Z_scope.

Lemma try_except_returns {A} (body handler : result A) :
  returns handler -> returns (try_except body handler).
Proof.
  intros Hh. destruct body as [a|e]; [exists a; reflexivity|exact Hh].
Qed.

Lemma returns_ok {A} (a : A) : returns (Ok a).
Proof. exists a. reflexivity. Qed.

Lemma get_rss_kb_returns os pid : returns (get_rss_kb os pid).
Proof.
  unfold get_rss_kb.
  destruct (try_except_returns (scan_status (proc_status os pid)) (Ok None)
              (returns_ok None)) as [found ->].
  cbn [rbind]. destruct found; apply returns_ok.
Qed.

Lemma get_rss_kb_default os pid :
  (exists e, scan_status (proc_status os pid) = Raise e) ->
  get_rss_kb os pid = Ok 0.
Proof. intros [e He]. unfold get_rss_kb. rewrite He. reflexivity. Qed.

Lemma get_cmdline_default os pid e :
  proc_cmdline os pid = Raise e -> get_cmdline os pid = Ok "".
Proof. intros He. unfold get_cmdline. rewrite He. reflexivity. Qed.

Lemma vanished_rss os pid : vanished os pid -> get_rss_kb os pid = Ok 0.
Proof.
  intros [Hs _]. apply get_rss_kb_default. rewrite Hs.
  exists OSError. reflexivity.
Qed.

Lemma vanished_row os kws pid :
  vanished os pid -> watch_row os kws pid = Ok (score "" kws, pid, Fin 0, "").
Proof.
  intros Hv. unfold watch_row. rewrite (vanished_rss os pid Hv).
  cbn [rbind]. rewrite to_mb_zero. cbn [rbind].
  destruct Hv as [_ [e He]]. rewrite (get_cmdline_default os pid e He).
  reflexivity.
Qed.

Lemma vanished_detail os pid :
  vanished os pid -> main_detail os pid = Ok (pid, Fin 0, "").
Proof.
  intros Hv. unfold main_detail. rewrite (vanished_rss os pid Hv).
  cbn [rbind]. rewrite to_mb_zero. cbn [rbind].
  destruct Hv as [_ [e ->]]. reflexivity.
Qed.

(** C8. The five readers always return and never raise; where the
    source cannot be read, or what it holds cannot be parsed, each
    returns its default: 0, 0, the empty list, 0, the empty text. In
    both scans a process whose entries cannot be read yields its row
    of defaults, and the rows of the processes before and after it are
    gathered as they would be without it. *)
Theorem readers_never_raise (os : platform) :
  (returns (get_mem_percent os) /\
   (forall path, returns (get_disk_percent os path)) /\
   returns (find_java_pids os) /\
   (forall pid, returns (get_rss_kb os pid)) /\
   (forall pid, returns (get_cmdline os pid))) /\
  ((forall e, meminfo os = Raise e -> get_mem_percent os = Ok (PyInt 0)) /\
   (forall info e, meminfo os = Ok info -> parse_meminfo info = Raise e ->
      get_mem_percent os = Ok (PyInt 0)) /\
   (forall path e, disk_usage os path = Raise e ->
      get_disk_percent os path = Ok (PyInt 0)) /\
   (forall e, pgrep_java os = Raise e -> find_java_pids os = Ok []) /\
   (forall out e, pgrep_java os = Ok out ->
      mapM int (List.filter (fun x => nonempty (strip x))
                            (split_ws (strip out))) = Raise e ->
      find_java_pids os = Ok []) /\
   (forall pid e, scan_status (proc_status os pid) = Raise e ->
      get_rss_kb os pid = Ok 0) /\
   (forall pid e, proc_cmdline os pid = Raise e ->
      get_cmdline os pid = Ok "")) /\
  (forall kws before pid after, vanished os pid ->
     mapM (watch_row os kws) (before ++ pid :: after) =
       (r1 <-- mapM (watch_row os kws) before;;
        r2 <-- mapM (watch_row os kws) after;;
        Ok (r1 ++ (score "" kws, pid, Fin 0, "") :: r2)%list)) /\
  (forall before pid after, vanished os pid ->
     mapM (main_detail os) (before ++ pid :: after) =
       (r1 <-- mapM (main_detail os) before;;
        r2 <-- mapM (main_detail os) after;;
        Ok (r1 ++ (pid, Fin 0, "") :: r2)%list)).
Proof.
  split; [|split; [|split]].
  - repeat split; intros; try apply get_rss_kb_returns;
      apply try_except_returns, returns_ok.
  - repeat split.
    + intros e He. unfold get_mem_percent. rewrite He. reflexivity.
    + intros info e Hi He. unfold get_mem_percent. rewrite Hi.
      cbn [rbind]. rewrite He. reflexivity.
    + intros path e He. unfold get_disk_percent. rewrite He. reflexivity.
    + intros e He. unfold find_java_pids. rewrite He. reflexivity.
    + intros out e Ho He. unfold find_java_pids. rewrite Ho. cbn [rbind].
      destruct (nonempty (strip out)); [rewrite He|]; reflexivity.
    + intros pid e He. apply get_rss_kb_default. exists e. exact He.
    + intros pid e. apply get_cmdline_default.
  - intros kws before pid after Hv.
    rewrite mapM_app, (vanished_row os kws pid Hv). reflexivity.
  - intros before pid after Hv.
    rewrite mapM_app, (vanished_detail os pid Hv). reflexivity.
Qed.

Lemma readers_never_raise_witness :
  get_mem_percent host_down = Ok (PyInt 0) /\
  get_disk_percent host_down "/" = Ok (PyInt 0) /\
  find_java_pids host_down = Ok [] /\
  get_rss_kb host_down 7 = Ok 0 /\
  get_cmdline host_down 7 = Ok "" /\
  mapM (watch_row host_6_25 default_keywords) ([10] ++ 30 :: [20]) =
    (r1 <-- mapM (watch_row host_6_25 default_keywords) [10];;
     r2 <-- mapM (watch_row host_6_25 default_keywords) [20];;
     Ok (r1 ++ (0, 30, Fin 0, "") :: r2)%list).
Proof.
  destruct (readers_never_raise host_down)
    as (_ & (Hmem & _ & Hdisk & Hpids & _ & Hrss & Hcmd) & _).
  destruct (readers_never_raise host_6_25) as (_ & _ & Hscan & _).
  split; [exact (Hmem OSError eq_refl)|].
  split; [exact (Hdisk "/" OSError eq_refl)|].
  split; [exact (Hpids CalledProcessError eq_refl)|].
  split; [exact (Hrss 7 OSError eq_refl)|].
  split; [exact (Hcmd 7 OSError eq_refl)|].
  apply (Hscan default_keywords [10] 30 [20]).
  split; [reflexivity|]. exists OSError. reflexivity.
Defined.


Lemma get_cmdline_returns os pid : returns (get_cmdline os pid).
Proof. apply try_except_returns, returns_ok. Qed.

Lemma watch_row_returns os kws pid :
  rss_sane os pid -> returns (watch_row os kws pid).
Proof.
  intros (z & Hz & Hb). unfold watch_row. rewrite Hz. cbn [rbind].
  destruct (to_mb_returns z Hb) as [mb ->]. cbn [rbind].
  destruct (get_cmdline_returns os pid) as [cmd ->]. cbn [rbind].
  apply returns_ok.
Qed.

Lemma main_detail_returns os pid :
  rss_sane os pid -> returns (main_detail os pid).
Proof.
  intros (z & Hz & Hb). unfold main_detail. rewrite Hz. cbn [rbind].
  destruct (to_mb_returns z Hb) as [mb ->]. cbn [rbind].
  destruct (try_except_returns
              (raw0 <-- proc_cmdline os pid;;
               Ok (decode_ignore os (strip_bytes (replace_nul raw0))))
              (Ok "") (returns_ok "")) as [cmd ->].
  cbn [rbind]. apply returns_ok.
Qed.

Lemma watch_rows_listing os kws pids pid rows :
  find_java_pids os = Ok pids -> In pid pids -> vanished os pid ->
  watch_rows os kws = Ok rows ->
  length rows = length pids /\ In (score "" kws, pid, Fin 0, "") rows.
Proof.
  intros Hp Hin Hv Hr. unfold watch_rows in Hr. rewrite Hp in Hr.
  cbn [rbind] in Hr.
  destruct (mapM (watch_row os kws) pids) as [rs|e] eqn:Hrs;
    [|discriminate Hr].
  cbn [rbind] in Hr. injection Hr as <-.
  pose proof (sort_desc_perm key2_ltb row_key rs) as Hperm. split.
  - unfold rank. rewrite <- (Permutation_length Hperm).
    eapply mapM_length, Hrs.
  - destruct (mapM_In _ _ _ pid Hrs Hin) as (b & Hb & Hbin).
    rewrite (vanished_row os kws pid Hv) in Hb. injection Hb as <-.
    exact (Permutation_in _ Hperm Hbin).
Qed.

Lemma main_details_listing os pids pid ds :
  In pid pids -> vanished os pid -> main_details os pids = Ok ds ->
  length ds = length pids /\ In (pid, Fin 0, "") ds.
Proof.
  intros Hin Hv Hd. unfold main_details in Hd.
  destruct (mapM (main_detail os) pids) as [gs|e] eqn:Hgs;
    [|discriminate Hd].
  cbn [rbind] in Hd. injection Hd as <-.
  pose proof (sort_desc_perm fltb (fun d : detail => d.1.2) gs) as Hperm.
  split.
  - unfold sort_details. rewrite <- (Permutation_length Hperm).
    eapply mapM_length, Hgs.
  - destruct (mapM_In _ _ _ pid Hgs Hin) as (b & Hb & Hbin).
    rewrite (vanished_detail os pid Hv) in Hb. injection Hb as <-.
    exact (Permutation_in _ Hperm Hbin).
Qed.

(** C9. A process that is listed by the discovery and has gone when
    its /proc entries are read is kept, in both modes, with 0 resident
    kB (0.0 MB) and an empty command line: whatever a mode outputs has
    one row for each discovered PID, the row of that process among
    them; and both modes do produce their output whenever the resident
    sizes read are ones a kernel can report (below [2^1000] kB). *)
Theorem vanished_process_still_listed (os : platform) kws pids pid :
  find_java_pids os = Ok pids -> In pid pids -> vanished os pid ->
  (forall rows, watch_rows os kws = Ok rows ->
     length rows = length pids /\
     In (score "" kws, pid, Fin 0, "") rows) /\
  (forall ds, main_details os pids = Ok ds ->
     length ds = length pids /\ In (pid, Fin 0, "") ds) /\
  (Forall (rss_sane os) pids ->
     (exists rows,
        watch_cycle os kws
          = Ok (TableHeader :: (map render_row rows ++ [Footer])%list) /\
        length rows = length pids /\
        In (TableRow (mark (score "" kws)) pid (Fin 0) "")
           (map render_row rows)) /\
     (exists head ds,
        main os = Ok (head ++ ProcHeader :: map proc_line ds)%list /\
        length ds = length pids /\
        In (ProcLine pid (Fin 0) "") (map proc_line ds))).
Proof.
  intros Hp Hin Hv.
  split; [intros rows; apply (watch_rows_listing os kws pids pid rows Hp Hin Hv)|].
  split; [intros ds; apply (main_details_listing os pids pid ds Hin Hv)|].
  intros Hsane. split.
  - destruct (mapM_returns (watch_row os kws) pids) as [rs Hrs].
    { eapply List.Forall_impl; [|exact Hsane].
      intros p. apply watch_row_returns. }
    assert (Hrows : watch_rows os kws = Ok (rank rs)).
    { unfold watch_rows. rewrite Hp. cbn [rbind]. rewrite Hrs. reflexivity. }
    destruct (watch_rows_listing os kws pids pid _ Hp Hin Hv Hrows)
      as [Hlen Hrow].
    exists (rank rs). split; [|split; [exact Hlen|]].
    + unfold watch_cycle. rewrite Hrows. cbn [rbind]. unfold render.
      destruct (rank rs); [destruct Hrow|reflexivity].
    + apply (in_map render_row) in Hrow. exact Hrow.
  - destruct (mapM_returns (main_detail os) pids) as [gs Hgs].
    { eapply List.Forall_impl; [|exact Hsane].
      intros p. apply main_detail_returns. }
    assert (Hds : main_details os pids = Ok (sort_details gs)).
    { unfold main_details. rewrite Hgs. reflexivity. }
    destruct (main_details_listing os pids pid _ Hin Hv Hds) as [Hlen Hd].
    unfold main. rewrite Hp.
    destruct (try_except_returns
                (info <-- meminfo os;;
                 mem <-- parse_meminfo info;;
                 (if mem_total mem =? 0 then Ok (PyInt 0)
                  else r <-- percent (mem_total mem - mem_avail mem)
                               (mem_total mem);; Ok (PyFloat r)))
                (Ok (PyInt 0)) (returns_ok _)) as [mem Hmem].
    change (get_mem_percent os = Ok mem) in Hmem. rewrite Hmem.
    cbn [rbind].
    destruct (try_except_returns
                (usage <-- disk_usage os "/";;
                 (let '(total, used, _) := usage in
                  r <-- percent used total;; Ok (PyFloat r)))
                (Ok (PyInt 0)) (returns_ok _)) as [disk Hdisk].
    change (get_disk_percent os "/" = Ok disk) in Hdisk. rewrite Hdisk.
    cbn [rbind]. rewrite Hds. cbn [rbind].
    destruct pids as [|p0 pids']; [destruct Hin|].
    eexists. exists (sort_details gs).
    split; [reflexivity|]. split; [exact Hlen|].
    apply (in_map proc_line) in Hd. exact Hd.
Qed.

Lemma vanished_process_still_listed_witness :
  exists rows,
    watch_cycle host_6_25 default_keywords
      = Ok (TableHeader :: (map render_row rows ++ [Footer])%list) /\
    length rows = 3%nat /\
    In (TableRow " " 30 (Fin 0) "") (map render_row rows).
Proof.
  destruct (vanished_process_still_listed host_6_25 default_keywords
              [10; 20; 30] 30) as (_ & _ & H).
  - vm_compute. reflexivity.
  - right. right. left. reflexivity.
  - split; [reflexivity|]. exists OSError. reflexivity.
  - apply H. repeat constructor.
    + exists 2048. split; [vm_compute; reflexivity|].
      apply closed_le. vm_compute. reflexivity.
    + exists 2049. split; [vm_compute; reflexivity|].
      apply closed_le. vm_compute. reflexivity.
    + exists 0. split; [vm_compute; reflexivity|].
      apply closed_le. vm_compute. reflexivity.
Defined.

End ProcessScanner.

(** ** Snapshot mode: the alerts *)

Module Alerts.
Import F64 Py Monitor Spec Shapes Examples F64Facts NumFacts RoundMono.
Local Open Scope string_scope.
Local Open Scope Z_scope.

(** What [main] logs: the summary, the alerts that are due, and the
    listing of the processes. *)
Lemma main_shape os lines :
  main os = Ok lines ->
  exists mem disk rest,
    get_mem_percent os = Ok mem /\ get_disk_percent os "/" = Ok disk /\
    lines = (Summary mem disk
             :: (if ge_int mem TH_RAM then [AlertRam mem] else [])
             ++ (if ge_int disk TH_DISK then [AlertDisk disk] else [])
             ++ rest)%list /\
    Forall is_listing_line rest.
Proof.
  unfold main. intros Hm.
  destruct (get_mem_percent os) as [mem|e]; [|discriminate Hm].
  cbn [rbind] in Hm.
  destruct (get_disk_percent os "/") as [disk|e]; [|discriminate Hm].
  cbn [rbind] in Hm.
  destruct (find_java_pids os) as [pids|e]; [|discriminate Hm].
  cbn [rbind] in Hm.
  destruct pids as [|p pids].
  - injection Hm as <-. exists mem, disk, [NoJava].
    repeat split; [|repeat constructor].
    cbn [app]. rewrite <- !app_assoc. reflexivity.
  - destruct (main_details os (p :: pids)) as [ds|e]; [|discriminate Hm].
    cbn [rbind] in Hm. injection Hm as <-.
    exists mem, disk, (ProcHeader :: map proc_line ds).
    repeat split.
    + cbn [app]. rewrite <- !app_assoc. reflexivity.
    + constructor; [exact I|]. apply Forall_map.
      apply Forall_forall. intros d _. exact I.
Qed.

Lemma no_alert_in_listing rest l :
  Forall is_listing_line rest -> In l rest -> is_listing_line l.
Proof. intros HF Hin. rewrite List.Forall_forall in HF. auto. Qed.

Lemma percent_80 : percent_units 4 5 = 80 * one_k.
Proof. vm_compute. reflexivity. Qed.

Lemma percent_79_94 : percent_units 7994 10000 < 80 * one_k.
Proof. apply closed_lt. vm_compute. reflexivity. Qed.

Lemma percent_90 : percent_units 9 10 = 90 * one_k.
Proof. vm_compute. reflexivity. Qed.

Lemma percent_89_94 : percent_units 8994 10000 < 90 * one_k.
Proof. apply closed_lt. vm_compute. reflexivity. Qed.

(** X15. When the memory in use is at least 80 % of the total, [main]
    logs the RAM alert; when it is at most 79.94 %, it does not. In
    between, the rounding to one decimal decides. *)
Theorem ram_alert_threshold (os : platform) info mem lines :
  meminfo os = Ok info -> parse_meminfo info = Ok mem ->
  0 < mem_total mem -> 0 <= mem_avail mem <= mem_total mem ->
  main os = Ok lines ->
  (80 * mem_total mem <= 100 * (mem_total mem - mem_avail mem) ->
   exists m, In (AlertRam m) lines) /\
  (10000 * (mem_total mem - mem_avail mem) <= 7994 * mem_total mem ->
   forall m, ~ In (AlertRam m) lines).
Proof.
  intros Hi Hm Ht Ha Hmain.
  destruct (main_shape os lines Hmain)
    as (m & disk & rest & Hmem & _ & -> & Hrest).
  rewrite (MetricsReader.get_mem_percent_unfold os info mem Hi Hm) in Hmem.
  destruct (Z.eqb_spec (mem_total mem) 0); [lia|].
  rewrite (percent_units_eq (mem_total mem - mem_avail mem) (mem_total mem))
    in Hmem by lia.
  injection Hmem as <-. cbn [ge_int units]. unfold TH_RAM. split.
  - intros H80.
    pose proof (percent_units_mono 4 5 (mem_total mem - mem_avail mem)
                  (mem_total mem)) as Hmono.
    rewrite percent_80 in Hmono.
    destruct (Z.leb_spec (80 * one_k)
                (percent_units (mem_total mem - mem_avail mem) (mem_total mem)));
      [|lia].
    eexists. right. left. reflexivity.
  - intros H79 m0 Hin.
    pose proof (percent_units_mono (mem_total mem - mem_avail mem)
                  (mem_total mem) 7994 10000) as Hmono.
    pose proof percent_79_94.
    destruct (Z.leb_spec (80 * one_k)
                (percent_units (mem_total mem - mem_avail mem) (mem_total mem)));
      [lia|].
    cbn [app] in Hin. destruct Hin as [Hin|Hin]; [discriminate Hin|].
    apply in_app_or in Hin as [Hin|Hin].
    + destruct (ge_int disk TH_DISK); [|destruct Hin].
      destruct Hin as [Hin|[]]. discriminate Hin.
    + apply (no_alert_in_listing rest _ Hrest Hin).
Qed.

Lemma ram_alert_threshold_witness :
  exists m,
    In (AlertRam m)
       [Summary (PyFloat (of_int 80)) (PyFloat (of_int 80));
        AlertRam (PyFloat (of_int 80));
        ProcHeader;
        ProcLine 10 (of_int 2) "java -jar MyForgeServer.jar";
        ProcLine 20 (of_int 2) "java -version";
        ProcLine 30 (of_int 0) ""].
Proof.
  pose (info := text ["MemTotal:     1000 kB"; "MemFree:       100 kB";
                      "Buffers:        60 kB"; "Cached:         40 kB"]).
  pose (mem := match parse_meminfo info with Ok m => m | Raise _ => ∅ end).
  refine (proj1 (ram_alert_threshold host_old_kernel info mem _ eq_refl
                   _ _ _ _) _).
  - vm_compute. reflexivity.
  - vm_compute. reflexivity.
  - vm_compute. split; discriminate.
  - vm_compute. reflexivity.
  - vm_compute. discriminate.
Defined.

(** X16. When the space in use on [/] is at least 90 % of the total,
    [main] logs the disk alert; when it is at most 89.94 %, it does not. *)
Theorem disk_alert_threshold (os : platform) total used free lines :
  disk_usage os "/" = Ok (total, used, free) ->
  0 < total -> 0 <= used <= total ->
  main os = Ok lines ->
  (90 * total <= 100 * used -> exists d, In (AlertDisk d) lines) /\
  (10000 * used <= 8994 * total -> forall d, ~ In (AlertDisk d) lines).
Proof.
  intros Hd Ht Hu Hmain.
  destruct (main_shape os lines Hmain)
    as (m & disk & rest & _ & Hdisk & -> & Hrest).
  rewrite (MetricsReader.get_disk_percent_unfold os "/" total used free Hd)
    in Hdisk.
  rewrite (percent_units_eq used total) in Hdisk by lia.
  injection Hdisk as <-. cbn [ge_int units]. unfold TH_DISK. split.
  - intros H90.
    pose proof (percent_units_mono 9 10 used total) as Hmono.
    rewrite percent_90 in Hmono.
    destruct (Z.leb_spec (90 * one_k) (percent_units used total)); [|lia].
    eexists. right. apply in_or_app. right. left. reflexivity.
  - intros H89 d0 Hin.
    pose proof (percent_units_mono used total 8994 10000) as Hmono.
    pose proof percent_89_94.
    destruct (Z.leb_spec (90 * one_k) (percent_units used total)); [lia|].
    cbn [app] in Hin. destruct Hin as [Hin|Hin]; [discriminate Hin|].
    apply in_app_or in Hin as [Hin|Hin].
    + destruct (ge_int m TH_RAM); [|destruct Hin].
      destruct Hin as [Hin|[]]. discriminate Hin.
    + apply (no_alert_in_listing rest _ Hrest Hin).
Qed.

Lemma disk_alert_threshold_witness :
  exists d,
    In (AlertDisk d)
       [Summary (PyFloat (of_int 80)) (PyFloat (of_int 95));
        AlertRam (PyFloat (of_int 80));
        AlertDisk (PyFloat (of_int 95));
        ProcHeader;
        ProcLine 10 (of_int 2) "java -jar MyForgeServer.jar";
        ProcLine 20 (of_int 2) "java -version";
        ProcLine 30 (of_int 0) ""].
Proof.
  pose (os := host (text ["MemTotal:     1000 kB"; "MemAvailable:  200 kB"])
                   (1000, 950, 50)).
  refine (proj1 (disk_alert_threshold os 1000 950 50 _ eq_refl _ _ _) _).
  - vm_compute. reflexivity.
  - vm_compute. split; discriminate.
  - vm_compute. reflexivity.
  - vm_compute. discriminate.
Defined.

End Alerts.

(** ** Usage percentages and MB values *)

Module Usage.
Import F64 Py Monitor Spec Shapes Examples F64Facts NumFacts RoundMono Alerts.
Local Open Scope string_scope.
Local Open Scope Z_scope.

(** X3. The share of the disk in use lies between 0 and 100: a float
    when the total is positive, and the int 0 when the total is 0 (the
    division by zero is absorbed). *)
Theorem disk_percent_in_range (os : platform) path total used free :
  disk_usage os path = Ok (total, used, free) ->
  0 <= used <= total ->
  exists v,
    get_disk_percent os path = Ok v /\ in_0_100 v /\
    (total = 0 -> v = PyInt 0) /\
    (0 < total -> exists r, v = PyFloat r).
Proof.
  intros Hd Hu.
  rewrite (MetricsReader.get_disk_percent_unfold os path total used free Hd).
  destruct (Z.eq_dec total 0) as [->|Hne].
  - exists (PyInt 0). unfold percent, truediv. cbn [Z.eqb rbind].
    repeat split; cbn [in_0_100]; try lia.
  - destruct (percent_in_range used total) as (k & -> & Hk); [lia|lia|].
    exists (PyFloat (Fin k)). repeat split; cbn [in_0_100 units]; try lia.
    intros _. eauto.
Qed.

Lemma disk_percent_in_range_witness :
  exists v, get_disk_percent host_old_kernel "/" = Ok v /\ in_0_100 v /\
            (1000 = 0 -> v = PyInt 0) /\ (0 < 1000 -> exists r, v = PyFloat r).
Proof.
  apply (disk_percent_in_range host_old_kernel "/" 1000 800 200).
  - reflexivity.
  - lia.
Defined.

(** X4. A fuller disk never shows a smaller percentage: the three
    roundings of [round(used / total * 100, 1)] keep the order of the
    exact shares. The same holds for the memory percentage. *)
Theorem usage_percent_monotone (os os' : platform) :
  (forall path path' total used free total' used' free',
     disk_usage os path = Ok (total, used, free) ->
     disk_usage os' path' = Ok (total', used', free') ->
     0 <= used <= total -> 0 < total ->
     0 <= used' <= total' -> 0 < total' ->
     used * total' <= used' * total ->
     exists r r',
       get_disk_percent os path = Ok (PyFloat r) /\
       get_disk_percent os' path' = Ok (PyFloat r') /\
       units r <= units r') /\
  (forall info info' mem mem',
     meminfo os = Ok info -> parse_meminfo info = Ok mem ->
     meminfo os' = Ok info' -> parse_meminfo info' = Ok mem' ->
     0 <= mem_avail mem <= mem_total mem -> 0 < mem_total mem ->
     0 <= mem_avail mem' <= mem_total mem' -> 0 < mem_total mem' ->
     (mem_total mem - mem_avail mem) * mem_total mem'
       <= (mem_total mem' - mem_avail mem') * mem_total mem ->
     exists r r',
       get_mem_percent os = Ok (PyFloat r) /\
       get_mem_percent os' = Ok (PyFloat r') /\
       units r <= units r').
Proof.
  split.
  - intros path path' total used free total' used' free' Hd Hd' Hu Ht Hu' Ht' H.
    rewrite (MetricsReader.get_disk_percent_unfold os path total used free Hd).
    rewrite (MetricsReader.get_disk_percent_unfold os' path' total' used' free' Hd').
    rewrite !percent_units_eq by lia.
    eexists _, _. split; [reflexivity|]. split; [reflexivity|].
    cbn [units]. apply percent_units_mono; lia.
  - intros info info' mem mem' Hi Hm Hi' Hm' Ha Ht Ha' Ht' H.
    rewrite (MetricsReader.get_mem_percent_unfold os info mem Hi Hm).
    rewrite (MetricsReader.get_mem_percent_unfold os' info' mem' Hi' Hm').
    destruct (Z.eqb_spec (mem_total mem) 0); [lia|].
    destruct (Z.eqb_spec (mem_total mem') 0); [lia|].
    rewrite !percent_units_eq by lia.
    eexists _, _. split; [reflexivity|]. split; [reflexivity|].
    cbn [units]. apply percent_units_mono; lia.
Qed.

Lemma usage_percent_monotone_witness :
  exists r r',
    get_disk_percent host_6_25 "/" = Ok (PyFloat r) /\
    get_disk_percent host_old_kernel "/" = Ok (PyFloat r') /\
    units r <= units r'.
Proof.
  apply (proj1 (usage_percent_monotone host_6_25 host_old_kernel)
           "/" "/" 16 1 15 1000 800 200); try reflexivity; lia.
Defined.

(** The resident size in MB, through its two roundings. *)
Lemma to_mb_units z : 0 <= z <= 2 ^ 1000 -> to_mb z = Ok (Fin (mb_units z)).
Proof.
  intros Hz. unfold to_mb, mb_units, truediv. pose proof one_k_pos as Hone.
  change (1024 =? 0) with false. cbv iota.
  rewrite (Z.abs_eq z) by lia. change (Z.abs 1024) with 1024.
  assert (HB : on_grid (2 ^ 1000 * one_k))
    by (exists 1, 2074; repeat split; try closed).
  destruct (round_grid_bound (z * one_k) 1024 (2 ^ 1000 * one_k) HB)
    as [Hq ->]; [nia | lia | nia |].
  replace (z <? 0) with false by (symmetry; apply Z.ltb_ge; lia).
  change (1024 <? 0) with false.
  cbn [xorb]. rewrite signed_is_neg_false by lia. cbn [rbind round1].
  set (kq := round_grid (z * one_k) 1024) in *.
  destruct (tenths_le kq (10 * 2 ^ 1000) ltac:(lia)) as [Ht0 Ht].
  unfold grid_of_tenths at 1.
  destruct (round_grid_bound (tenths kq * one_k) 10 (2 ^ 1000 * one_k) HB)
    as [Hr ->]; [nia | lia | nia |].
  replace (kq <? 0) with false by (symmetry; apply Z.ltb_ge; lia).
  rewrite signed_is_neg_false by (unfold grid_of_tenths; lia).
  reflexivity.
Qed.

Lemma mb_units_mono z z' : 0 <= z <= z' -> mb_units z <= mb_units z'.
Proof.
  intros Hz. unfold mb_units. pose proof one_k_pos as Hone.
  apply grid_of_tenths_mono. split; [apply tenths_nonneg|].
  apply tenths_mono. split; [apply round_grid_nonneg; nia|].
  apply round_grid_mono; nia.
Qed.

(** X10. A process with more resident kB is never shown with fewer MB:
    the division by 1024 and the rounding to one decimal keep the order. *)
Theorem to_mb_monotone z z' :
  0 <= z <= z' -> z' <= 2 ^ 1000 ->
  exists m m', to_mb z = Ok m /\ to_mb z' = Ok m' /\ fleb m m' = true.
Proof.
  intros Hz Hz'. rewrite !to_mb_units by lia.
  eexists _, _. split; [reflexivity|]. split; [reflexivity|].
  unfold fleb. cbn [units]. apply Z.leb_le, mb_units_mono. exact Hz.
Qed.

Lemma to_mb_monotone_witness :
  exists m m', to_mb 2048 = Ok m /\ to_mb 2049 = Ok m' /\ fleb m m' = true.
Proof. apply to_mb_monotone; [lia | closed]. Defined.

(** X17. A memory or disk reading that fails is logged as 0 and raises
    no alert: when /proc/meminfo cannot be read or parsed, or gives no
    MemTotal other than 0, [main] logs no RAM alert; when the disk
    usage cannot be read, or the total is 0, it logs no disk alert. *)
Theorem failed_reading_raises_no_alert (os : platform) lines :
  main os = Ok lines ->
  (((exists e, meminfo os = Raise e) \/
    (exists info e, meminfo os = Ok info /\ parse_meminfo info = Raise e) \/
    (exists info mem, meminfo os = Ok info /\ parse_meminfo info = Ok mem /\
                      mem_total mem = 0)) ->
   forall m, ~ In (AlertRam m) lines) /\
  (((exists e, disk_usage os "/" = Raise e) \/
    (exists used free, disk_usage os "/" = Ok (0, used, free))) ->
   forall d, ~ In (AlertDisk d) lines).
Proof.
  intros Hmain.
  destruct (main_shape os lines Hmain)
    as (m & disk & rest & Hmem & Hdisk & -> & Hrest).
  split.
  - intros Hfail m0 Hin.
    assert (Hm0 : m = PyInt 0).
    { unfold get_mem_percent in Hmem.
      destruct Hfail as [(e & He) | [(info & e & Hi & He) |
                                     (info & mem & Hi & Hp & Ht)]].
      - rewrite He in Hmem. cbn in Hmem. congruence.
      - rewrite Hi in Hmem. cbn [rbind] in Hmem. rewrite He in Hmem.
        cbn in Hmem. congruence.
      - rewrite Hi in Hmem. cbn [rbind] in Hmem. rewrite Hp in Hmem.
        cbn [rbind] in Hmem. rewrite Ht in Hmem. cbn in Hmem. congruence. }
    subst m. cbn [ge_int] in Hin. change (TH_RAM <=? 0) with false in Hin.
    cbn [app] in Hin. destruct Hin as [Hin|Hin]; [discriminate Hin|].
    apply in_app_or in Hin as [Hin|Hin].
    + destruct (ge_int disk TH_DISK); [|destruct Hin].
      destruct Hin as [Hin|[]]. discriminate Hin.
    + apply (no_alert_in_listing rest _ Hrest Hin).
  - intros Hfail d0 Hin.
    assert (Hd0 : disk = PyInt 0).
    { unfold get_disk_percent in Hdisk.
      destruct Hfail as [(e & He) | (used & free & Hd)].
      - rewrite He in Hdisk. cbn in Hdisk. congruence.
      - rewrite Hd in Hdisk. cbn in Hdisk. congruence. }
    subst disk. cbn [ge_int] in Hin. change (TH_DISK <=? 0) with false in Hin.
    cbn [app] in Hin. destruct Hin as [Hin|Hin]; [discriminate Hin|].
    apply in_app_or in Hin as [Hin|Hin].
    + destruct (ge_int m TH_RAM); [|destruct Hin].
      destruct Hin as [Hin|[]]. discriminate Hin.
    + apply (no_alert_in_listing rest _ Hrest Hin).
Qed.

Lemma failed_reading_raises_no_alert_witness :
  (~ In (AlertRam (PyInt 0)) [Summary (PyInt 0) (PyInt 0); NoJava]) /\
  (~ In (AlertDisk (PyInt 0)) [Summary (PyInt 0) (PyInt 0); NoJava]).
Proof.
  destruct (failed_reading_raises_no_alert host_down _ eq_refl) as [Hm Hd].
  split.
  - apply Hm. left. exists OSError. reflexivity.
  - apply Hd. left. exists OSError. reflexivity.
Defined.

End Usage.

(** ** Text: words, numerals, lines *)

Module TextFacts.
Import F64 Py Monitor Spec Shapes Examples.
Local Open Scope string_scope.
Local Open Scope Z_scope.

Lemma app_nil_r_str (s : string) : s ++ "" = s.
Proof. induction s as [|c s IH]; [reflexivity|]. change (String c (s ++ "") = String c s). now rewrite IH. Qed.

Lemma app_cons_str c (s t : string) : String c s ++ t = String c (s ++ t).
Proof. reflexivity. Qed.

Lemma app_assoc_str (s t u : string) : (s ++ t) ++ u = s ++ t ++ u.
Proof.
  induction s as [|c s IH]; [reflexivity|].
  rewrite !app_cons_str. now rewrite IH.
Qed.

Lemma no_space_cons c s :
  no_space (String c s) = negb (isspace c) && no_space s.
Proof. reflexivity. Qed.

Lemma all_chars_app p (s t : string) :
  all_chars p (s ++ t) = all_chars p s && all_chars p t.
Proof.
  induction s as [|c s IH]; [reflexivity|].
  rewrite app_cons_str. cbn [all_chars]. rewrite IH. apply andb_assoc.
Qed.

Lemma all_chars_impl (p q : ascii -> bool) s :
  (forall c, p c = true -> q c = true) ->
  all_chars p s = true -> all_chars q s = true.
Proof.
  intros Hpq. induction s as [|c s IH]; [reflexivity|]. cbn [all_chars].
  intros H. apply andb_prop in H as [Hc Hs]. now rewrite (Hpq c Hc), IH.
Qed.

Lemma lstrip_no_space s : no_space s = true -> lstrip s = s.
Proof.
  destruct s as [|c s]; [reflexivity|]. rewrite no_space_cons.
  cbn [lstrip]. intros H. apply andb_prop in H as [H _].
  destruct (isspace c); [discriminate H | reflexivity].
Qed.

Lemma rstrip_no_space s : no_space s = true -> rstrip s = s.
Proof.
  induction s as [|c s IH]; [reflexivity|]. rewrite no_space_cons.
  cbn [rstrip]. intros H. apply andb_prop in H as [Hc Hs]. rewrite (IH Hs).
  destruct s; [|reflexivity].
  destruct (isspace c); [discriminate Hc | reflexivity].
Qed.

Lemma strip_no_space s : no_space s = true -> strip s = s.
Proof.
  intros H. unfold strip. rewrite (lstrip_no_space s H).
  apply rstrip_no_space, H.
Qed.

(** *** Words *)

Lemma words_from_word w s :
  no_space w = true ->
  words_from (w ++ s) = (w ++ (words_from s).1, (words_from s).2).
Proof.
  induction w as [|c w IH]; intros Hw.
  - change ("" ++ s) with s. change ("" ++ (words_from s).1) with (words_from s).1.
    destruct (words_from s); reflexivity.
  - rewrite no_space_cons in Hw. apply andb_prop in Hw as [Hc Hw].
    rewrite !app_cons_str. cbn [words_from]. rewrite (IH Hw).
    destruct (isspace c); [discriminate Hc | reflexivity].
Qed.

Lemma words_from_space c s :
  isspace c = true -> words_from (String c s) = ("", split_ws s).
Proof.
  intros Hc. cbn [words_from]. unfold split_ws.
  destruct (words_from s) as [w ws]. rewrite Hc. reflexivity.
Qed.

Lemma split_ws_space c s : isspace c = true -> split_ws (String c s) = split_ws s.
Proof.
  intros Hc. unfold split_ws at 1. rewrite (words_from_space c s Hc).
  reflexivity.
Qed.

Lemma split_ws_all_space p s : all_space p = true -> split_ws (p ++ s) = split_ws s.
Proof.
  induction p as [|c p IH]; intros Hp; [reflexivity|].
  cbn [all_space] in Hp. apply andb_prop in Hp as [Hc Hp].
  rewrite app_cons_str, (split_ws_space _ _ Hc). apply IH, Hp.
Qed.

Lemma split_ws_word_space w c s :
  is_word w = true -> isspace c = true ->
  split_ws (w ++ String c s) = w :: split_ws s.
Proof.
  intros Hw Hc. apply andb_prop in Hw as [Hne Hw].
  unfold split_ws at 1. rewrite (words_from_word w _ Hw).
  rewrite (words_from_space c s Hc). cbn [fst snd].
  rewrite app_nil_r_str. rewrite Hne. reflexivity.
Qed.

Lemma split_ws_word w : is_word w = true -> split_ws w = [w].
Proof.
  intros Hw. apply andb_prop in Hw as [Hne Hw].
  unfold split_ws. rewrite <- (app_nil_r_str w) at 1.
  rewrite (words_from_word w "" Hw). cbn [words_from fst snd].
  rewrite app_nil_r_str, Hne. reflexivity.
Qed.

Lemma words_from_all_space s : all_space s = true -> words_from s = ("", []).
Proof.
  induction s as [|c s IH]; [reflexivity|]. cbn [all_space words_from].
  intros H. apply andb_prop in H as [Hc Hs]. rewrite (IH Hs), Hc. reflexivity.
Qed.

Lemma rstrip_empty s : rstrip s = "" -> all_space s = true.
Proof.
  induction s as [|c s IH]; [reflexivity|]. cbn [rstrip all_space].
  destruct (rstrip s) as [|a r]; [|discriminate].
  destruct (isspace c); [|discriminate]. intros _. apply IH. reflexivity.
Qed.

Lemma words_from_rstrip s : words_from (rstrip s) = words_from s.
Proof.
  induction s as [|c s IH]; [reflexivity|]. cbn [rstrip].
  destruct (rstrip s) as [|a r] eqn:Hr.
  - pose proof (rstrip_empty s Hr) as Hs.
    cbn [words_from]. rewrite (words_from_all_space s Hs).
    destruct (isspace c) eqn:Hc; cbn [words_from]; rewrite ?Hc; reflexivity.
  - cbn [words_from] in *. rewrite IH. reflexivity.
Qed.

Lemma split_ws_lstrip s : split_ws (lstrip s) = split_ws s.
Proof.
  induction s as [|c s IH]; [reflexivity|]. cbn [lstrip].
  destruct (isspace c) eqn:Hc; [|reflexivity].
  rewrite (split_ws_space c s Hc). exact IH.
Qed.

Lemma split_ws_strip s : split_ws (strip s) = split_ws s.
Proof.
  unfold strip, split_ws at 1. rewrite words_from_rstrip.
  apply split_ws_lstrip.
Qed.

Lemma words_from_words s :
  no_space (words_from s).1 = true /\
  Forall (fun w => is_word w = true) (words_from s).2.
Proof.
  induction s as [|c s [IHw IHws]]; [split; [reflexivity|constructor]|].
  cbn [words_from]. destruct (words_from s) as [w ws]. cbn [fst snd] in *.
  destruct (isspace c) eqn:Hc; cbn [fst snd].
  - split; [reflexivity|]. destruct (nonempty w) eqn:Hne; [|exact IHws].
    constructor; [|exact IHws]. unfold is_word. now rewrite Hne, IHw.
  - split; [|exact IHws]. rewrite no_space_cons. now rewrite Hc, IHw.
Qed.

Lemma split_ws_words s : Forall (fun w => is_word w = true) (split_ws s).
Proof.
  unfold split_ws. destruct (words_from_words s) as [Hw Hws].
  destruct (words_from s) as [w ws]. cbn [fst snd] in *.
  destruct (nonempty w) eqn:Hne; [|exact Hws].
  constructor; [|exact Hws]. unfold is_word. now rewrite Hne, Hw.
Qed.

Lemma filter_words (ws : list string) :
  Forall (fun w => is_word w = true) ws ->
  List.filter (fun x => nonempty (strip x)) ws = ws.
Proof.
  induction 1 as [|w ws Hw _ IH]; [reflexivity|]. cbn [List.filter].
  apply andb_prop in Hw as [Hne Hw]. rewrite (strip_no_space w Hw), Hne.
  f_equal. exact IH.
Qed.

(** *** Numerals *)

Lemma digit_char_facts d :
  (d < 10)%nat ->
  digit_val (digit_char d) = Some (Z.of_nat d) /\
  isspace (digit_char d) = false /\
  islinebreak (digit_char d) = false /\
  Ascii.eqb (digit_char d) ":" = false /\
  Ascii.eqb (digit_char d) "-" = false /\
  Ascii.eqb (digit_char d) "+" = false.
Proof.
  intros Hd.
  do 10 (destruct d as [|d]; [vm_compute; repeat split; reflexivity|]).
  lia.
Qed.

Lemma is_digits_Forall ds :
  is_digits ds = true -> ds <> [] /\ Forall (fun d => (d < 10)%nat) ds.
Proof.
  destruct ds as [|d ds]; [discriminate|]. unfold is_digits. intros H.
  apply andb_prop in H as [H _].
  split; [discriminate|]. apply List.Forall_forall. intros x Hx.
  rewrite forallb_forall in H. apply Nat.ltb_lt, H, Hx.
Qed.

Lemma is_digits_length ds :
  is_digits ds = true -> (length ds <= 4300)%nat.
Proof.
  destruct ds as [|d ds]; [discriminate|]. unfold is_digits. intros H.
  apply andb_prop in H as [_ H]. apply Nat.leb_le, H.
Qed.

Lemma numeral_cons d ds : numeral (d :: ds) = String (digit_char d) (numeral ds).
Proof. reflexivity. Qed.

Lemma no_space_numeral ds :
  Forall (fun d => (d < 10)%nat) ds -> no_space (numeral ds) = true.
Proof.
  induction 1 as [|d ds Hd _ IH]; [reflexivity|].
  rewrite numeral_cons, no_space_cons.
  destruct (digit_char_facts d Hd) as (_ & -> & _). exact IH.
Qed.

Lemma is_word_numeral ds : is_digits ds = true -> is_word (numeral ds) = true.
Proof.
  intros H. destruct (is_digits_Forall ds H) as [Hne HF].
  unfold is_word. rewrite (no_space_numeral ds HF).
  destruct ds; [congruence | reflexivity].
Qed.

Lemma parse_digits_numeral ds acc b :
  Forall (fun d => (d < 10)%nat) ds -> ds <> [] \/ b = true ->
  parse_digits acc b (numeral ds)
  = Some (fold_left (fun a d => 10 * a + Z.of_nat d) ds acc).
Proof.
  intros HF. revert acc b.
  induction HF as [|d ds Hd _ IH]; intros acc b Hb.
  - destruct Hb as [Hb | ->]; [congruence | reflexivity].
  - rewrite numeral_cons. cbn [parse_digits fold_left].
    destruct (digit_char_facts d Hd) as (-> & _).
    apply IH. right. reflexivity.
Qed.

Lemma isspace_int_isspace c : isspace_int c = true -> isspace c = true.
Proof.
  destruct c as [[] [] [] [] [] [] [] []]; vm_compute; congruence.
Qed.

Lemma lstrip_int_no_space s : no_space s = true -> lstrip_int s = s.
Proof.
  destruct s as [|c s]; [reflexivity|]. rewrite no_space_cons.
  cbn [lstrip_int]. intros H. apply andb_prop in H as [H _].
  destruct (isspace_int c) eqn:Hc; [|reflexivity].
  rewrite (isspace_int_isspace c Hc) in H. discriminate H.
Qed.

Lemma rstrip_int_no_space s : no_space s = true -> rstrip_int s = s.
Proof.
  induction s as [|c s IH]; [reflexivity|]. rewrite no_space_cons.
  cbn [rstrip_int]. intros H. apply andb_prop in H as [Hc Hs].
  rewrite (IH Hs). destruct s; [|reflexivity].
  destruct (isspace_int c) eqn:Hi; [|reflexivity].
  rewrite (isspace_int_isspace c Hi) in Hc. discriminate Hc.
Qed.

Lemma count_digits_numeral ds :
  Forall (fun d => (d < 10)%nat) ds -> count_digits (numeral ds) = length ds.
Proof.
  induction 1 as [|d ds Hd _ IH]; [reflexivity|].
  rewrite numeral_cons. cbn [count_digits length].
  destruct (digit_char_facts d Hd) as (-> & _). now rewrite IH.
Qed.

(** A text without whitespace and without sign is read as it is. *)
Lemma parse_int_plain c s :
  no_space (String c s) = true ->
  Ascii.eqb c "-" = false -> Ascii.eqb c "+" = false ->
  parse_int (String c s) = parse_unsigned (String c s).
Proof.
  intros Hs H1 H2. unfold parse_int.
  rewrite (lstrip_int_no_space _ Hs), (rstrip_int_no_space _ Hs).
  destruct c as [[] [] [] [] [] [] [] []]; try reflexivity;
    vm_compute in H1, H2; discriminate.
Qed.

Lemma parse_int_numeral ds :
  ds <> [] -> Forall (fun d => (d < 10)%nat) ds ->
  parse_int (numeral ds)
  = if (4300 <? length ds)%nat then None else Some (numeral_value ds).
Proof.
  intros Hne HF.
  pose proof (parse_digits_numeral ds 0 false HF (or_introl Hne)) as Hp.
  pose proof (no_space_numeral ds HF) as Hs.
  pose proof (count_digits_numeral ds HF) as Hc.
  destruct ds as [|d ds]; [congruence|].
  rewrite numeral_cons in *.
  inversion HF as [|? ? Hd _]; subst.
  destruct (digit_char_facts d Hd) as (_ & _ & _ & _ & Hm & Hpl).
  rewrite (parse_int_plain _ _ Hs Hm Hpl). unfold parse_unsigned.
  rewrite Hc. unfold int_max_str_digits.
  destruct (4300 <? length (d :: ds))%nat; [reflexivity | exact Hp].
Qed.

Lemma int_numeral ds :
  is_digits ds = true -> int (numeral ds) = Ok (numeral_value ds).
Proof.
  intros H. destruct (is_digits_Forall ds H) as [Hne HF].
  pose proof (is_digits_length ds H) as Hlen.
  unfold int. rewrite (parse_int_numeral ds Hne HF).
  destruct (Nat.ltb_spec 4300 (length ds)); [lia | reflexivity].
Qed.

(** *** Lines *)

Lemma text_cons l ls :
  text (l :: ls) = l ++ String (ascii_of_N 10) (text ls).
Proof. reflexivity. Qed.

Lemma split_ws_text ws :
  Forall (fun w => is_word w = true) ws -> split_ws (text ws) = ws.
Proof.
  induction 1 as [|w ws Hw _ IH]; [reflexivity|].
  rewrite text_cons, split_ws_word_space by (exact Hw || reflexivity).
  f_equal. exact IH.
Qed.

End TextFacts.

(** ** Discovery of the java processes *)

Module Finder.
Import F64 Py Monitor Spec Shapes Examples Fixtures MonadFacts TextFacts.
Local Open Scope string_scope.
Local Open Scope Z_scope.

Lemma mapM_raise {A B} (f : A -> result B) l a e :
  In a l -> f a = Raise e -> exists e', mapM f l = Raise e'.
Proof.
  induction l as [|x l IH]; intros Hin Ha; [destruct Hin|].
  cbn [mapM]. destruct Hin as [->|Hin].
  - rewrite Ha. eauto.
  - destruct (f x); [|eauto]. cbn [rbind].
    destruct (IH Hin Ha) as [e' ->]. eauto.
Qed.

(** The [strip], the test for an empty output and the filter of the
    comprehension change nothing: the tokens of [split] are converted. *)
Lemma find_java_pids_unfold os out :
  pgrep_java os = Ok out ->
  find_java_pids os = try_except (mapM int (split_ws out)) (Ok []).
Proof.
  intros Ho. unfold find_java_pids. rewrite Ho. cbn [rbind].
  destruct (nonempty (strip out)) eqn:Hne.
  - rewrite split_ws_strip, (filter_words _ (split_ws_words out)).
    reflexivity.
  - rewrite <- (split_ws_strip out).
    destruct (strip out); [reflexivity | discriminate Hne].
Qed.

(** X5. [find_java_pids] is all or nothing: when every whitespace-
    separated token of the output of [pgrep] is an int literal, the
    result is the list of these ints in order; when one token is not,
    the result is empty whatever the other tokens are. *)
Theorem find_java_pids_tokens (os : platform) out :
  pgrep_java os = Ok out ->
  (forall pids, mapM int (split_ws out) = Ok pids ->
     find_java_pids os = Ok pids) /\
  (forall tok, In tok (split_ws out) -> parse_int tok = None ->
     find_java_pids os = Ok []).
Proof.
  intros Ho. rewrite (find_java_pids_unfold os out Ho). split.
  - intros pids ->. reflexivity.
  - intros tok Hin Htok.
    destruct (mapM_raise int (split_ws out) tok ValueError Hin) as [e ->].
    + unfold int. rewrite Htok. reflexivity.
    + reflexivity.
Qed.

Lemma find_java_pids_tokens_witness :
  find_java_pids (host_procs "10 1x 30" Eof (Ok [])) = Ok [].
Proof.
  apply (proj2 (find_java_pids_tokens (host_procs "10 1x 30" Eof (Ok []))
                  "10 1x 30" eq_refl) "1x").
  - vm_compute. right. left. reflexivity.
  - vm_compute. reflexivity.
Defined.

Lemma mapM_int_numerals dss :
  Forall (fun ds => is_digits ds = true) dss ->
  mapM int (map numeral dss) = Ok (map numeral_value dss).
Proof.
  induction 1 as [|ds dss Hds _ IH]; [reflexivity|].
  cbn [map mapM]. rewrite (int_numeral ds Hds), IH. reflexivity.
Qed.

(** X6. When [pgrep] prints decimal numerals of at most 4300 digits
    each, one per line, [find_java_pids] returns the numbers they
    denote, in the order printed. *)
Theorem find_java_pids_numerals (os : platform) dss :
  pgrep_java os = Ok (text (map numeral dss)) ->
  Forall (fun ds => is_digits ds = true) dss ->
  find_java_pids os = Ok (map numeral_value dss).
Proof.
  intros Ho Hd. rewrite (find_java_pids_unfold os _ Ho).
  rewrite split_ws_text.
  - rewrite (mapM_int_numerals dss Hd). reflexivity.
  - clear Ho. induction Hd as [|ds dss Hds _ IH]; constructor; [|exact IH].
    apply is_word_numeral, Hds.
Qed.

Lemma find_java_pids_numerals_witness :
  find_java_pids host_old_kernel = Ok [10; 20; 30].
Proof.
  apply (find_java_pids_numerals _ [[1; 0]; [2; 0]; [3; 0]]%nat).
  - reflexivity.
  - repeat constructor.
Defined.

End Finder.

(** ** Reading the resident size *)

Module RssReader.
Import F64 Py Monitor Spec Shapes Examples Fixtures MonadFacts TextFacts.
Local Open Scope string_scope.
Local Open Scope Z_scope.

Lemma scan_status_skip pre rest :
  Forall (fun l => startswith "VmRSS:" l = false) pre ->
  scan_status (lines_then pre rest) = scan_status rest.
Proof.
  induction 1 as [|l pre Hl _ IH]; [reflexivity|].
  cbn [lines_then fold_right scan_status]. rewrite Hl. exact IH.
Qed.

(** X7. The first line of the status file that starts with [VmRSS:]
    decides: when it reads [VmRSS:], whitespace, a decimal numeral of
    at most 4300 digits and more after a whitespace character,
    [get_rss_kb] returns the number, whatever follows in the file
    (further [VmRSS:] lines, a failing read). *)
Theorem first_vmrss_line_decides (os : platform) pid pre pad ds c tail rest :
  proc_status os pid
    = lines_then pre
        (Line ("VmRSS:" ++ pad ++ numeral ds ++ String c tail) rest) ->
  Forall (fun l => startswith "VmRSS:" l = false) pre ->
  pad <> "" -> all_space pad = true ->
  is_digits ds = true -> isspace c = true ->
  get_rss_kb os pid = Ok (numeral_value ds).
Proof.
  intros Hst Hpre Hpad Hsp Hds Hc. unfold get_rss_kb. rewrite Hst.
  rewrite (scan_status_skip pre _ Hpre). cbn [scan_status].
  change (startswith "VmRSS:" ("VmRSS:" ++ pad ++ numeral ds ++ String c tail))
    with true. cbv iota.
  destruct pad as [|p pad]; [congruence|].
  cbn [all_space] in Hsp. apply andb_prop in Hsp as [Hp Hsp].
  change (String p pad ++ numeral ds ++ String c tail)
    with (String p (pad ++ numeral ds ++ String c tail)).
  rewrite (split_ws_word_space "VmRSS:" p _ eq_refl Hp).
  rewrite (split_ws_all_space pad _ Hsp).
  rewrite (split_ws_word_space (numeral ds) c tail (is_word_numeral ds Hds) Hc).
  rewrite (int_numeral ds Hds). reflexivity.
Qed.

Lemma first_vmrss_line_decides_witness :
  get_rss_kb host_old_kernel 10 = Ok 2048.
Proof.
  apply (first_vmrss_line_decides host_old_kernel 10
           ["Name:   java" ++ nl; "VmPeak:  9000 kB" ++ nl]
           "      " [2; 0; 4; 8]%nat " " ("kB" ++ nl) Eof).
  - reflexivity.
  - repeat constructor.
  - discriminate.
  - reflexivity.
  - reflexivity.
  - reflexivity.
Defined.

(** X8. [get_rss_kb] returns 0 when no line of the status file starts
    with [VmRSS:], whether the file ends or a read fails; and when the
    first such line has no second field, or one that is not an int
    literal, even if a well-formed [VmRSS:] line follows. *)
Theorem no_usable_vmrss_gives_zero (os : platform) pid pre :
  Forall (fun l => startswith "VmRSS:" l = false) pre ->
  (proc_status os pid = lines_then pre Eof -> get_rss_kb os pid = Ok 0) /\
  (proc_status os pid = lines_then pre ReadError ->
     get_rss_kb os pid = Ok 0) /\
  (forall l rest,
     proc_status os pid = lines_then pre (Line l rest) ->
     startswith "VmRSS:" l = true ->
     (forall w v more, split_ws l = w :: v :: more -> parse_int v = None) ->
     get_rss_kb os pid = Ok 0).
Proof.
  intros Hpre. unfold get_rss_kb. repeat split.
  - intros ->. rewrite (scan_status_skip pre _ Hpre). reflexivity.
  - intros ->. rewrite (scan_status_skip pre _ Hpre). reflexivity.
  - intros l rest -> Hl Hbad. rewrite (scan_status_skip pre _ Hpre).
    cbn [scan_status]. rewrite Hl.
    destruct (split_ws l) as [|w [|v more]] eqn:Hw; try reflexivity.
    unfold int. rewrite (Hbad w v more eq_refl). reflexivity.
Qed.

Lemma no_usable_vmrss_gives_zero_witness :
  get_rss_kb
    (host_procs "7" (status_file ["Name:   java"; "VmRSS:"; "VmRSS:  5 kB"])
       (Ok [])) 7 = Ok 0.
Proof.
  refine (proj2 (proj2 (no_usable_vmrss_gives_zero
            (host_procs "7"
               (status_file ["Name:   java"; "VmRSS:"; "VmRSS:  5 kB"])
               (Ok [])) 7 ["Name:   java" ++ nl] _))
            ("VmRSS:" ++ nl) (status_file ["VmRSS:  5 kB"]) eq_refl eq_refl _).
  - repeat constructor.
  - intros w v more H. vm_compute in H. discriminate H.
Defined.

End RssReader.

(** ** Parsing /proc/meminfo *)

Module MeminfoParser.
Import F64 Py Monitor Spec Shapes Examples Fixtures.
Import MonadFacts TextFacts.
Local Open Scope string_scope.
Local Open Scope Z_scope.

Lemma splitlines_line l rest :
  no_break l = true ->
  splitlines (l ++ String (ascii_of_N 10) rest) = l :: splitlines rest.
Proof.
  induction l as [|c l IH]; intros Hl.
  - destruct rest; reflexivity.
  - apply andb_prop in Hl as [Hc Hl]. rewrite app_cons_str.
    cbn [splitlines]. apply negb_true_iff in Hc. rewrite Hc.
    rewrite (IH Hl). reflexivity.
Qed.

Lemma splitlines_text ls :
  Forall (fun l => no_break l = true) ls -> splitlines (text ls) = ls.
Proof.
  induction 1 as [|l ls Hl _ IH]; [reflexivity|].
  rewrite text_cons, (splitlines_line l _ Hl), IH. reflexivity.
Qed.

Lemma split_on_free sep s : no_char sep s = true -> split_on sep s = [s].
Proof.
  induction s as [|c s IH]; [reflexivity|]. intros H.
  apply andb_prop in H as [Hc Hs]. cbn [split_on].
  apply negb_true_iff in Hc. rewrite Hc, (IH Hs). reflexivity.
Qed.

Lemma split_on_sep sep k s :
  no_char sep k = true ->
  split_on sep (k ++ String sep s) = k :: split_on sep s.
Proof.
  induction k as [|c k IH]; intros H.
  - change ("" ++ String sep s) with (String sep s). cbn [split_on].
    rewrite Ascii.eqb_refl. reflexivity.
  - apply andb_prop in H as [Hc Hk]. rewrite app_cons_str. cbn [split_on].
    apply negb_true_iff in Hc. rewrite Hc, (IH Hk). reflexivity.
Qed.

Lemma no_char_app x (s t : string) :
  no_char x (s ++ t) = no_char x s && no_char x t.
Proof. apply all_chars_app. Qed.

Lemma no_break_app (s t : string) :
  no_break (s ++ t) = no_break s && no_break t.
Proof. apply all_chars_app. Qed.

Lemma blanks_all_space s : blanks s = true -> all_space s = true.
Proof.
  induction s as [|c s IH]; [reflexivity|]. intros H.
  apply andb_prop in H as [Hc Hs]. cbn [all_space]. rewrite (IH Hs).
  unfold isspace, between.
  apply orb_prop in Hc as [Hc|Hc]; apply N.eqb_eq in Hc; rewrite Hc;
    reflexivity.
Qed.

Lemma blanks_plain x s :
  (code x =? 32)%N = false -> (code x =? 9)%N = false ->
  blanks s = true -> no_char x s = true.
Proof.
  intros H32 H9. apply all_chars_impl. intros c Hc.
  apply negb_true_iff. destruct (Ascii.eqb_spec c x) as [->|]; [|reflexivity].
  rewrite H32, H9 in Hc. discriminate Hc.
Qed.

Lemma blanks_no_break s : blanks s = true -> no_break s = true.
Proof.
  apply all_chars_impl. intros c Hc. unfold islinebreak, between.
  apply orb_prop in Hc as [Hc|Hc]; apply N.eqb_eq in Hc; rewrite Hc;
    reflexivity.
Qed.

Lemma numeral_all_chars p ds :
  (forall d, (d < 10)%nat -> p (digit_char d) = true) ->
  Forall (fun d => (d < 10)%nat) ds -> all_chars p (numeral ds) = true.
Proof.
  intros Hp. induction 1 as [|d ds Hd _ IH]; [reflexivity|].
  rewrite numeral_cons. cbn [all_chars]. now rewrite (Hp d Hd), IH.
Qed.

Lemma numeral_no_colon ds :
  Forall (fun d => (d < 10)%nat) ds -> no_char ":" (numeral ds) = true.
Proof.
  apply numeral_all_chars. intros d Hd.
  destruct (digit_char_facts d Hd) as (_ & _ & _ & -> & _). reflexivity.
Qed.

Lemma numeral_no_break ds :
  Forall (fun d => (d < 10)%nat) ds -> no_break (numeral ds) = true.
Proof.
  apply numeral_all_chars. intros d Hd.
  destruct (digit_char_facts d Hd) as (_ & _ & -> & _). reflexivity.
Qed.

Lemma entry_ok_parts e :
  entry_ok e = true ->
  no_char ":" (e_key e) = true /\ no_break (e_key e) = true /\
  blanks (e_pad e) = true /\ is_digits (e_digits e) = true.
Proof.
  unfold entry_ok, plain_key. intros H.
  apply andb_prop in H as [H Hd]. apply andb_prop in H as [H Hp].
  apply andb_prop in H as [Hk1 Hk2]. auto.
Qed.

Lemma unit_chars p (u : bool) :
  all_chars p " kB" = true -> all_chars p (if u then " kB" else "") = true.
Proof. destruct u; [trivial | reflexivity]. Qed.

(** One well-formed line stores its value under its key. *)
Lemma meminfo_line_entry mem e :
  entry_ok e = true ->
  meminfo_line mem (entry_line e)
  = Ok (<[e_key e := numeral_value (e_digits e)]> mem).
Proof.
  intros He. destruct (entry_ok_parts e He) as (Hk1 & Hk2 & Hp & Hd).
  destruct (is_digits_Forall _ Hd) as [_ HF].
  unfold meminfo_line, entry_line.
  change (e_key e ++ ":" ++ e_pad e ++ numeral (e_digits e)
          ++ (if e_unit e then " kB" else ""))
    with (e_key e ++ String ":" (e_pad e ++ numeral (e_digits e)
          ++ (if e_unit e then " kB" else ""))).
  rewrite (split_on_sep ":" _ _ Hk1).
  rewrite split_on_free.
  - rewrite split_ws_strip, (split_ws_all_space _ _ (blanks_all_space _ Hp)).
    destruct (e_unit e).
    + change (numeral (e_digits e) ++ " kB")
        with (numeral (e_digits e) ++ String " " "kB").
      rewrite (split_ws_word_space _ " " "kB" (is_word_numeral _ Hd) eq_refl).
      rewrite (int_numeral _ Hd). reflexivity.
    + rewrite app_nil_r_str, (split_ws_word _ (is_word_numeral _ Hd)).
      rewrite (int_numeral _ Hd). reflexivity.
  - rewrite !no_char_app.
    rewrite (blanks_plain ":" _ eq_refl eq_refl Hp).
    rewrite (numeral_no_colon _ HF).
    apply (unit_chars _ (e_unit e)). reflexivity.
Qed.

Lemma entry_line_no_break e : entry_ok e = true -> no_break (entry_line e) = true.
Proof.
  intros He. destruct (entry_ok_parts e He) as (Hk1 & Hk2 & Hp & Hd).
  destruct (is_digits_Forall _ Hd) as [_ HF].
  unfold entry_line. rewrite !no_break_app, Hk2.
  rewrite (blanks_no_break _ Hp), (numeral_no_break _ HF).
  apply (unit_chars _ (e_unit e)). reflexivity.
Qed.

Lemma foldM_entries es mem :
  Forall (fun e => entry_ok e = true) es ->
  foldM meminfo_line mem (map entry_line es)
  = Ok (fold_left (fun m e => <[e_key e := numeral_value (e_digits e)]> m)
          es mem).
Proof.
  intros H. revert mem. induction H as [|e es He _ IH]; intros mem;
    [reflexivity|].
  cbn [map foldM fold_left]. rewrite (meminfo_line_entry mem e He).
  cbn [rbind]. apply IH.
Qed.

(** X1. A meminfo file in the format of the kernel is parsed into the
    dict of its counters: each line [Key:], padding, a decimal numeral
    of at most 4300 digits and an optional [kB] stores the number under
    the key, a later line of the same key replacing an earlier one. *)
Theorem parse_meminfo_entries es :
  Forall (fun e => entry_ok e = true) es ->
  parse_meminfo (text (map entry_line es)) = Ok (entries_map es).
Proof.
  intros H. unfold parse_meminfo, entries_map.
  rewrite splitlines_text.
  - apply foldM_entries, H.
  - induction H as [|e es He _ IH]; constructor; [|exact IH].
    apply entry_line_no_break, He.
Qed.

Lemma parse_meminfo_entries_witness :
  (info <-- meminfo host_old_kernel;; parse_meminfo info)
  = Ok (entries_map old_kernel_entries).
Proof.
  apply (parse_meminfo_entries old_kernel_entries).
  repeat constructor.
Defined.

Lemma foldM_raise {A B} (f : B -> A -> result B) l a :
  In a l -> (forall b, exists e, f b a = Raise e) ->
  forall b, exists e, foldM f b l = Raise e.
Proof.
  intros Hin Ha. induction l as [|x l IH]; intros b; [destruct Hin|].
  cbn [foldM]. destruct Hin as [->|Hin].
  - destruct (Ha b) as [e ->]. eauto.
  - destruct (f b x) as [b'|e]; [|eauto]. cbn [rbind]. apply IH, Hin.
Qed.

(** X2. One line of /proc/meminfo with nothing but whitespace after its
    first colon, or with a first word there that is not an int literal,
    makes [get_mem_percent] return 0, whatever the other lines say. *)
Theorem meminfo_bad_line_gives_zero (os : platform) info l key p1 more :
  meminfo os = Ok info -> In l (splitlines info) ->
  split_on ":" l = key :: p1 :: more ->
  (all_space p1 = true \/
   exists v rest, split_ws p1 = v :: rest /\ parse_int v = None) ->
  get_mem_percent os = Ok (PyInt 0).
Proof.
  intros Hi Hin Hl Hbad. unfold get_mem_percent. rewrite Hi. cbn [rbind].
  unfold parse_meminfo.
  destruct (foldM_raise meminfo_line (splitlines info) l Hin) with (b := (∅ : gmap string Z))
    as [e ->]; [|reflexivity].
  intros mem. unfold meminfo_line. rewrite Hl, split_ws_strip.
  destruct Hbad as [Hsp | (v & rest & -> & Hv)].
  - rewrite <- (split_ws_strip p1), (Classifier.strip_all_space p1 Hsp).
    cbn. eauto.
  - unfold int. rewrite Hv. cbn. eauto.
Qed.

Lemma meminfo_bad_line_gives_zero_witness :
  get_mem_percent
    (host (text ["MemTotal:  100 kB"; "MemAvailable: 5 kB"; "Note: n/a"])
       (16, 1, 15))
  = Ok (PyInt 0).
Proof.
  apply (meminfo_bad_line_gives_zero _
           (text ["MemTotal:  100 kB"; "MemAvailable: 5 kB"; "Note: n/a"])
           "Note: n/a" "Note" " n/a" []).
  - reflexivity.
  - vm_compute. right. right. left. reflexivity.
  - reflexivity.
  - right. exists "n/a", []. split; reflexivity.
Defined.

End MeminfoParser.

(** ** The [--filter] option *)

Module FilterOption.
Import F64 Py Monitor Spec Shapes Examples Fixtures.
Import MonadFacts TextFacts MeminfoParser.
Local Open Scope string_scope.
Local Open Scope Z_scope.

Lemma rstrip_last s a r :
  rstrip s = String a r -> isspace (last_char a r) = false.
Proof.
  revert a r. induction s as [|c s IH]; intros a r; [discriminate|].
  cbn [rstrip]. destruct (rstrip s) as [|a' r'] eqn:Hr.
  - destruct (isspace c) eqn:Hc; [discriminate|].
    intros H. injection H as <- <-. exact Hc.
  - intros H. injection H as <- <-. cbn [last_char]. apply (IH a' r' eq_refl).
Qed.

Lemma rstrip_head c s :
  isspace c = false -> exists r, rstrip (String c s) = String c r.
Proof.
  intros Hc. cbn [rstrip]. destruct (rstrip s); rewrite ?Hc; eauto.
Qed.

Lemma lstrip_head s :
  lstrip s = "" \/ exists c s', lstrip s = String c s' /\ isspace c = false.
Proof.
  induction s as [|c s IH]; [left; reflexivity|]. cbn [lstrip].
  destruct (isspace c) eqn:Hc; [exact IH|]. right. eauto.
Qed.

Lemma strip_trimmed_or_empty s : strip s = "" \/ trimmed (strip s) = true.
Proof.
  unfold strip. destruct (lstrip_head s) as [-> | (c & s' & -> & Hc)];
    [left; reflexivity|].
  right. destruct (rstrip_head c s' Hc) as [r Hr]. rewrite Hr.
  cbn [trimmed]. rewrite Hc, (rstrip_last _ _ _ Hr). reflexivity.
Qed.

Lemma rstrip_trimmed c s :
  isspace (last_char c s) = false -> rstrip (String c s) = String c s.
Proof.
  revert c. induction s as [|c' s IH]; intros c H.
  - cbn [rstrip last_char] in *. rewrite H. reflexivity.
  - cbn [last_char] in H. specialize (IH c' H).
    change (rstrip (String c (String c' s)))
      with (match rstrip (String c' s) with
            | "" => if isspace c then "" else String c ""
            | r => String c r
            end).
    rewrite IH. reflexivity.
Qed.

Lemma strip_trimmed s : trimmed s = true -> strip s = s.
Proof.
  destruct s as [|c s]; [discriminate|]. cbn [trimmed]. intros H.
  apply andb_prop in H as [Hc Hl]. apply negb_true_iff in Hc, Hl.
  unfold strip. cbn [lstrip]. rewrite Hc. apply rstrip_trimmed, Hl.
Qed.

Lemma trimmed_nonempty s : trimmed s = true -> nonempty s = true.
Proof. destruct s; [discriminate | reflexivity]. Qed.

Lemma split_on_join k rest :
  Forall (fun x => no_char "," x = true) (k :: rest) ->
  split_on "," (join_comma (k :: rest)) = k :: rest.
Proof.
  revert k. induction rest as [|x rest IH]; intros k H.
  - cbn [join_comma fold_right]. rewrite app_nil_r_str.
    apply split_on_free. inversion H; assumption.
  - inversion H as [|? ? Hk Hrest]; subst.
    change (join_comma (k :: x :: rest))
      with (k ++ String "," (join_comma (x :: rest))).
    rewrite (split_on_sep "," k _ Hk), (IH x Hrest). reflexivity.
Qed.

(** X18. The keywords of a [--filter] value written by joining clean
    keywords (not empty, no comma, no whitespace at either end) with
    commas are these keywords, in order. *)
Theorem cli_keywords_round_trip kws :
  kws <> [] -> Forall (fun k => clean_keyword k = true) kws ->
  cli_keywords (Some (join_comma kws)) = Some kws.
Proof.
  intros Hne H. destruct kws as [|k rest]; [congruence|].
  assert (Hfree : Forall (fun x => no_char "," x = true) (k :: rest)).
  { eapply List.Forall_impl; [|exact H]. intros x Hx.
    apply andb_prop in Hx as [_ Hx]. exact Hx. }
  assert (Htrim : Forall (fun x => trimmed x = true) (k :: rest)).
  { eapply List.Forall_impl; [|exact H]. intros x Hx.
    apply andb_prop in Hx as [Hx _]. exact Hx. }
  unfold cli_keywords.
  replace (nonempty (join_comma (k :: rest))) with true.
  - rewrite (split_on_join k rest Hfree). f_equal.
    clear Hne H Hfree. induction Htrim as [|x l Hx _ IH]; [reflexivity|].
    cbn [map List.filter]. rewrite (strip_trimmed x Hx).
    rewrite (trimmed_nonempty x Hx). f_equal. exact IH.
  - inversion Htrim as [|? ? Hk _]; subst.
    destruct k; [discriminate Hk | reflexivity].
Qed.

Lemma cli_keywords_round_trip_witness :
  cli_keywords (Some "forge,Paper MC,kubejs") = Some ["forge"; "Paper MC"; "kubejs"].
Proof.
  apply (cli_keywords_round_trip ["forge"; "Paper MC"; "kubejs"]).
  - discriminate.
  - repeat constructor.
Defined.

Lemma all_chars_lstrip p s :
  all_chars p s = true -> all_chars p (lstrip s) = true.
Proof.
  induction s as [|c s IH]; [reflexivity|]. intros H. cbn [lstrip].
  destruct (isspace c); [|exact H].
  apply andb_prop in H as [_ H]. apply IH, H.
Qed.

Lemma all_chars_rstrip p s :
  all_chars p s = true -> all_chars p (rstrip s) = true.
Proof.
  induction s as [|c s IH]; [reflexivity|]. intros H.
  apply andb_prop in H as [Hc Hs]. specialize (IH Hs). cbn [rstrip].
  destruct (rstrip s) as [|a r].
  - destruct (isspace c); [reflexivity|]. cbn [all_chars]. now rewrite Hc.
  - change (all_chars p (String c (String a r)))
      with (p c && all_chars p (String a r)). now rewrite Hc, IH.
Qed.

Lemma split_on_pieces sep s :
  Forall (fun x => no_char sep x = true) (split_on sep s).
Proof.
  induction s as [|c s IH]; [repeat constructor|]. cbn [split_on].
  destruct (Ascii.eqb c sep) eqn:Hc.
  - constructor; [reflexivity | exact IH].
  - destruct (split_on sep s) as [|w ws].
    + constructor; [|constructor]. unfold no_char. cbn [all_chars].
      now rewrite Hc.
    + inversion IH as [|? ? Hw Hws]; subst. constructor; [|exact Hws].
      unfold no_char in *. cbn [all_chars]. now rewrite Hc, Hw.
Qed.

(** X19. Whatever the value of [--filter], no keyword handed to
    [watch_java] is empty, starts or ends with whitespace, or holds a
    comma. *)
Theorem cli_keywords_clean f kws :
  cli_keywords (Some f) = Some kws ->
  Forall (fun k => clean_keyword k = true) kws.
Proof.
  unfold cli_keywords. destruct (nonempty f); [|discriminate].
  intros H. injection H as <-.
  pose proof (split_on_pieces "," f) as HF.
  induction HF as [|x l Hx _ IH]; [constructor|].
  cbn [map List.filter].
  destruct (strip_trimmed_or_empty x) as [-> | Ht]; [exact IH|].
  rewrite (trimmed_nonempty _ Ht). constructor; [|exact IH].
  unfold clean_keyword. rewrite Ht. cbn [andb].
  apply all_chars_rstrip, all_chars_lstrip, Hx.
Qed.

Lemma cli_keywords_clean_witness :
  Forall (fun k => clean_keyword k = true) ["forge"; "paper"].
Proof.
  apply (cli_keywords_clean " forge ,, paper,").
  reflexivity.
Defined.

End FilterOption.

(** ** The command line of a process *)

Module CmdlineReader.
Import F64 Py Monitor Spec Shapes Examples.
Local Open Scope string_scope.
Local Open Scope Z_scope.

Lemma replace_nul_id a : no_nul a = true -> replace_nul a = a.
Proof.
  induction a as [|c a IH]; [reflexivity|]. cbn [no_nul forallb replace_nul map].
  intros H. apply andb_prop in H as [Hc Ha]. apply negb_true_iff in Hc.
  rewrite Hc. f_equal. apply IH, Ha.
Qed.

Lemma replace_nul_file args :
  Forall (fun a => no_nul a = true) args ->
  replace_nul (cmdline_file args)
  = concat (map (fun a => a ++ [" "%char])%list args).
Proof.
  induction 1 as [|a args Ha _ IH]; [reflexivity|].
  unfold cmdline_file in *. cbn [map concat].
  unfold replace_nul in *. rewrite !map_app, IH.
  fold (replace_nul a). rewrite (replace_nul_id a Ha). reflexivity.
Qed.

Lemma concat_join a rest :
  concat (map (fun a => a ++ [" "%char])%list (a :: rest))
  = (join_space (a :: rest) ++ [" "%char])%list.
Proof.
  revert a. induction rest as [|b rest IH]; intros a.
  - cbn [map concat join_space]. now rewrite !app_nil_r.
  - change (concat (map (fun a => a ++ [" "%char])%list (a :: b :: rest)))
      with ((a ++ [" "%char])
            ++ concat (map (fun a => a ++ [" "%char])%list (b :: rest)))%list.
    rewrite IH. cbn [join_space map concat].
    rewrite <- !app_assoc. reflexivity.
Qed.

Lemma lstrip_bytes_head X :
  isspace_byte (List.hd " "%char X) = false -> lstrip_bytes X = X.
Proof.
  destruct X as [|c X]; [reflexivity|]. cbn [hd lstrip_bytes].
  intros ->. reflexivity.
Qed.

Lemma strip_bytes_trailing X :
  isspace_byte (List.hd " "%char X) = false ->
  isspace_byte (List.last X " "%char) = false ->
  strip_bytes (X ++ [" "%char])%list = X.
Proof.
  intros Hh Hl. unfold strip_bytes.
  destruct X as [|c X]; [discriminate Hh|].
  cbn [hd] in Hh. change ((c :: X) ++ [" "%char])%list with (c :: X ++ [" "%char])%list.
  cbn [lstrip_bytes]. rewrite Hh.
  change (c :: X ++ [" "%char])%list with ((c :: X) ++ [" "%char])%list.
  rewrite rev_unit. cbn [lstrip_bytes].
  change (isspace_byte " ") with true. cbv iota.
  destruct (exists_last (l := c :: X) ltac:(discriminate)) as (X' & z & HX).
  rewrite HX in *. rewrite last_last in Hl. rewrite rev_unit.
  cbn [lstrip_bytes]. rewrite Hl.
  rewrite <- (rev_unit X' z), rev_involutive. reflexivity.
Qed.

(** X9. The command line of a process whose cmdline file holds the
    arguments, each followed by a NUL byte, is the arguments joined by
    single spaces and decoded, provided that text neither starts nor
    ends with whitespace. *)
Theorem get_cmdline_joins_args (os : platform) pid args :
  proc_cmdline os pid = Ok (cmdline_file args) ->
  Forall (fun a => no_nul a = true) args ->
  isspace_byte (List.hd " "%char (join_space args)) = false ->
  isspace_byte (List.last (join_space args) " "%char) = false ->
  get_cmdline os pid = Ok (decode_ignore os (join_space args)).
Proof.
  intros Hc Hn Hh Hl. unfold get_cmdline. rewrite Hc. cbn [rbind try_except].
  rewrite (replace_nul_file args Hn).
  destruct args as [|a rest]; [discriminate Hh|].
  rewrite concat_join. do 2 f_equal. exact (strip_bytes_trailing _ Hh Hl).
Qed.

Lemma get_cmdline_joins_args_witness :
  get_cmdline host_old_kernel 10 = Ok "java -jar MyForgeServer.jar".
Proof.
  apply (get_cmdline_joins_args host_old_kernel 10
           [list_ascii_of_string "java"; list_ascii_of_string "-jar";
            list_ascii_of_string "MyForgeServer.jar"]).
  - reflexivity.
  - repeat constructor.
  - reflexivity.
  - reflexivity.
Defined.

End CmdlineReader.

(** ** The live table and the snapshot listing *)

Module Tables.
Import F64 Py Monitor Spec Shapes Examples SortFacts MonadFacts.
Local Open Scope string_scope.
Local Open Scope Z_scope.

Lemma watch_row_parts os kws pid r :
  watch_row os kws pid = Ok r ->
  get_cmdline os pid = Ok (row_cmd r) /\ row_pid r = pid /\
  row_score r = score (row_cmd r) kws.
Proof.
  unfold watch_row. intros Hr.
  destruct (get_rss_kb os pid); [|discriminate Hr]. cbn [rbind] in Hr.
  destruct (to_mb _); [|discriminate Hr]. cbn [rbind] in Hr.
  destruct (get_cmdline os pid); [|discriminate Hr]. cbn [rbind] in Hr.
  injection Hr as <-. repeat split.
Qed.

Lemma watch_rows_parts os kws rows :
  watch_rows os kws = Ok rows ->
  Forall (fun r => get_cmdline os (row_pid r) = Ok (row_cmd r) /\
                   row_score r = score (row_cmd r) kws) rows.
Proof.
  unfold watch_rows. intros Hr.
  destruct (find_java_pids os) as [pids|e]; [|discriminate Hr].
  cbn [rbind] in Hr.
  destruct (mapM (watch_row os kws) pids) as [rs|e] eqn:Hrs;
    [|discriminate Hr].
  cbn [rbind] in Hr. injection Hr as <-.
  apply (Permutation_Forall (sort_desc_perm key2_ltb row_key rs)).
  pose proof (mapM_Forall2 _ _ _ Hrs) as HF. clear Hrs.
  induction HF as [|pid r l l' Hrow _ IH]; constructor; [|exact IH].
  destruct (watch_row_parts os kws pid r Hrow) as (Hc & Hp & Hs).
  rewrite Hp. split; assumption.
Qed.

Lemma render_rows rows l :
  In l (render rows) -> row_mark l <> None ->
  exists r, In r rows /\ l = render_row r.
Proof.
  unfold render. destruct rows as [|r0 rows].
  - intros [<-|[<-|[]]] H; exfalso; apply H; reflexivity.
  - intros [<-|Hin] H; [exfalso; apply H; reflexivity|].
    apply in_app_or in Hin as [Hin|[<-|[]]].
    + apply in_map_iff in Hin as (r & <- & Hr). eauto.
    + exfalso; apply H; reflexivity.
Qed.

Lemma score_positive cmd kws :
  0 < score cmd kws <-> exists kw, In kw kws /\ ci_substring kw cmd.
Proof.
  unfold score. rewrite Classifier.score_step.
  split.
  - intros H.
    destruct (List.filter (fun kw => ci_contains kw cmd) kws) as [|kw l] eqn:Hf;
      [cbn in H; lia|].
    assert (Hin : In kw (List.filter (fun kw => ci_contains kw cmd) kws))
      by (rewrite Hf; left; reflexivity).
    apply filter_In in Hin as [Hin Hc]. exists kw. split; [exact Hin|].
    apply Classifier.ci_contains_spec, Hc.
  - intros (kw & Hin & Hs). apply Classifier.ci_contains_spec in Hs.
    assert (Hf : In kw (List.filter (fun kw => ci_contains kw cmd) kws))
      by (apply filter_In; split; assumption).
    destruct (List.filter (fun kw => ci_contains kw cmd) kws); [destruct Hf|].
    cbn [length]. lia.
Qed.

Lemma score_positive_hit cmd kws :
  0 < score cmd kws <->
  exists kw, In kw kws /\ contains (lower kw) (lower cmd) = true.
Proof.
  rewrite score_positive. split; intros (kw & Hin & H); exists kw;
    (split; [exact Hin|]).
  - rewrite Classifier.contains_lower. apply Classifier.ci_contains_spec, H.
  - apply Classifier.ci_contains_spec. rewrite <- Classifier.contains_lower.
    exact H.
Qed.

(** X11. A row of the live table carries the star exactly when the
    test of the scoring loop, [kw.lower() in cmd.lower()], holds of one
    of the keywords and the command line of its process; otherwise it
    carries a space. *)
Theorem starred_iff_keyword (os : platform) kws screen m pid mb short :
  watch_cycle os kws = Ok screen ->
  In (TableRow m pid mb short) screen ->
  (m = "*" \/ m = " ") /\
  (m = "*" <->
   exists cmd kw,
     get_cmdline os pid = Ok cmd /\ In kw kws /\
     contains (lower kw) (lower cmd) = true).
Proof.
  unfold watch_cycle. intros Hc Hin.
  destruct (watch_rows os kws) as [rows|e] eqn:Hrows; [|discriminate Hc].
  cbn [rbind] in Hc. injection Hc as <-.
  destruct (render_rows rows _ Hin) as (r & Hr & Heq); [discriminate|].
  pose proof (watch_rows_parts os kws rows Hrows) as HF.
  rewrite List.Forall_forall in HF. destruct (HF r Hr) as [Hcmd Hsc].
  unfold render_row in Heq. injection Heq as -> -> _ _.
  rewrite Hsc. unfold mark.
  pose proof (score_positive_hit (row_cmd r) kws) as Hpos.
  destruct (Z.ltb_spec 0 (score (row_cmd r) kws)) as [Hlt|Hge].
  - split; [left; reflexivity|]. split; [|reflexivity]. intros _.
    destruct (proj1 Hpos Hlt) as (kw & Hkw & Hsub). eauto.
  - split; [right; reflexivity|]. split; [discriminate|].
    intros (cmd & kw & Hcmd' & Hkw & Hsub). exfalso.
    rewrite Hcmd in Hcmd'. injection Hcmd' as <-.
    assert (0 < score (row_cmd r) kws) by (apply Hpos; eauto). lia.
Qed.

Lemma starred_iff_keyword_witness :
  "*" = "*" <->
  exists cmd kw,
    get_cmdline host_old_kernel 10 = Ok cmd /\ In kw ["forge"] /\
    contains (lower kw) (lower cmd) = true.
Proof.
  refine (proj2 (starred_iff_keyword host_old_kernel ["forge"]
            [TableHeader;
             TableRow "*" 10 (of_int 2) "java -jar MyForgeServer.jar";
             TableRow " " 20 (of_int 2) "java -version";
             TableRow " " 30 (of_int 0) "";
             Footer]
            "*" 10 (of_int 2) "java -jar MyForgeServer.jar" _ _)).
  - vm_compute. reflexivity.
  - right. left. reflexivity.
Defined.

Lemma StronglySorted_app_one {A} (R : A -> A -> Prop) l z :
  StronglySorted R l -> Forall (fun a => R a z) l ->
  StronglySorted R (l ++ [z]).
Proof.
  induction 1 as [|a l Hl IH Ha]; intros Hz.
  - repeat constructor.
  - inversion Hz as [|? ? Haz Hlz]; subst. cbn [app]. constructor.
    + apply IH, Hlz.
    + apply Forall_app. split; [exact Ha|]. constructor; [exact Haz|constructor].
Qed.

Lemma StronglySorted_map {A B} (R : A -> A -> Prop) (S : B -> B -> Prop)
    (f : A -> B) l :
  (forall a b, R a b -> S (f a) (f b)) ->
  StronglySorted R l -> StronglySorted S (map f l).
Proof.
  intros HRS. induction 1 as [|a l Hl IH Ha]; cbn [map]; constructor.
  - exact IH.
  - apply Forall_map. eapply List.Forall_impl; [|exact Ha].
    intros b. apply HRS.
Qed.

(** X12. In the live table no starred row stands below an unmarked one. *)
Theorem starred_rows_first (os : platform) kws screen :
  watch_cycle os kws = Ok screen -> StronglySorted star_order screen.
Proof.
  unfold watch_cycle. intros Hc.
  destruct (watch_rows os kws) as [rows|e] eqn:Hrows; [|discriminate Hc].
  cbn [rbind] in Hc. injection Hc as <-.
  assert (Hsorted : StronglySorted
            (fun a b => key2_ltb (row_key a) (row_key b) = false) rows).
  { unfold watch_rows in Hrows.
    destruct (find_java_pids os); [|discriminate Hrows]. cbn [rbind] in Hrows.
    destruct (mapM _ _); [|discriminate Hrows]. cbn [rbind] in Hrows.
    injection Hrows as <-.
    apply sort_desc_sorted; [apply key2_ltb_asym | apply key2_ltb_negtrans]. }
  unfold render. destruct rows as [|r0 rows].
  - repeat constructor; discriminate.
  - constructor.
    + apply StronglySorted_app_one.
      * revert Hsorted. apply StronglySorted_map. intros a b Hab.
        unfold star_order, render_row, mark. cbn [row_mark].
        unfold key2_ltb, row_key in Hab. cbn [fst snd] in Hab.
        destruct (Z.ltb_spec 0 (row_score a)); [discriminate|].
        destruct (Z.ltb_spec 0 (row_score b)); [|discriminate].
        intros _ _.
        destruct (Z.eqb_spec (row_score a) (row_score b)); [lia|].
        cbn [negb] in Hab. apply Z.ltb_ge in Hab. lia.
      * apply List.Forall_forall. intros l _. intros _. discriminate.
    + apply List.Forall_forall. intros l _. discriminate.
Qed.

Lemma starred_rows_first_witness :
  StronglySorted star_order
    [TableHeader;
     TableRow "*" 10 (of_int 2) "java -jar MyForgeServer.jar";
     TableRow " " 20 (of_int 2) "java -version";
     TableRow " " 30 (of_int 0) "";
     Footer].
Proof.
  apply (starred_rows_first host_old_kernel ["forge"]).
  vm_compute. reflexivity.
Defined.

Lemma main_detail_of_row os kws pid :
  main_detail os pid = (r <-- watch_row os kws pid;; Ok (row_detail r)).
Proof.
  unfold main_detail, watch_row, get_cmdline.
  destruct (get_rss_kb os pid); [|reflexivity]. cbn [rbind].
  destruct (to_mb _); [|reflexivity]. cbn [rbind].
  destruct (try_except _ _); reflexivity.
Qed.

Lemma mapM_details os kws pids :
  mapM (main_detail os) pids
  = (rs <-- mapM (watch_row os kws) pids;; Ok (map row_detail rs)).
Proof.
  induction pids as [|pid pids IH]; [reflexivity|]. cbn [mapM].
  rewrite (main_detail_of_row os kws pid), IH.
  destruct (watch_row os kws pid); [|reflexivity]. cbn [rbind].
  destruct (mapM (watch_row os kws) pids); reflexivity.
Qed.

Section SortMap.
Context {A B K1 K2 : Type}.
Context (ltb1 : K1 -> K1 -> bool) (key1 : A -> K1).
Context (ltb2 : K2 -> K2 -> bool) (key2 : B -> K2) (f : A -> B).

Lemma insert_desc_map x l :
  Forall (fun y => ltb1 (key1 x) (key1 y) = ltb2 (key2 (f x)) (key2 (f y))) l ->
  map f (insert_desc ltb1 key1 x l) = insert_desc ltb2 key2 (f x) (map f l).
Proof.
  induction 1 as [|y l Hy _ IH]; [reflexivity|].
  cbn [insert_desc map]. rewrite <- Hy.
  destruct (ltb1 (key1 x) (key1 y)); [|reflexivity].
  cbn [map]. now rewrite IH.
Qed.

Lemma sort_desc_map l :
  (forall x y, In x l -> In y l ->
     ltb1 (key1 x) (key1 y) = ltb2 (key2 (f x)) (key2 (f y))) ->
  map f (sort_desc ltb1 key1 l) = sort_desc ltb2 key2 (map f l).
Proof.
  induction l as [|x l IH]; intros H; [reflexivity|].
  cbn [sort_desc map]. rewrite <- IH.
  - apply insert_desc_map. apply List.Forall_forall. intros y Hy.
    apply H; [left; reflexivity|]. right.
    eapply Permutation_in;
      [symmetry; apply (sort_desc_perm ltb1 key1 l) | exact Hy].
  - intros a b Ha Hb. apply H; right; assumption.
Qed.
End SortMap.

(** X13. On one state of the host the two modes report the same
    processes with the same MB and command lines: the snapshot listing
    is a rearrangement of the rows of the live table, and has the very
    order of the table when all rows have the same score. *)
Theorem modes_agree (os : platform) kws pids rows :
  find_java_pids os = Ok pids -> watch_rows os kws = Ok rows ->
  exists ds,
    main_details os pids = Ok ds /\
    Permutation (map row_detail rows) ds /\
    ((forall r r', In r rows -> In r' rows -> row_score r = row_score r') ->
     map row_detail rows = ds).
Proof.
  intros Hp Hr. unfold watch_rows in Hr. rewrite Hp in Hr. cbn [rbind] in Hr.
  destruct (mapM (watch_row os kws) pids) as [rs|e] eqn:Hrs;
    [|discriminate Hr].
  cbn [rbind] in Hr. injection Hr as <-.
  unfold main_details. rewrite (mapM_details os kws pids), Hrs. cbn [rbind].
  eexists. split; [reflexivity|]. split.
  - unfold rank, sort_details.
    rewrite <- (sort_desc_perm fltb (fun d : detail => d.1.2)
                  (map row_detail rs)).
    apply Permutation_map. symmetry. apply sort_desc_perm.
  - intros Hsame. unfold rank, sort_details. apply sort_desc_map.
    intros x y Hx Hy.
    assert (Hxy : row_score x = row_score y).
    { apply Hsame; eapply Permutation_in;
        try apply (sort_desc_perm key2_ltb row_key rs); assumption. }
    unfold key2_ltb, row_key, row_detail. cbn [fst snd]. rewrite Hxy.
    rewrite Z.eqb_refl. cbn [negb].
    unfold feqb, fltb.
    destruct (Z.eqb_spec (units (row_mb x)) (units (row_mb y))) as [->|];
      [|reflexivity].
    cbn [negb]. symmetry. apply Z.ltb_irrefl.
Qed.

Lemma modes_agree_witness :
  exists ds,
    main_details host_old_kernel [10; 20; 30] = Ok ds /\
    Permutation
      (map row_detail
         [(0, 10, of_int 2, "java -jar MyForgeServer.jar");
          (0, 20, of_int 2, "java -version");
          (0, 30, of_int 0, "")]) ds.
Proof.
  destruct (modes_agree host_old_kernel ["paper"] [10; 20; 30]
              [(0, 10, of_int 2, "java -jar MyForgeServer.jar");
               (0, 20, of_int 2, "java -version");
               (0, 30, of_int 0, "")])
    as (ds & Hds & Hperm & _).
  - vm_compute. reflexivity.
  - vm_compute. reflexivity.
  - exists ds. split; assumption.
Defined.

End Tables.

(** ** The bound of the MB conversion *)

Module Bounds.
Import F64 Py Monitor Spec Shapes Examples Fixtures.
Import F64Facts NumFacts RoundMono MonadFacts ProcessScanner TextFacts.
Local Open Scope string_scope.
Local Open Scope Z_scope.

Lemma to_mb_overflow z : 2 ^ 1034 <= z -> to_mb z = Raise OverflowError.
Proof.
  intros Hz. unfold to_mb, truediv. change (1024 =? 0) with false. cbv iota.
  pose proof one_k_pos as Hone.
  rewrite (Z.abs_eq z) by lia. change (Z.abs 1024) with 1024.
  assert (H : huge_k <= round_grid (z * one_k) 1024).
  { replace huge_k with (round_grid (2 ^ 1034 * one_k) 1024)
      by (vm_compute; reflexivity).
    apply round_grid_mono; try lia. nia. }
  apply Z.leb_le in H. rewrite H. reflexivity.
Qed.

Lemma to_mb_raises z e : to_mb z = Raise e -> e = OverflowError.
Proof.
  unfold to_mb, truediv. change (1024 =? 0) with false. cbv iota.
  destruct (huge_k <=? _); [intros H; injection H as <-; reflexivity|].
  cbn [rbind]. unfold round1, signed.
  repeat match goal with
         | |- context [if ?b then _ else _] => destruct b
         end; intros H; try discriminate H; injection H as <-; reflexivity.
Qed.

Lemma watch_row_raises os kws pid e :
  watch_row os kws pid = Raise e -> e = OverflowError.
Proof.
  unfold watch_row. destruct (get_rss_kb_returns os pid) as [z ->].
  cbn [rbind]. destruct (to_mb z) as [mb|e'] eqn:Hmb.
  - cbn [rbind]. destruct (get_cmdline_returns os pid) as [cmd ->].
    discriminate.
  - cbn [rbind]. intros H. injection H as <-. apply (to_mb_raises z), Hmb.
Qed.

Lemma mapM_raise_only {A B} (f : A -> result B) l a E :
  (forall x e, f x = Raise e -> e = E) ->
  In a l -> f a = Raise E -> mapM f l = Raise E.
Proof.
  intros Honly. induction l as [|x l IH]; intros Hin Ha; [destruct Hin|].
  cbn [mapM]. destruct (f x) as [b|e] eqn:Hx.
  - cbn [rbind]. destruct Hin as [->|Hin]; [congruence|].
    rewrite (IH Hin Ha). reflexivity.
  - cbn [rbind]. rewrite (Honly x e Hx). reflexivity.
Qed.

Lemma vmrss_numeral_read (os : platform) pid pre pad ds c tail rest :
  proc_status os pid
    = lines_then pre
        (Line ("VmRSS:" ++ pad ++ numeral ds ++ String c tail) rest) ->
  Forall (fun l => startswith "VmRSS:" l = false) pre ->
  pad <> "" -> all_space pad = true ->
  ds <> [] -> forallb (fun d => (d <? 10)%nat) ds = true ->
  isspace c = true ->
  get_rss_kb os pid
  = Ok (if (4300 <? length ds)%nat then 0 else numeral_value ds).
Proof.
  intros Hst Hpre Hpad Hsp Hne Hds Hc.
  assert (HF : Forall (fun d => (d < 10)%nat) ds).
  { apply List.Forall_forall. intros x Hx.
    rewrite forallb_forall in Hds. apply Nat.ltb_lt, Hds, Hx. }
  assert (Hw : is_word (numeral ds) = true).
  { unfold is_word. rewrite (no_space_numeral ds HF).
    destruct ds; [congruence | reflexivity]. }
  unfold get_rss_kb. rewrite Hst.
  rewrite (RssReader.scan_status_skip pre _ Hpre). cbn [scan_status].
  change (startswith "VmRSS:" ("VmRSS:" ++ pad ++ numeral ds ++ String c tail))
    with true. cbv iota.
  destruct pad as [|p pad]; [congruence|].
  cbn [all_space] in Hsp. apply andb_prop in Hsp as [Hp Hsp].
  change (String p pad ++ numeral ds ++ String c tail)
    with (String p (pad ++ numeral ds ++ String c tail)).
  rewrite (split_ws_word_space "VmRSS:" p _ eq_refl Hp).
  rewrite (split_ws_all_space pad _ Hsp).
  rewrite (split_ws_word_space (numeral ds) c tail Hw Hc).
  unfold int. rewrite (parse_int_numeral ds Hne HF).
  destruct (4300 <? length ds)%nat; reflexivity.
Qed.

(** X14. The conversion to MB is outside every [try]: when the first
    [VmRSS:] line of the status file of one discovered process holds a
    numeral of at most 4300 digits that denotes [2^1034] kB or more,
    both modes end with [OverflowError]. A numeral of more than 4300
    digits is one [int] refuses, and the resident size reads as 0. *)
Theorem huge_rss_overflows (os : platform) pids pid pre pad ds c tail rest :
  find_java_pids os = Ok pids -> In pid pids ->
  proc_status os pid
    = lines_then pre
        (Line ("VmRSS:" ++ pad ++ numeral ds ++ String c tail) rest) ->
  Forall (fun l => startswith "VmRSS:" l = false) pre ->
  pad <> "" -> all_space pad = true ->
  ds <> [] -> forallb (fun d => (d <? 10)%nat) ds = true ->
  isspace c = true ->
  ((length ds <= 4300)%nat -> 2 ^ 1034 <= numeral_value ds ->
   main os = Raise OverflowError /\
   forall kws, watch_cycle os kws = Raise OverflowError) /\
  ((4300 < length ds)%nat -> get_rss_kb os pid = Ok 0).
Proof.
  intros Hp Hin Hst Hpre Hpad Hsp Hne Hds Hc.
  pose proof (vmrss_numeral_read os pid pre pad ds c tail rest
                Hst Hpre Hpad Hsp Hne Hds Hc) as Hread.
  split.
  - intros Hlen Hbig.
    assert (Hz : get_rss_kb os pid = Ok (numeral_value ds)).
    { rewrite Hread.
      destruct (Nat.ltb_spec 4300 (length ds)); [lia|reflexivity]. }
    clear Hread. set (z := numeral_value ds) in *.
    assert (Hrow : forall kws, watch_row os kws pid = Raise OverflowError).
    { intros kws. unfold watch_row. rewrite Hz. cbn [rbind].
      rewrite (to_mb_overflow z Hbig). reflexivity. }
    split.
    + unfold main.
      destruct (try_except_returns
                  (info <-- meminfo os;;
                   mem <-- parse_meminfo info;;
                   if mem_total mem =? 0 then Ok (PyInt 0)
                   else r <-- percent (mem_total mem - mem_avail mem)
                                (mem_total mem);; Ok (PyFloat r))
                  (Ok (PyInt 0)) (returns_ok _)) as [m Hm].
      unfold get_mem_percent. rewrite Hm. cbn [rbind].
      destruct (try_except_returns
                  (usage <-- disk_usage os "/";;
                   let '(total, used, free) := usage in
                   r <-- percent used total;; Ok (PyFloat r))
                  (Ok (PyInt 0)) (returns_ok _)) as [d Hd].
      unfold get_disk_percent. rewrite Hd. cbn [rbind].
      rewrite Hp. cbn [rbind].
      destruct pids as [|p pids]; [destruct Hin|].
      unfold main_details. rewrite (Tables.mapM_details os [] (p :: pids)).
      rewrite (mapM_raise_only (watch_row os []) (p :: pids) pid OverflowError
                 (watch_row_raises os []) Hin (Hrow [])).
      reflexivity.
    + intros kws. unfold watch_cycle, watch_rows. rewrite Hp. cbn [rbind].
      rewrite (mapM_raise_only (watch_row os kws) pids pid OverflowError
                 (watch_row_raises os kws) Hin (Hrow kws)).
      reflexivity.
  - intros Hlen. rewrite Hread.
    destruct (Nat.ltb_spec 4300 (length ds)); [reflexivity|lia].
Qed.

Lemma huge_rss_overflows_witness :
  (main host_huge = Raise OverflowError /\
   forall kws, watch_cycle host_huge kws = Raise OverflowError) /\
  get_rss_kb host_long 7 = Ok 0.
Proof.
  split.
  - refine (proj1 (huge_rss_overflows host_huge [7] 7 [] "  "
                     (1 :: repeat 0 320)%nat " " ("kB" ++ nl) Eof
                     _ _ _ _ _ _ _ _ _) _ _).
    + reflexivity.
    + left. reflexivity.
    + vm_compute. reflexivity.
    + constructor.
    + discriminate.
    + reflexivity.
    + discriminate.
    + vm_compute. reflexivity.
    + reflexivity.
    + vm_compute. lia.
    + apply closed_le. vm_compute. reflexivity.
  - refine (proj2 (huge_rss_overflows host_long [7] 7 [] "  "
                     (1 :: repeat 0 4300)%nat " " ("kB" ++ nl) Eof
                     _ _ _ _ _ _ _ _ _) _).
    + reflexivity.
    + left. reflexivity.
    + vm_compute. reflexivity.
    + constructor.
    + discriminate.
    + reflexivity.
    + discriminate.
    + vm_compute. reflexivity.
    + reflexivity.
    + vm_compute. lia.
Defined.

End Bounds.

(** ** Accuracy of the reported numbers *)

Module Accuracy.
Import F64 Py Monitor Spec Shapes Examples F64Facts NumFacts RoundMono Usage.
Local Open Scope string_scope.
Local Open Scope Z_scope.

Lemma round_half_even_scale a b c :
  0 < b -> 0 < c -> round_half_even (a * c) (b * c) = round_half_even a b.
Proof.
  intros Hb Hc. unfold round_half_even.
  rewrite Z.div_mul_cancel_r by lia.
  rewrite Z.mul_mod_distr_r by lia.
  set (q := a / b). set (r := a mod b).
  assert (Hcmp : (2 * (r * c) ?= b * c) = (2 * r ?= b)).
  { destruct (Z.compare_spec (2 * r) b) as [H|H|H].
    - apply Z.compare_eq_iff. nia.
    - apply Z.compare_lt_iff. nia.
    - apply Z.compare_gt_iff. nia. }
  rewrite Hcmp. reflexivity.
Qed.

(** A quotient the format holds is not changed by the rounding. *)
Lemma round_grid_exact m e d :
  0 <= m < 2 ^ 53 -> 0 <= e -> 0 < d ->
  round_grid (m * 2 ^ e * d) d = m * 2 ^ e.
Proof.
  intros Hm He Hd. unfold round_grid, ulp_shift.
  rewrite Z.div_mul by lia.
  set (s := Z.max (Z.log2 (m * 2 ^ e) - 52) 0).
  assert (Hs : 0 <= s <= e).
  { subst s. destruct (Z.eq_dec m 0) as [->|Hm0].
    - rewrite Z.mul_0_l. change (Z.log2 0) with 0. lia.
    - rewrite Z.log2_mul_pow2 by lia.
      assert (Z.log2 m < 53) by (apply Z.log2_lt_pow2; lia). lia. }
  replace (m * 2 ^ e * d) with (m * 2 ^ (e - s) * (d * 2 ^ s)).
  - rewrite round_half_even_exact by (pose proof (Z.pow_pos_nonneg 2 s); nia).
    rewrite <- Z.mul_assoc, <- Z.pow_add_r by lia. do 2 f_equal. lia.
  - replace (2 ^ e) with (2 ^ (e - s) * 2 ^ s)
      by (rewrite <- Z.pow_add_r by lia; f_equal; lia).
    ring.
Qed.

Lemma mb_units_exact z :
  0 <= z < 2 ^ 53 ->
  mb_units z = grid_of_tenths (round_half_even (10 * z) 1024).
Proof.
  intros Hz. unfold mb_units.
  replace (z * one_k) with (z * 2 ^ 1064 * 1024)
    by (unfold one_k, unit_exp; change (2 ^ 1074) with (2 ^ 1064 * 1024); ring).
  rewrite round_grid_exact by lia.
  unfold tenths. rewrite Z.abs_eq by (pose proof (Z.pow_pos_nonneg 2 1064); nia).
  replace (10 * (z * 2 ^ 1064)) with (10 * z * 2 ^ 1064) by ring.
  replace one_k with (1024 * 2 ^ 1064)
    by (unfold one_k, unit_exp; change (2 ^ 1074) with (1024 * 2 ^ 1064);
        reflexivity).
  rewrite round_half_even_scale by lia. reflexivity.
Qed.

(** X20. For a resident size below [2^53] kB the MB value is free of
    floating-point artefacts: it is the float written [t/10] for the
    integer [t] nearest to ten times the exact quotient [rss/1024],
    the even one when the quotient lies half-way. *)
Theorem to_mb_exact z :
  0 <= z < 2 ^ 53 ->
  exists t,
    to_mb z = Ok (tenth t) /\ 0 <= t /\
    2 * Z.abs (1024 * t - 10 * z) <= 1024 /\
    (2 * Z.abs (1024 * t - 10 * z) = 1024 -> Z.even t = true).
Proof.
  intros Hz. exists (round_half_even (10 * z) 1024).
  destruct (round_half_even_cases (10 * z) 1024 ltac:(lia))
    as (Hq & Hnear & Htie).
  assert (Ht : 0 <= round_half_even (10 * z) 1024).
  { pose proof (Z.div_pos (10 * z) 1024). lia. }
  split; [|split; [exact Ht|split]].
  - rewrite to_mb_units by (split; [lia|]; transitivity (2 ^ 53); [lia|closed]).
    rewrite (mb_units_exact z Hz). unfold tenth.
    replace (_ <? 0) with false by (symmetry; apply Z.ltb_ge; exact Ht).
    rewrite Z.abs_eq by exact Ht.
    rewrite signed_is_neg_false; [reflexivity|].
    unfold grid_of_tenths. pose proof one_k_pos.
    apply round_grid_nonneg; nia.
  - replace (1024 * round_half_even (10 * z) 1024)
      with (round_half_even (10 * z) 1024 * 1024) by ring. exact Hnear.
  - replace (1024 * round_half_even (10 * z) 1024)
      with (round_half_even (10 * z) 1024 * 1024) by ring. exact Htie.
Qed.

Lemma to_mb_exact_witness :
  exists t,
    to_mb 2100 = Ok (tenth t) /\ 0 <= t /\
    2 * Z.abs (1024 * t - 10 * 2100) <= 1024 /\
    (2 * Z.abs (1024 * t - 10 * 2100) = 1024 -> Z.even t = true).
Proof. apply (to_mb_exact 2100). split; [lia | closed]. Defined.

(** The rounding onto the grid moves a quotient by at most half the
    spacing of the grid there. *)
Lemma round_grid_error n d :
  0 <= n -> 0 < d ->
  2 * Z.abs (round_grid n d * d - n) <= d * 2 ^ ulp_shift n d.
Proof.
  intros Hn Hd. unfold round_grid.
  pose proof (ulp_shift_nonneg n d) as Hs.
  set (s := ulp_shift n d) in *.
  assert (Hp : 0 < 2 ^ s) by (apply Z.pow_pos_nonneg; lia).
  destruct (round_half_even_cases n (d * 2 ^ s) ltac:(nia)) as (_ & H & _).
  replace (round_half_even n (d * 2 ^ s) * 2 ^ s * d)
    with (round_half_even n (d * 2 ^ s) * (d * 2 ^ s)) by ring.
  exact H.
Qed.

Lemma ulp_shift_le n d B e :
  0 <= n -> 0 < d -> n <= B * d -> B < 2 ^ (e + 53) -> 0 <= e ->
  ulp_shift n d <= e.
Proof.
  intros Hn Hd HB He He0. unfold ulp_shift.
  assert (Hq : n / d <= B).
  { apply Z.div_le_upper_bound; [lia|nia]. }
  assert (Hq0 : 0 <= n / d) by (apply Z.div_pos; lia).
  destruct (Z.eq_dec (n / d) 0) as [->|Hne].
  - change (Z.log2 0) with 0. lia.
  - assert (Z.log2 (n / d) < e + 53) by (apply Z.log2_lt_pow2; lia). lia.
Qed.

Lemma scale_bound a c k y :
  2 * a <= c -> 0 <= k -> 0 <= y -> 2 * (k * a * y) <= k * c * y.
Proof.
  intros H Hk Hy.
  assert (0 <= k * y * (c - 2 * a))
    by (apply Z.mul_nonneg_nonneg; [apply Z.mul_nonneg_nonneg|]; lia).
  lia.
Qed.

(** The number of tenths of [round(x / y * 100, 1)] is within a half,
    and [2^-42], of ten times the exact percentage. *)
Lemma percent_units_accuracy x y :
  0 <= x <= y -> 0 < y ->
  exists t,
    percent_units x y = grid_of_tenths t /\ 0 <= t <= 1000 /\
    2 ^ 42 * Z.abs (t * y - 1000 * x) <= (2 ^ 41 + 1) * y.
Proof.
  intros Hx Hy. unfold percent_units. pose proof one_k_pos as Hone.
  set (q := round_grid (x * one_k) y).
  set (u := round_grid (q * (100 * one_k)) one_k).
  exists (tenths u).
  destruct (round_grid_bound (x * one_k) y one_k on_grid_one)
    as [Hq _]; [nia | lia | nia |]. fold q in Hq.
  destruct (round_grid_bound (q * (100 * one_k)) one_k (100 * one_k)
              on_grid_hundred) as [Hu _]; [nia | lia | nia |]. fold u in Hu.
  destruct (tenths_le u 1000 ltac:(lia)) as [Ht0 Ht].
  split; [reflexivity|]. split; [lia|].
  (* the three rounding errors *)
  pose proof (round_grid_error (x * one_k) y ltac:(nia) Hy) as E1.
  fold q in E1.
  assert (S1 : ulp_shift (x * one_k) y <= 1022).
  { apply (ulp_shift_le _ _ one_k); try lia; try nia.
    apply closed_lt. vm_compute. reflexivity. }
  pose proof (round_grid_error (q * (100 * one_k)) one_k ltac:(nia) Hone) as E2.
  fold u in E2.
  assert (S2 : ulp_shift (q * (100 * one_k)) one_k <= 1028).
  { apply (ulp_shift_le _ _ (100 * one_k)); try lia; try nia.
    apply closed_lt. vm_compute. reflexivity. }
  destruct (round_half_even_cases (10 * Z.abs u) one_k Hone) as (_ & E3 & _).
  fold (tenths u) in E3. rewrite (Z.abs_eq u) in E3 by lia.
  pose proof (ulp_shift_nonneg (x * one_k) y) as S1'.
  pose proof (ulp_shift_nonneg (q * (100 * one_k)) one_k) as S2'.
  assert (P1 : 2 ^ ulp_shift (x * one_k) y <= 2 ^ 1022)
    by (apply Z.pow_le_mono_r; lia).
  assert (P2 : 2 ^ ulp_shift (q * (100 * one_k)) one_k <= 2 ^ 1028)
    by (apply Z.pow_le_mono_r; lia).
  set (p1 := 2 ^ ulp_shift (x * one_k) y) in *.
  set (p2 := 2 ^ ulp_shift (q * (100 * one_k)) one_k) in *.
  set (t := tenths u) in *.
  set (A := t * one_k - 10 * u) in *.
  set (C := q * y - x * one_k) in *.
  assert (E2' : 2 * Z.abs (u - 100 * q) <= p2).
  { replace (u * one_k - q * (100 * one_k)) with ((u - 100 * q) * one_k)
      in E2 by ring.
    rewrite Z.abs_mul, (Z.abs_eq one_k) in E2 by lia.
    replace (2 * (Z.abs (u - 100 * q) * one_k))
      with (2 * Z.abs (u - 100 * q) * one_k) in E2 by ring.
    apply (Z.mul_le_mono_pos_r _ _ one_k Hone). lia. }
  set (B := u - 100 * q) in *.
  assert (HD : (t * y - 1000 * x) * one_k = A * y + 10 * B * y + 1000 * C)
    by (subst A B C; ring).
  assert (HA : 2 * Z.abs (A * y) <= one_k * y).
  { rewrite Z.abs_mul, (Z.abs_eq y) by lia.
    pose proof (scale_bound (Z.abs A) one_k 1 y E3). lia. }
  assert (HB : 2 * Z.abs (10 * B * y) <= 10 * 2 ^ 1028 * y).
  { rewrite !Z.abs_mul, (Z.abs_eq y), (Z.abs_eq 10) by lia.
    pose proof (scale_bound (Z.abs B) (2 ^ 1028) 10 y). lia. }
  assert (HC : 2 * Z.abs (1000 * C) <= 1000 * 2 ^ 1022 * y).
  { rewrite Z.abs_mul, (Z.abs_eq 1000) by lia.
    assert (y * p1 <= y * 2 ^ 1022) by (apply Z.mul_le_mono_nonneg_l; lia).
    lia. }
  assert (Hsum : 2 * Z.abs ((t * y - 1000 * x) * one_k)
                 <= (one_k + 10 * 2 ^ 1028 + 1000 * 2 ^ 1022) * y).
  { rewrite HD. lia. }
  rewrite Z.abs_mul, (Z.abs_eq one_k) in Hsum by lia.
  assert (Hc : 2 ^ 41 * (one_k + 10 * 2 ^ 1028 + 1000 * 2 ^ 1022)
               <= (2 ^ 41 + 1) * one_k) by closed.
  set (K := one_k + 10 * 2 ^ 1028 + 1000 * 2 ^ 1022) in *.
  set (D := Z.abs (t * y - 1000 * x)) in *.
  assert (HD0 : 0 <= D) by (subst D; lia).
  change (2 ^ 42) with (2 ^ 41 * 2).
  set (h := 2 ^ 41) in *. assert (Hh : 0 < h) by (subst h; lia).
  clearbody K D h. clear -Hsum Hc Hone Hy HD0 Hh.
  apply (Z.mul_le_mono_pos_r _ _ one_k Hone).
  transitivity (h * (K * y)).
  - replace (h * 2 * D * one_k) with (h * (2 * (D * one_k))) by ring.
    apply Z.mul_le_mono_nonneg_l; lia.
  - replace (h * (K * y)) with (h * K * y) by ring.
    replace ((h + 1) * y * one_k) with ((h + 1) * one_k * y) by ring.
    apply Z.mul_le_mono_nonneg_r; lia.
Qed.

(** X21. The percentages are accurate: when the used part lies between
    0 and the total, the value returned is the float written [t/10]
    for an integer [t] between 0 and 1000 that differs from ten times
    the exact percentage by at most [1/2 + 2^-42]. *)
Theorem percent_accuracy (os : platform) :
  (forall path total used free,
     disk_usage os path = Ok (total, used, free) ->
     0 <= used <= total -> 0 < total ->
     exists t,
       get_disk_percent os path = Ok (PyFloat (tenth t)) /\
       0 <= t <= 1000 /\
       2 ^ 42 * Z.abs (t * total - 1000 * used) <= (2 ^ 41 + 1) * total) /\
  (forall info mem,
     meminfo os = Ok info -> parse_meminfo info = Ok mem ->
     0 <= mem_avail mem <= mem_total mem -> 0 < mem_total mem ->
     exists t,
       get_mem_percent os = Ok (PyFloat (tenth t)) /\
       0 <= t <= 1000 /\
       2 ^ 42 * Z.abs (t * mem_total mem
                       - 1000 * (mem_total mem - mem_avail mem))
       <= (2 ^ 41 + 1) * mem_total mem).
Proof.
  assert (Htenth : forall t, 0 <= t -> tenth t = Fin (grid_of_tenths t)).
  { intros t Ht. unfold tenth.
    replace (t <? 0) with false by (symmetry; apply Z.ltb_ge; exact Ht).
    rewrite Z.abs_eq by exact Ht. apply signed_is_neg_false.
    unfold grid_of_tenths. pose proof one_k_pos.
    apply round_grid_nonneg; nia. }
  split.
  - intros path total used free Hd Hu Ht.
    rewrite (MetricsReader.get_disk_percent_unfold os path total used free Hd).
    rewrite percent_units_eq by lia.
    destruct (percent_units_accuracy used total Hu Ht) as (t & -> & Ht' & Hacc).
    exists t. rewrite (Htenth t) by lia. auto.
  - intros info mem Hi Hm Ha Ht.
    rewrite (MetricsReader.get_mem_percent_unfold os info mem Hi Hm).
    destruct (Z.eqb_spec (mem_total mem) 0); [lia|].
    rewrite percent_units_eq by lia.
    destruct (percent_units_accuracy (mem_total mem - mem_avail mem)
                (mem_total mem) ltac:(lia) Ht) as (t & -> & Ht' & Hacc).
    exists t. rewrite (Htenth t) by lia. auto.
Qed.

Lemma percent_accuracy_witness :
  exists t,
    get_disk_percent host_6_25 "/" = Ok (PyFloat (tenth t)) /\
    0 <= t <= 1000 /\
    2 ^ 42 * Z.abs (t * 16 - 1000 * 1) <= (2 ^ 41 + 1) * 16.
Proof.
  apply (proj1 (percent_accuracy host_6_25) "/" 16 1 15);
    [reflexivity | lia | lia].
Defined.

End Accuracy.

(** ** The log *)

Module LogFacts.
Import F64 Py Monitor Logging Spec Shapes Examples Fixtures.
Import TextFacts ProcessScanner.
Local Open Scope string_scope.
Local Open Scope Z_scope.

Lemma Ok_inj {A} (a b : A) : Ok a = Ok b -> a = b.
Proof. congruence. Qed.

Lemma logged_zero w : logged w "" 0 = w.
Proof.
  destruct w as [f p n]. unfold logged. cbn [log_file printed clock_reads].
  rewrite !app_nil_r_str, Nat.add_0_r. reflexivity.
Qed.

Lemma logged_logged w l1 k1 l2 k2 :
  logged (logged w l1 k1) l2 k2 = logged w (l1 ++ l2) (k1 + k2).
Proof.
  unfold logged. cbn [log_file printed clock_reads].
  rewrite !app_assoc_str, Nat.add_assoc. reflexivity.
Qed.

Lemma log_ok rt m w :
  can_append rt = true ->
  log rt (message rt m) w
  = (Ok tt, logged w (stamped rt (clock_reads w) [m]) 1).
Proof.
  intros Hc. unfold log, logged. rewrite Hc. cbn [stamped].
  rewrite Nat.add_1_r.
  change (String (ascii_of_N 10) "" ++ "") with (String (ascii_of_N 10) "").
  reflexivity.
Qed.

Lemma stamped_app rt n l1 l2 :
  stamped rt n (l1 ++ l2)
  = stamped rt n l1 ++ stamped rt (n + length l1) l2.
Proof.
  revert n. induction l1 as [|m l1 IH]; intros n.
  - cbn [app stamped length]. rewrite Nat.add_0_r. reflexivity.
  - cbn [app stamped length]. rewrite IH, !app_assoc_str.
    change (String (ascii_of_N 10) "" ++ stamped rt (S n) l1
            ++ stamped rt (S n + length l1) l2)
      with (String (ascii_of_N 10)
              (stamped rt (S n) l1 ++ stamped rt (S n + length l1) l2)).
    change (String (ascii_of_N 10) "" ++ stamped rt (S n) l1)
      with (String (ascii_of_N 10) (stamped rt (S n) l1)).
    rewrite Nat.add_succ_r. reflexivity.
Qed.

(** Logging a list of messages one after the other. *)
Lemma log_all rt (msgs : list log_msg) w :
  can_append rt = true ->
  io_iter (fun m => log rt (message rt m)) msgs w
  = (Ok tt, logged w (stamped rt (clock_reads w) msgs) (length msgs)).
Proof.
  intros Hc. revert w. induction msgs as [|m msgs IH]; intros w.
  - cbn [io_iter stamped length]. unfold io_ret. now rewrite logged_zero.
  - cbn [io_iter]. unfold io_bind. rewrite (log_ok rt m w Hc), IH.
    rewrite logged_logged. f_equal. f_equal.
    change (m :: msgs) with ([m] ++ msgs)%list.
    rewrite stamped_app. cbn [logged clock_reads length].
    rewrite Nat.add_1_r. reflexivity.
Qed.

Lemma io_iter_map {A B} (g : A -> B) (f : B -> io unit) l :
  io_iter (fun a => f (g a)) l = io_iter f (map g l).
Proof.
  induction l as [|a l IH]; [reflexivity|]. cbn [io_iter map].
  now rewrite IH.
Qed.

Lemma log_head rt mem disk w :
  can_append rt = true ->
  (_ <<- log rt (message rt (Summary mem disk));;
   _ <<- (if ge_int mem TH_RAM then log rt (message rt (AlertRam mem))
          else io_ret tt);;
   (if ge_int disk TH_DISK then log rt (message rt (AlertDisk disk))
    else io_ret tt)) w
  = (Ok tt, logged w (stamped rt (clock_reads w) (main_head mem disk))
              (length (main_head mem disk))).
Proof.
  intros Hc.
  pose proof (log_all rt (main_head mem disk) w Hc) as H.
  rewrite <- H. unfold main_head.
  destruct (ge_int mem TH_RAM), (ge_int disk TH_DISK);
    cbn [app io_iter]; unfold io_bind, io_ret;
    repeat (rewrite log_ok by exact Hc); reflexivity.
Qed.

(** X22. With a log file that can be opened, [main] appends to it one
    line per message, the time of the call and [" - "] before it, in
    the order of the messages, and prints the same lines; what the file
    held before stays in front. If the gathering of the process
    details raises, the summary and the alerts have been logged by
    then. *)
Theorem main_io_writes_messages (os : platform) (rt : runtime) (w : world) :
  can_append rt = true ->
  (forall msgs, main os = Ok msgs ->
     main_io os rt w
     = (Ok tt, logged w (stamped rt (clock_reads w) msgs) (length msgs))) /\
  (forall e, main os = Raise e ->
     exists mem disk,
       get_mem_percent os = Ok mem /\ get_disk_percent os "/" = Ok disk /\
       main_io os rt w
       = (Raise e,
          logged w (stamped rt (clock_reads w) (main_head mem disk))
            (length (main_head mem disk)))).
Proof.
  intros Hc. unfold main, main_io.
  destruct (get_mem_percent os) as [mem|e0] eqn:Hmem.
  2: { split; [discriminate|]. intros e He.
       destruct (try_except_returns
                   (info <-- meminfo os;;
                    mem <-- parse_meminfo info;;
                    if mem_total mem =? 0 then Ok (PyInt 0)
                    else r <-- percent (mem_total mem - mem_avail mem)
                                 (mem_total mem);; Ok (PyFloat r))
                   (Ok (PyInt 0)) (returns_ok _)) as [m Hm].
       unfold get_mem_percent in Hmem. congruence. }
  destruct (get_disk_percent os "/") as [disk|e0] eqn:Hdisk.
  2: { split; [discriminate|]. intros e He.
       destruct (try_except_returns
                   (usage <-- disk_usage os "/";;
                    let '(total, used, free) := usage in
                    r <-- percent used total;; Ok (PyFloat r))
                   (Ok (PyInt 0)) (returns_ok _)) as [d Hd].
       unfold get_disk_percent in Hdisk. congruence. }
  cbn [rbind]. fold (main_head mem disk).
  pose proof (log_head rt mem disk w Hc) as Hhead.
  set (w1 := logged w (stamped rt (clock_reads w) (main_head mem disk))
               (length (main_head mem disk))) in *.
  assert (Hrun : forall (k : io unit),
            io_bind (io_lift (Ok mem)) (fun mem0 =>
              io_bind (io_lift (Ok disk)) (fun disk0 =>
                _ <<- log rt (message rt (Summary mem0 disk0));;
                _ <<- (if ge_int mem0 TH_RAM
                       then log rt (message rt (AlertRam mem0))
                       else io_ret tt);;
                _ <<- (if ge_int disk0 TH_DISK
                       then log rt (message rt (AlertDisk disk0))
                       else io_ret tt);;
                k)) w = k w1).
  { intros k. unfold io_bind at 1 2. unfold io_lift.
    unfold io_bind in Hhead |- *.
    destruct (log rt (message rt (Summary mem disk)) w) as [[[]|e1] wa];
      [|discriminate Hhead].
    destruct ((if ge_int mem TH_RAM
               then log rt (message rt (AlertRam mem)) else io_ret tt) wa)
      as [[[]|e1] wb]; [|discriminate Hhead].
    destruct ((if ge_int disk TH_DISK
               then log rt (message rt (AlertDisk disk)) else io_ret tt) wb)
      as [[[]|e1] wc]; [|discriminate Hhead].
    injection Hhead as ->. reflexivity. }
  rewrite Hrun. clear Hrun Hhead.
  destruct (find_java_pids os) as [pids|e0] eqn:Hp.
  2: { split; [discriminate|]. intros e He. exfalso.
       destruct (try_except_returns
                   (out0 <-- pgrep_java os;;
                    if nonempty (strip out0)
                    then mapM int (List.filter (fun x => nonempty (strip x))
                                     (split_ws (strip out0)))
                    else Ok [])
                   (Ok []) (returns_ok _)) as [m Hm].
       unfold find_java_pids in Hp. congruence. }
  cbn [rbind]. unfold io_bind at 1. unfold io_lift at 1.
  destruct pids as [|p pids].
  - split; [|discriminate]. intros msgs H.
    change (Ok (main_head mem disk ++ [NoJava])%list = Ok msgs) in H.
    apply Ok_inj in H. subst msgs.
    rewrite (log_ok rt NoJava w1 Hc). subst w1. rewrite logged_logged.
    rewrite List.length_app, stamped_app. reflexivity.
  - destruct (main_details os (p :: pids)) as [ds|e0] eqn:Hds.
    + cbn [rbind]. split; [|discriminate]. intros msgs H.
      change (Ok (main_head mem disk ++ [ProcHeader] ++ map proc_line ds)%list
              = Ok msgs) in H.
      apply Ok_inj in H. subst msgs.
      unfold io_bind, io_lift. rewrite (log_ok rt ProcHeader w1 Hc).
      rewrite (io_iter_map proc_line (fun m => log rt (message rt m)) ds).
      rewrite (log_all rt (map proc_line ds) _ Hc).
      subst w1. rewrite !logged_logged.
      rewrite !List.length_app, !stamped_app. cbn [logged clock_reads length].
      rewrite !Nat.add_assoc. reflexivity.
    + cbn [rbind]. split; [discriminate|]. intros e H. injection H as <-.
      exists mem, disk. split; [reflexivity|]. split; [reflexivity|].
      unfold io_bind, io_lift. rewrite Hds. reflexivity.
Qed.

Lemma main_io_writes_messages_witness :
  main_io host_down (frozen_clock true) blank_world
  = (Ok tt,
     logged blank_world
       (stamped (frozen_clock true) 0 [Summary (PyInt 0) (PyInt 0); NoJava])
       2).
Proof.
  apply (proj1 (main_io_writes_messages host_down (frozen_clock true)
                  blank_world eq_refl)
           [Summary (PyInt 0) (PyInt 0); NoJava]).
  reflexivity.
Defined.

(** X23. The calls of [log] are outside every [try]: when monitor.log
    cannot be opened for appending, [main] ends with [OSError] at its
    first message, whatever the state of the host; nothing has been
    appended and nothing printed. *)
Theorem unwritable_log_stops_main (os : platform) (rt : runtime) (w : world) :
  can_append rt = false ->
  main_io os rt w
  = (Raise OSError,
     {| log_file := log_file w; printed := printed w;
        clock_reads := S (clock_reads w) |}).
Proof.
  intros Hc. unfold main_io.
  destruct (try_except_returns
              (info <-- meminfo os;;
               mem <-- parse_meminfo info;;
               if mem_total mem =? 0 then Ok (PyInt 0)
               else r <-- percent (mem_total mem - mem_avail mem)
                            (mem_total mem);; Ok (PyFloat r))
              (Ok (PyInt 0)) (returns_ok _)) as [m Hm].
  destruct (try_except_returns
              (usage <-- disk_usage os "/";;
               let '(total, used, free) := usage in
               r <-- percent used total;; Ok (PyFloat r))
              (Ok (PyInt 0)) (returns_ok _)) as [d Hd].
  unfold get_mem_percent, get_disk_percent. rewrite Hm, Hd.
  unfold io_bind, io_lift, log. rewrite Hc. reflexivity.
Qed.

Lemma unwritable_log_stops_main_witness :
  main_io host_old_kernel (frozen_clock false) blank_world
  = (Raise OSError, {| log_file := ""; printed := ""; clock_reads := 1 |}).
Proof.
  apply (unwritable_log_stops_main host_old_kernel (frozen_clock false)
           blank_world).
  reflexivity.
Defined.

End LogFacts.
